(** * Open-Meteo MCP weather server: location resolution and tool handlers

    A shallow embedding of [mcp_open_meteo_elicit/location_resolver.py] and
    [mcp_open_meteo_elicit/tools.py], with the properties of the design
    document proved about it.

    Modelling conventions.
    - Python [int] is [Z]; JSON numbers that are only compared or passed
      through (coordinates, wind speed, temperatures) are [Q]: every finite
      float is a rational and Python compares numbers by their exact value.
    - A Python [str] is the [string] of its UTF-8 encoding, which is what
      concatenation and formatting need.  Where the code looks at the
      characters themselves ([len] and [strip] of a [str]) the model works on
      the code points, which [code_points] decodes from the bytes.
    - The dictionaries returned by the geocoding and forecast services are
      records.  A key that the code reads with [d.get(k)] is an [option]
      field; a key that is only ever read with [d[k]] is a plain field.
      ["country"] is read both ways, so it is an [option] field and the
      subscript raises [KeyError] when it is absent.
    - [await]ed calls on the outside world (the geocoding search, the
      elicitation exchange, the forecast request) are operations of a small
      monad that threads the list of calls made so far and may raise.  What
      the world answers is given by a [Host].
    - The [ctx.info]/[ctx.debug]/[ctx.warning]/[ctx.error] notices are
      advisory and left out; so are the [try ... except Exception: log; raise]
      wrappers, which re-raise the exception unchanged.
    - Validation done by the pydantic models of [models.py] is not modelled:
      the records are already typed. *)

From Stdlib Require Import ZArith QArith List String Ascii Bool Lia.
From Stdlib Require Import DecimalString.
Import ListNotations.

Local Open Scope string_scope.
Local Open Scope list_scope.
Local Open Scope Z_scope.

(** ** Exceptions and results *)

Inductive exn : Type :=
| ValueError (msg : string)
| KeyError (key : string)
| IndexError.

Inductive result (A : Type) : Type :=
| Ok (a : A)
| Raise (e : exn).
Arguments Ok {A} a.
Arguments Raise {A} e.

Definition rbind {A B} (r : result A) (k : A -> result B) : result B :=
  match r with
  | Ok a => k a
  | Raise e => Raise e
  end.

Notation "x <-? r ;; k" := (rbind r (fun x => k))
  (at level 61, r at next level, right associativity).

(** ** Python primitives *)

Definition nl : string := String "010"%char EmptyString.

(** [len(l)] *)
Definition len {A} (l : list A) : Z := Z.of_nat (List.length l).

(** [l[:m]] *)
Definition py_slice_to {A} (l : list A) (m : Z) : list A :=
  if m <? 0 then firstn (Z.to_nat (len l + m)) l else firstn (Z.to_nat m) l.

(** [l[i]] for an integer [i]: negative indices count from the end. *)
Definition py_getitem {A} (l : list A) (i : Z) : result A :=
  let j := if i <? 0 then len l + i else i in
  if j <? 0 then Raise IndexError
  else match nth_error l (Z.to_nat j) with
       | Some a => Ok a
       | None => Raise IndexError
       end.

(** [d[k]] on a key that may be missing. *)
Definition py_key {A} (k : string) (o : option A) : result A :=
  match o with
  | Some a => Ok a
  | None => Raise (KeyError k)
  end.

(** [d.get(k, default)] *)
Definition py_get {A} (o : option A) (default : A) : A :=
  match o with
  | Some a => a
  | None => default
  end.

(** Truth value of [d.get(k)] for a string and for an integer. *)
Definition truthy_str (o : option string) : bool :=
  match o with
  | Some s => negb (s =? EmptyString)%string
  | None => false
  end.

Definition truthy_int (o : option Z) : bool :=
  match o with
  | Some n => negb (n =? 0)
  | None => false
  end.

(** [a != b] on two results of [d.get(k)] holding strings. *)
Definition opt_str_eqb (a b : option string) : bool :=
  match a, b with
  | Some x, Some y => (x =? y)%string
  | None, None => true
  | _, _ => false
  end.

(** *** The characters of a [str]

    The code points of a [str], decoded from its UTF-8 encoding: one byte
    below 128, or a lead byte followed by one, two or three continuation
    bytes.  A byte that starts no well-formed sequence, which the encoding of
    a [str] never holds, is read as U+FFFD. *)

Definition byte_of (c : ascii) : Z := Z.of_N (N_of_ascii c).

Definition continuation (b : Z) : bool := (128 <=? b) && (b <? 192).

Definition replacement_character : Z := 65533.

Fixpoint decode_utf8 (bytes : list Z) : list Z :=
  match bytes with
  | [] => []
  | b :: rest =>
      if b <? 128 then b :: decode_utf8 rest
      else if (192 <=? b) && (b <? 224) then
        match rest with
        | c1 :: rest1 =>
            if continuation c1
            then ((b - 192) * 64 + (c1 - 128)) :: decode_utf8 rest1
            else replacement_character :: decode_utf8 rest
        | _ => replacement_character :: decode_utf8 rest
        end
      else if (224 <=? b) && (b <? 240) then
        match rest with
        | c1 :: c2 :: rest2 =>
            if continuation c1 && continuation c2
            then ((b - 224) * 4096 + (c1 - 128) * 64 + (c2 - 128))
                 :: decode_utf8 rest2
            else replacement_character :: decode_utf8 rest
        | _ => replacement_character :: decode_utf8 rest
        end
      else if (240 <=? b) && (b <? 248) then
        match rest with
        | c1 :: c2 :: c3 :: rest3 =>
            if continuation c1 && continuation c2 && continuation c3
            then ((b - 240) * 262144 + (c1 - 128) * 4096 + (c2 - 128) * 64
                  + (c3 - 128))
                 :: decode_utf8 rest3
            else replacement_character :: decode_utf8 rest
        | _ => replacement_character :: decode_utf8 rest
        end
      else replacement_character :: decode_utf8 rest
  end.

Definition code_points (s : string) : list Z :=
  decode_utf8 (map byte_of (list_ascii_of_string s)).

(** The UTF-8 encoding of one code point, as [str.encode] writes it. *)
Definition utf8_encode (c : Z) : list Z :=
  if c <? 128 then [c]
  else if c <? 2048 then [192 + c / 64; 128 + c mod 64]
  else if c <? 65536 then
    [224 + c / 4096; 128 + (c / 64) mod 64; 128 + c mod 64]
  else
    [240 + c / 262144; 128 + (c / 4096) mod 64; 128 + (c / 64) mod 64;
     128 + c mod 64].

(** [str(n)] for an integer. *)
Definition str_int (n : Z) : string := NilZero.string_of_int (Z.to_int n).

(** [sep.join(parts)] *)
Definition join (sep : string) (parts : list string) : string :=
  String.concat sep parts.

(** *** The format specification [{n:,}]

    Modelled from the Python format-specification language: the [,] option
    puts a comma between groups of three digits, counted from the right; the
    sign stays in front. *)

Fixpoint group3 (rev_digits : list ascii) : list ascii :=
  match rev_digits with
  | a :: b :: c :: (_ :: _) as rest => a :: b :: c :: ","%char :: group3 rest
  | _ => rev_digits
  end.

Definition digits_of (n : Z) : list ascii :=
  list_ascii_of_string (NilZero.string_of_uint (N.to_uint (Z.abs_N n))).

Definition sign_of (n : Z) : string :=
  if n <? 0 then "-" else EmptyString.

Definition format_thousands (n : Z) : string :=
  (sign_of n ++ string_of_list_ascii (rev (group3 (rev (digits_of n)))))%string.

(** ** Data model *)

(** One entry of the ["results"] list answered by the geocoding service. *)
Module Loc.
Record t : Type := mk {
  id : Z;
  name : string;
  latitude : Q;
  longitude : Q;
  country : option string;
  admin1 : option string;
  admin2 : option string;
  timezone : string;
  population : option Z;
  elevation : option Q
}.
End Loc.

(** [models.LocationInfo]: the fields are those of its constructor calls. *)
Module LocationInfo.
Record t : Type := mk {
  id : Z;
  name : string;
  latitude : Q;
  longitude : Q;
  country : string;
  admin1 : option string;
  admin2 : option string;
  timezone : string;
  population : option Z;
  elevation : option Q
}.
End LocationInfo.

(** [models.LocationChoice], the schema of the elicitation: one integer. *)
Record LocationChoice : Type := { selected_location_id : Z }.

(** The outcome of [ctx.elicit]: an action tag, and the payload that comes
    with an accepted answer. *)
Inductive action_tag : Type := accept | decline | cancel.

Record ElicitationResult : Type := {
  action : action_tag;
  data : option LocationChoice
}.

Definition is_accept (a : action_tag) : bool :=
  match a with
  | accept => true
  | _ => false
  end.

(** The query parameters of a forecast request, as [get_weather_data] builds
    them. *)
Module Params.
Record t : Type := mk {
  latitude : Q;
  longitude : Q;
  temperature_unit : string;
  wind_speed_unit : string;
  precipitation_unit : string;
  forecast_days : Z;
  current : option string;
  hourly : option string;
  daily : option string
}.
End Params.

(** The groups of a forecast response.  Each column of [hourly] and [daily]
    is a list with one entry per time step. *)
Module Current.
Record t : Type := mk {
  time : string;
  temperature_2m : Q;
  relative_humidity_2m : Q;
  weather_code : Z;
  wind_speed_10m : Q;
  wind_direction_10m : Q;
  pressure_msl : Q;
  cloud_cover : Q
}.
End Current.

Module CurrentUnits.
Record t : Type := mk {
  temperature_2m : string;
  wind_speed_10m : string
}.
End CurrentUnits.

Module Hourly.
Record t : Type := mk {
  time : list string;
  temperature_2m : list Q;
  relative_humidity_2m : list Q;
  weather_code : list Z;
  precipitation : list Q;
  wind_speed_10m : list Q;
  wind_direction_10m : list Q;
  cloud_cover : list Q
}.
End Hourly.

Module HourlyUnits.
Record t : Type := mk {
  temperature_2m : string;
  precipitation : string;
  wind_speed_10m : string
}.
End HourlyUnits.

Module Daily.
Record t : Type := mk {
  time : list string;
  temperature_2m_max : list Q;
  temperature_2m_min : list Q;
  weather_code : list Z;
  precipitation_sum : list Q;
  wind_speed_10m_max : list Q;
  wind_direction_10m_dominant : list Q
}.
End Daily.

Module DailyUnits.
Record t : Type := mk {
  temperature_2m_max : string;
  precipitation_sum : string;
  wind_speed_10m_max : string
}.
End DailyUnits.

Module WeatherData.
Record t : Type := mk {
  current : option Current.t;
  current_units : option CurrentUnits.t;
  hourly : option Hourly.t;
  hourly_units : option HourlyUnits.t;
  daily : option Daily.t;
  daily_units : option DailyUnits.t
}.
End WeatherData.

(** *** Output records of the tool handlers

    [models.py] is not among the sources; the fields of the output records
    are those of their constructor calls. *)
Module CurrentWeather.
Record t : Type := mk {
  location : LocationInfo.t;
  temperature : Q;
  temperature_unit : string;
  humidity : Q;
  weather_description : string;
  weather_code : Z;
  wind_speed : Q;
  wind_direction : Q;
  wind_speed_unit : string;
  pressure : Q;
  cloud_cover : Q;
  timestamp : string
}.
End CurrentWeather.

Module DailyForecast.
Record t : Type := mk {
  date : string;
  temperature_max : Q;
  temperature_min : Q;
  temperature_unit : string;
  weather_description : string;
  weather_code : Z;
  precipitation_sum : Q;
  precipitation_unit : string;
  wind_speed_max : Q;
  wind_direction_dominant : Q;
  wind_speed_unit : string
}.
End DailyForecast.

Module WeatherForecast.
Record t : Type := mk {
  location : LocationInfo.t;
  forecast_days : list DailyForecast.t;
  generated_at : string
}.
End WeatherForecast.

Module HourlyWeatherPoint.
Record t : Type := mk {
  time : string;
  temperature : Q;
  humidity : Q;
  weather_code : Z;
  weather_description : string;
  precipitation : Q;
  wind_speed : Q;
  wind_direction : Q;
  cloud_cover : Q
}.
End HourlyWeatherPoint.

Module HourlyForecast.
Record t : Type := mk {
  location : LocationInfo.t;
  hourly_data : list HourlyWeatherPoint.t;
  temperature_unit : string;
  precipitation_unit : string;
  wind_speed_unit : string;
  generated_at : string
}.
End HourlyForecast.

(** One entry of the [alerts] list: a dictionary with these five keys. *)
Module Alert.
Record t : Type := mk {
  type : string;
  severity : string;
  title : string;
  description : string;
  time : string
}.
End Alert.

(** The dictionary returned by [get_weather_alerts]. *)
Module Alerts.
Record t : Type := mk {
  location : LocationInfo.t;
  alerts : list Alert.t;
  alert_count : Z;
  checked_at : string
}.
End Alerts.

(** ** Configuration

    [config.py] is not among the sources; its constants are the fields of
    this record. *)
Record config : Type := {
  MAX_LOCATION_SEARCH_RESULTS : Z;
  MAX_LOCATION_ELICITATION_OPTIONS : Z;
  MAX_FORECAST_DAYS : Z;
  MAX_FORECAST_HOURS : Z;
  HIGH_WIND_THRESHOLD_KMH : Q;
  SEVERE_WEATHER_CODES : list Z;
  FREEZING_RAIN_CODES : list Z;
  SNOW_CODES : list Z
}.

(** ** The outside world *)

(** What the collaborators answer.  [geocoding name count] is what
    [api_client.search_locations] returns or raises after its one GET with
    those parameters; [forecast params] likewise for
    [api_client.get_weather_data]; [elicitation message] is the answer of the
    user to [ctx.elicit]; [now] is [datetime.now().isoformat()]. *)
Record Host : Type := {
  geocoding : string -> Z -> result (list Loc.t);
  forecast : Params.t -> result WeatherData.t;
  elicitation : string -> ElicitationResult;
  now : string
}.

(** The calls a handler makes, in the order it makes them. *)
Inductive call : Type :=
| GeocodingRequest (name : string) (count : Z)
| ForecastRequest (params : Params.t)
| Elicitation (message : string).

Definition trace : Type := list call.

(** A computation: it extends the trace and returns or raises. *)
Definition M (A : Type) : Type := trace -> result A * trace.

Definition ret {A} (a : A) : M A := fun tr => (Ok a, tr).

Definition raise {A} (e : exn) : M A := fun tr => (Raise e, tr).

Definition lift {A} (r : result A) : M A := fun tr => (r, tr).

Definition bind {A B} (m : M A) (k : A -> M B) : M B :=
  fun tr =>
    match m tr with
    | (Ok a, tr') => k a tr'
    | (Raise e, tr') => (Raise e, tr')
    end.

Notation "x <- m ;; k" := (bind m (fun x => k))
  (at level 61, m at next level, right associativity).

Definition is_elicitation (c : call) : bool :=
  match c with
  | Elicitation _ => true
  | _ => false
  end.

(** The elicitation messages of a trace. *)
Definition elicitations (tr : trace) : list call := filter is_elicitation tr.

(** ** api_client.py and location_resolver.py *)

Section Server.

Variable cfg : config.
Variable host : Host.

(** [constants.weather_code_to_description], not among the sources. *)
Variable weather_code_to_description : Z -> string.

(** [str(x)] for a JSON number inside an f-string. *)
Variable str_number : Q -> string.

(** [api_client.search_locations]: one GET whose [count] parameter is
    [min(limit, MAX_LOCATION_SEARCH_RESULTS)]. *)
Definition search_locations (location_name : string) (limit : Z)
  : M (list Loc.t) :=
  fun tr =>
    let count := Z.min limit (MAX_LOCATION_SEARCH_RESULTS cfg) in
    (geocoding host location_name count,
     tr ++ [GeocodingRequest location_name count]).

(** [",".join(group)] when the group is given and not empty. *)
Definition joined (group : option (list string)) : option string :=
  match group with
  | Some (p :: ps) => Some (join "," (p :: ps))
  | _ => None
  end.

(** [api_client.get_weather_data]: one GET with the parameters built from
    the arguments. *)
Definition get_weather_data (latitude longitude : Q)
    (current hourly daily : option (list string)) (forecast_days : Z)
    (temperature_unit wind_speed_unit precipitation_unit : string)
  : M WeatherData.t :=
  fun tr =>
    let params :=
      Params.mk latitude longitude temperature_unit wind_speed_unit
        precipitation_unit forecast_days
        (joined current) (joined hourly) (joined daily) in
    (forecast host params, tr ++ [ForecastRequest params]).

(** [ctx.elicit(message=message, schema=LocationChoice)] *)
Definition elicit (message : string) : M ElicitationResult :=
  fun tr => (Ok (elicitation host message), tr ++ [Elicitation message]).

(** The constructor call [LocationInfo(id=loc["id"], ...,
    country=loc.get("country", ''), ...)], which the source writes out at each
    of its three uses. *)
Definition location_info (loc : Loc.t) : LocationInfo.t :=
  LocationInfo.mk (Loc.id loc) (Loc.name loc)
    (Loc.latitude loc) (Loc.longitude loc)
    (py_get (Loc.country loc) EmptyString)
    (Loc.admin1 loc) (Loc.admin2 loc) (Loc.timezone loc)
    (Loc.population loc) (Loc.elevation loc).

(** The body of the loop that renders one option (lines 57-66): [i] is the
    index given by [enumerate]. *)
Definition option_text (i : nat) (loc : Loc.t) : result string :=
  let admin_parts := [] in
  let admin_parts :=
    if truthy_str (Loc.admin1 loc)
    then admin_parts ++ [py_get (Loc.admin1 loc) EmptyString]
    else admin_parts in
  let admin_parts :=
    if truthy_str (Loc.admin2 loc)
       && negb (opt_str_eqb (Loc.admin2 loc) (Loc.admin1 loc))
    then admin_parts ++ [py_get (Loc.admin2 loc) EmptyString]
    else admin_parts in
  let admin_str :=
    match admin_parts with
    | [] => EmptyString
    | _ => (", " ++ join ", " admin_parts)%string
    end in
  let pop_str :=
    if truthy_int (Loc.population loc)
    then (" (pop. " ++ format_thousands (py_get (Loc.population loc) 0)
          ++ ")")%string
    else EmptyString in
  country <-? py_key "country" (Loc.country loc) ;;
  Ok (str_int (Z.of_nat i + 1) ++ ". " ++ Loc.name loc ++ admin_str ++ ", "
      ++ country ++ pop_str)%string.

(** [for i, loc in enumerate(locs): location_options.append(option_text)],
    with the index starting at [i]. *)
Fixpoint render_options (i : nat) (locs : list Loc.t) : result (list string) :=
  match locs with
  | [] => Ok []
  | loc :: rest =>
      text <-? option_text i loc ;;
      texts <-? render_options (S i) rest ;;
      Ok (text :: texts)
  end.

Definition elicitation_message (location_name : string)
    (location_options : list string) : string :=
  ("Multiple locations found for '" ++ location_name ++ "':" ++ nl ++ nl
   ++ join nl location_options ++ nl ++ nl
   ++ "Please select the correct location:")%string.

Definition not_found_message (location_name : string) : string :=
  ("No locations found for '" ++ location_name
   ++ "'. Please try a different search term.")%string.

Definition cancelled_message : string :=
  "Location selection was cancelled or invalid.".

Definition invalid_selection_message : string :=
  "Invalid location selection. Please choose a number from the list.".

Definition resolve_location (location_name : string) : M LocationInfo.t :=
  locations <- search_locations location_name 10 ;;
  match locations with
  | [] => raise (ValueError (not_found_message location_name))
  | [loc] => ret (location_info loc)
  | _ =>
      let shown := py_slice_to locations (MAX_LOCATION_ELICITATION_OPTIONS cfg) in
      location_options <- lift (render_options 0 shown) ;;
      let message := elicitation_message location_name location_options in
      result <- elicit message ;;
      match is_accept (action result), data result with
      | true, Some choice =>
          let selected_index := selected_location_id choice - 1 in
          if (selected_index <? 0) || (selected_index >=? len shown)
          then raise (ValueError invalid_selection_message)
          else
            selected_location <- lift (py_getitem locations selected_index) ;;
            ret (location_info selected_location)
      | _, _ => raise (ValueError cancelled_message)
      end
  end.

(** ** tools.py *)

(** [c.isspace()] on one character, given as its code point: the
    characters that [str.strip()] removes. *)
Definition isspace (c : Z) : bool :=
  (9 <=? c) && (c <=? 13)
  || (28 <=? c) && (c <=? 32)
  || (c =? 133) || (c =? 160) || (c =? 5760)
  || (8192 <=? c) && (c <=? 8202)
  || (c =? 8232) || (c =? 8233) || (c =? 8239) || (c =? 8287)
  || (c =? 12288).

Fixpoint lstrip (l : list Z) : list Z :=
  match l with
  | c :: rest => if isspace c then lstrip rest else l
  | [] => []
  end.

(** [s.strip()], on the characters of [s]. *)
Definition strip (l : list Z) : list Z := rev (lstrip (rev (lstrip l))).

(** [range(n)] *)
Definition py_range (n : Z) : list Z := map Z.of_nat (seq 0 (Z.to_nat n)).

(** [x in codes] *)
Definition code_in (x : Z) (codes : list Z) : bool := existsb (Z.eqb x) codes.

(** A loop that appends one record per index. *)
Fixpoint for_each {A B} (f : A -> result B) (l : list A) : result (list B) :=
  match l with
  | [] => Ok []
  | a :: rest =>
      b <-? f a ;;
      bs <-? for_each f rest ;;
      Ok (b :: bs)
  end.

Definition too_short_message : string :=
  "Location name must be at least 2 characters long.".

Definition search_locations_tool (location_name : string) (limit : Z)
  : M (list LocationInfo.t) :=
  if len (strip (code_points location_name)) <? 2
  then raise (ValueError too_short_message)
  else
    let limit := Z.max 1 (Z.min limit 10) in
    locations <- search_locations location_name limit ;;
    ret (map location_info locations).

Definition get_current_weather (location_name temperature_unit : string)
  : M CurrentWeather.t :=
  location <- resolve_location location_name ;;
  let current_params :=
    ["temperature_2m"; "relative_humidity_2m"; "weather_code";
     "wind_speed_10m"; "wind_direction_10m"; "pressure_msl"; "cloud_cover"] in
  weather_data <-
    get_weather_data (LocationInfo.latitude location)
      (LocationInfo.longitude location)
      (Some current_params) None None 7 temperature_unit "kmh" "mm" ;;
  current <- lift (py_key "current" (WeatherData.current weather_data)) ;;
  current_units <-
    lift (py_key "current_units" (WeatherData.current_units weather_data)) ;;
  ret (CurrentWeather.mk location
         (Current.temperature_2m current)
         (CurrentUnits.temperature_2m current_units)
         (Current.relative_humidity_2m current)
         (weather_code_to_description (Current.weather_code current))
         (Current.weather_code current)
         (Current.wind_speed_10m current)
         (Current.wind_direction_10m current)
         (CurrentUnits.wind_speed_10m current_units)
         (Current.pressure_msl current)
         (Current.cloud_cover current)
         (Current.time current)).

(** The body of the loop of [get_weather_forecast]: the record of day [i]. *)
Definition daily_forecast_at (daily : Daily.t) (daily_units : DailyUnits.t)
    (i : Z) : result DailyForecast.t :=
  date <-? py_getitem (Daily.time daily) i ;;
  temperature_max <-? py_getitem (Daily.temperature_2m_max daily) i ;;
  temperature_min <-? py_getitem (Daily.temperature_2m_min daily) i ;;
  weather_code <-? py_getitem (Daily.weather_code daily) i ;;
  precipitation_sum <-? py_getitem (Daily.precipitation_sum daily) i ;;
  wind_speed_max <-? py_getitem (Daily.wind_speed_10m_max daily) i ;;
  wind_direction_dominant <-?
    py_getitem (Daily.wind_direction_10m_dominant daily) i ;;
  Ok (DailyForecast.mk date temperature_max temperature_min
        (DailyUnits.temperature_2m_max daily_units)
        (weather_code_to_description weather_code) weather_code
        precipitation_sum (DailyUnits.precipitation_sum daily_units)
        wind_speed_max wind_direction_dominant
        (DailyUnits.wind_speed_10m_max daily_units)).

Definition get_weather_forecast (location_name : string) (forecast_days : Z)
    (temperature_unit : string) : M WeatherForecast.t :=
  location <- resolve_location location_name ;;
  let forecast_days := Z.max 1 (Z.min forecast_days (MAX_FORECAST_DAYS cfg)) in
  let daily_params :=
    ["temperature_2m_max"; "temperature_2m_min"; "weather_code";
     "precipitation_sum"; "wind_speed_10m_max";
     "wind_direction_10m_dominant"] in
  weather_data <-
    get_weather_data (LocationInfo.latitude location)
      (LocationInfo.longitude location)
      None None (Some daily_params) forecast_days temperature_unit
      "kmh" "mm" ;;
  daily <- lift (py_key "daily" (WeatherData.daily weather_data)) ;;
  daily_units <-
    lift (py_key "daily_units" (WeatherData.daily_units weather_data)) ;;
  forecast_days_list <-
    lift (for_each (daily_forecast_at daily daily_units)
            (py_range (len (Daily.time daily)))) ;;
  ret (WeatherForecast.mk location forecast_days_list (now host)).

(** The body of the loop of [get_hourly_forecast]: the record of hour [i]. *)
Definition hourly_point_at (hourly : Hourly.t) (i : Z)
  : result HourlyWeatherPoint.t :=
  time <-? py_getitem (Hourly.time hourly) i ;;
  temperature <-? py_getitem (Hourly.temperature_2m hourly) i ;;
  humidity <-? py_getitem (Hourly.relative_humidity_2m hourly) i ;;
  weather_code <-? py_getitem (Hourly.weather_code hourly) i ;;
  precipitation <-? py_getitem (Hourly.precipitation hourly) i ;;
  wind_speed <-? py_getitem (Hourly.wind_speed_10m hourly) i ;;
  wind_direction <-? py_getitem (Hourly.wind_direction_10m hourly) i ;;
  cloud_cover <-? py_getitem (Hourly.cloud_cover hourly) i ;;
  Ok (HourlyWeatherPoint.mk time temperature humidity weather_code
        (weather_code_to_description weather_code) precipitation
        wind_speed wind_direction cloud_cover).

Definition get_hourly_forecast (location_name : string) (forecast_hours : Z)
    (temperature_unit : string) : M HourlyForecast.t :=
  location <- resolve_location location_name ;;
  let forecast_hours :=
    Z.max 1 (Z.min forecast_hours (MAX_FORECAST_HOURS cfg)) in
  let hourly_params :=
    ["temperature_2m"; "relative_humidity_2m"; "weather_code";
     "precipitation"; "wind_speed_10m"; "wind_direction_10m";
     "cloud_cover"] in
  weather_data <-
    get_weather_data (LocationInfo.latitude location)
      (LocationInfo.longitude location)
      None (Some hourly_params) None 7 temperature_unit "kmh" "mm" ;;
  hourly <- lift (py_key "hourly" (WeatherData.hourly weather_data)) ;;
  hourly_units <-
    lift (py_key "hourly_units" (WeatherData.hourly_units weather_data)) ;;
  let actual_hours := Z.min forecast_hours (len (Hourly.time hourly)) in
  hourly_data <-
    lift (for_each (hourly_point_at hourly) (py_range actual_hours)) ;;
  ret (HourlyForecast.mk location hourly_data
         (HourlyUnits.temperature_2m hourly_units)
         (HourlyUnits.precipitation hourly_units)
         (HourlyUnits.wind_speed_10m hourly_units)
         (now host)).

Definition severe_weather : string := "severe_weather".

(** [any(alert["type"] == "severe_weather" for alert in alerts)] *)
Definition any_severe (alerts : list Alert.t) : bool :=
  existsb (fun alert => (Alert.type alert =? severe_weather)%string) alerts.

(** The three dictionaries of the [if]/[elif] chain on the current code. *)
Definition thunderstorm_warning (current_weather_code : Z) : Alert.t :=
  Alert.mk severe_weather "high" "Thunderstorm Warning"
    (weather_code_to_description current_weather_code) "current".

Definition freezing_rain_warning (current_weather_code : Z) : Alert.t :=
  Alert.mk severe_weather "high" "Freezing Rain Warning"
    (weather_code_to_description current_weather_code) "current".

Definition snow_advisory (current_weather_code : Z) : Alert.t :=
  Alert.mk "weather_advisory" "medium" "Snow Advisory"
    (weather_code_to_description current_weather_code) "current".

(** The [if]/[elif] chain on the current weather code (lines 313-339). *)
Definition current_code_alerts (current_weather_code : Z) : list Alert.t :=
  if code_in current_weather_code (SEVERE_WEATHER_CODES cfg) then
    [thunderstorm_warning current_weather_code]
  else if code_in current_weather_code (FREEZING_RAIN_CODES cfg) then
    [freezing_rain_warning current_weather_code]
  else if code_in current_weather_code (SNOW_CODES cfg) then
    [snow_advisory current_weather_code]
  else [].

(** [current_wind > HIGH_WIND_THRESHOLD_KMH] *)
Definition high_wind (current_wind : Q) : bool :=
  negb (Qle_bool current_wind (HIGH_WIND_THRESHOLD_KMH cfg)).

Definition high_wind_warning (current_wind : Q) : Alert.t :=
  Alert.mk "wind_warning" "medium" "High Wind Warning"
    ("Strong winds at " ++ str_number current_wind ++ " km/h")%string
    "current".

(** The wind check (lines 342-352). *)
Definition wind_alerts (current_wind : Q) : list Alert.t :=
  if high_wind current_wind then [high_wind_warning current_wind] else [].

(** The dictionary appended by the scan of the coming hours; [time] is
    [hourly["time"][i]]. *)
Definition incoming_thunderstorm (time : string) : Alert.t :=
  Alert.mk severe_weather "medium" "Incoming Thunderstorm"
    ("Thunderstorm expected at " ++ time)%string time.

(** The loop over the coming hours (lines 356-367), on the indices that are
    left; leaving the recursion is the [break]. *)
Fixpoint upcoming_scan (hourly : Hourly.t) (alerts : list Alert.t)
    (indices : list Z) : result (list Alert.t) :=
  match indices with
  | [] => Ok alerts
  | i :: rest =>
      weather_code <-? py_getitem (Hourly.weather_code hourly) i ;;
      if code_in weather_code (SEVERE_WEATHER_CODES cfg)
         && negb (any_severe alerts)
      then
        time <-? py_getitem (Hourly.time hourly) i ;;
        Ok (alerts ++ [incoming_thunderstorm time])
      else upcoming_scan hourly alerts rest
  end.

Definition get_weather_alerts (location_name : string) : M Alerts.t :=
  location <- resolve_location location_name ;;
  let current_params :=
    ["temperature_2m"; "weather_code"; "wind_speed_10m"; "precipitation"] in
  let hourly_params :=
    ["temperature_2m"; "weather_code"; "wind_speed_10m"; "precipitation";
     "wind_gusts_10m"] in
  weather_data <-
    get_weather_data (LocationInfo.latitude location)
      (LocationInfo.longitude location)
      (Some current_params) (Some hourly_params) None 2 "celsius"
      "kmh" "mm" ;;
  let alerts := [] in
  current <- lift (py_key "current" (WeatherData.current weather_data)) ;;
  hourly <- lift (py_key "hourly" (WeatherData.hourly weather_data)) ;;
  let current_weather_code := Current.weather_code current in
  let alerts := alerts ++ current_code_alerts current_weather_code in
  let current_wind := Current.wind_speed_10m current in
  let alerts := alerts ++ wind_alerts current_wind in
  alerts <-
    lift (upcoming_scan hourly alerts
            (py_range (Z.min 24 (len (Hourly.time hourly))))) ;;
  ret (Alerts.mk location alerts (len alerts) (now host)).

End Server.

Arguments search_locations cfg host location_name limit tr /.
Arguments get_weather_data host latitude longitude current hourly daily
  forecast_days temperature_unit wind_speed_unit precipitation_unit tr /.
Arguments elicit host message tr /.

(** ** api_client.py: the HTTP exchange

    What one [client.get] can give back: a response (its status code, its
    text, and what [response.json()] returns or raises), or one of the
    exceptions the [except] clauses tell apart, in the order of those
    clauses. *)
Inductive http_outcome (J : Type) : Type :=
| Responded (status_code : Z) (text : string) (json : result J)
| TimeoutException (str_e : string)
| ConnectError (str_e : string)
| RequestError (str_e : string)
| OtherException (e : exn).
Arguments Responded {J} status_code text json.
Arguments TimeoutException {J} str_e.
Arguments ConnectError {J} str_e.
Arguments RequestError {J} str_e.
Arguments OtherException {J} e.

(** The JSON object of a geocoding response: the keys the client reads. *)
Module GeocodingBody.
Record t : Type := mk {
  results : option (list Loc.t);
  reason : option string
}.
End GeocodingBody.

(** The JSON object of a forecast response: the groups, and the ["reason"]
    of an error answer. *)
Module ForecastBody.
Record t : Type := mk {
  data : WeatherData.t;
  reason : option string
}.
End ForecastBody.

(** The [error_msg] of a response whose status is not 200. *)
Definition http_error_msg (status_code : Z) (text : string)
    (reason : result (option string)) : string :=
  match reason with
  | Ok r => py_get r "Unknown error"
  | Raise _ => ("HTTP " ++ str_int status_code ++ ": " ++ text)%string
  end.

(** The body of [search_locations] after its [client.get] (lines 45-71). *)
Definition search_locations_answer
    (outcome : http_outcome GeocodingBody.t) : result (list Loc.t) :=
  match outcome with
  | Responded status_code text json =>
      if status_code =? 200 then
        data <-? json ;;
        Ok (py_get (GeocodingBody.results data) [])
      else
        let error_msg :=
          http_error_msg status_code text
            (error_data <-? json ;; Ok (GeocodingBody.reason error_data)) in
        Raise (ValueError ("Geocoding API error: " ++ error_msg)%string)
  | TimeoutException str_e =>
      Raise (ValueError
               ("Request timeout - the geocoding service may be temporarily unavailable: "
                ++ str_e)%string)
  | ConnectError str_e =>
      Raise (ValueError
               ("Failed to connect to geocoding service. Please check your internet connection: "
                ++ str_e)%string)
  | RequestError str_e => Raise (ValueError ("Network error: " ++ str_e)%string)
  | OtherException e => Raise e
  end.

(** The body of [get_weather_data] after its [client.get] (lines 121-147). *)
Definition get_weather_data_answer
    (outcome : http_outcome ForecastBody.t) : result WeatherData.t :=
  match outcome with
  | Responded status_code text json =>
      if status_code =? 200 then
        data <-? json ;;
        Ok (ForecastBody.data data)
      else
        let error_msg :=
          http_error_msg status_code text
            (error_data <-? json ;; Ok (ForecastBody.reason error_data)) in
        Raise (ValueError ("Weather API error: " ++ error_msg)%string)
  | TimeoutException str_e =>
      Raise (ValueError
               ("Request timeout - the weather service may be temporarily unavailable: "
                ++ str_e)%string)
  | ConnectError str_e =>
      Raise (ValueError
               ("Failed to connect to weather service. Please check your internet connection: "
                ++ str_e)%string)
  | RequestError str_e => Raise (ValueError ("Network error: " ++ str_e)%string)
  | OtherException e => Raise e
  end.

(** The two services as the HTTP client sees them. *)
Record Transport : Type := {
  get_geocoding : string -> Z -> http_outcome GeocodingBody.t;
  get_forecast : Params.t -> http_outcome ForecastBody.t
}.

(** The host whose two services are reached through the client code above. *)
Definition api_host (transport : Transport)
    (elicitation : string -> ElicitationResult) (now : string) : Host := {|
  geocoding := fun location_name count =>
    search_locations_answer (get_geocoding transport location_name count);
  forecast := fun params =>
    get_weather_data_answer (get_forecast transport params);
  elicitation := elicitation;
  now := now
|}.

(** ** A sample configuration and sample hosts

    The values are those the comments and docstrings of the sources mention
    (top 5 options, 1-16 days, 1-168 hours, 50 km/h) and the WMO codes of
    thunderstorm, freezing rain and snow. *)

Definition sample_cfg : config := {|
  MAX_LOCATION_SEARCH_RESULTS := 10;
  MAX_LOCATION_ELICITATION_OPTIONS := 5;
  MAX_FORECAST_DAYS := 16;
  MAX_FORECAST_HOURS := 168;
  HIGH_WIND_THRESHOLD_KMH := 50;
  SEVERE_WEATHER_CODES := [95; 96; 99];
  FREEZING_RAIN_CODES := [66; 67];
  SNOW_CODES := [71; 73; 75; 77; 85; 86]
|}.

Definition sample_description (code : Z) : string :=
  ("WMO code " ++ str_int code)%string.

Definition sample_str_number (x : Q) : string :=
  (str_int (Qnum x) ++ "/" ++ str_int (Zpos (Qden x)))%string.

Definition springfield_at (latitude longitude : Q) (id : Z) (admin1 : string)
    (admin2 : option string) (population : option Z) : Loc.t :=
  Loc.mk id "Springfield" latitude longitude (Some "United States")
    (Some admin1) admin2 "America/Chicago" population None.

Definition springfield (id : Z) (admin1 : string) (admin2 : option string)
    (population : option Z) : Loc.t :=
  springfield_at (3980 # 100) (-8964 # 100) id admin1 admin2 population.

Definition springfields : list Loc.t :=
  [springfield 1 "Illinois" (Some "Sangamon") (Some 116250);
   springfield_at (3722 # 100) (-9330 # 100) 2 "Missouri" (Some "Greene")
     (Some 1234567);
   springfield_at (4210 # 100) (-7259 # 100) 3 "Massachusetts"
     (Some "Massachusetts") (Some 0);
   springfield_at (4405 # 100) (-12302 # 100) 4 "Oregon" None None;
   springfield_at (3992 # 100) (-8381 # 100) 5 "Ohio" (Some "Clark")
     (Some 58662);
   springfield_at (3651 # 100) (-8688 # 100) 6 "Tennessee" (Some "Robertson")
     (Some 16440);
   springfield_at (3015 # 100) (-8561 # 100) 7 "Florida" (Some "Bay")
     (Some 8903)].

Definition vancouver : Loc.t :=
  Loc.mk 6173331 "Vancouver" (4925 # 100) (-12312 # 100) (Some "Canada")
    (Some "British Columbia") (Some "Metro Vancouver") "America/Vancouver"
    (Some 600000) (Some 70%Q).

Definition sample_geocoding (name : string) (count : Z)
  : result (list Loc.t) :=
  if (name =? "Springfield")%string then Ok springfields
  else if (name =? "Vancouver")%string then Ok [vancouver]
  else Ok [].

Definition sample_current (code : Z) (wind : Q) : Current.t :=
  Current.mk "2025-11-15T12:00" 8 80 code wind 270 1012 100.

Definition sample_hourly (times : list string) (codes : list Z) : Hourly.t :=
  Hourly.mk times [] [] codes [] [] [] [].

Definition sample_days : list string :=
  map (fun d => ("day " ++ str_int d)%string) (py_range 16).

(** A forecast service that answers a request for [n] days with [n] daily
    entries, and whose current and hourly groups are given. *)
Definition sample_forecast (current : Current.t) (hourly : Hourly.t)
    (params : Params.t) : result WeatherData.t :=
  let n := Z.to_nat (Params.forecast_days params) in
  Ok (WeatherData.mk (Some current)
        (Some (CurrentUnits.mk "C" "km/h"))
        (Some hourly)
        (Some (HourlyUnits.mk "C" "mm" "km/h"))
        (Some (Daily.mk (firstn n sample_days) (repeat 10%Q n) (repeat 2%Q n)
                 (repeat 3 n) (repeat 0%Q n) (repeat 12%Q n)
                 (repeat 180%Q n)))
        (Some (DailyUnits.mk "C" "mm" "km/h"))).

(** A host whose user answers every elicitation with [answer]. *)
Definition sample_host (answer : ElicitationResult) (current : Current.t)
    (hourly : Hourly.t) : Host := {|
  geocoding := sample_geocoding;
  forecast := sample_forecast current hourly;
  elicitation := fun _ => answer;
  now := "2025-11-15T12:00:00"
|}.

Definition accepted (k : Z) : ElicitationResult :=
  {| action := accept; data := Some {| selected_location_id := k |} |}.

Definition decline_answer : ElicitationResult :=
  {| action := decline; data := None |}.

Definition calm_host (answer : ElicitationResult) : Host :=
  sample_host answer (sample_current 3 12)
    (sample_hourly ["h0"; "h1"; "h2"] [3; 3; 3]).

(** The lines offered for "Springfield": five of the seven results. *)
Definition springfield_options : list string :=
  ["1. Springfield, Illinois, Sangamon, United States (pop. 116,250)";
   "2. Springfield, Missouri, Greene, United States (pop. 1,234,567)";
   "3. Springfield, Massachusetts, United States";
   "4. Springfield, Oregon, United States";
   "5. Springfield, Ohio, Clark, United States (pop. 58,662)"].

Definition springfield_calls : trace :=
  [GeocodingRequest "Springfield" 10;
   Elicitation (elicitation_message "Springfield" springfield_options)].

(** A thunderstorm now, wind at 60 km/h and thunderstorm codes in the coming
    hours. *)
Definition storm_host : Host :=
  sample_host (accepted 1) (sample_current 95 60)
    (sample_hourly ["h0"; "h1"; "h2"] [3; 95; 95]).

(** A clear sky now and a thunderstorm code from the second hour on. *)
Definition clearing_host : Host :=
  sample_host (accepted 1) (sample_current 3 12)
    (sample_hourly ["h0"; "h1"; "h2"] [3; 95; 95]).

(** * Vocabulary of the statements

    ** The error kinds of the design document

    The code raises [ValueError] throughout; the kinds are told apart by the
    message. *)

Definition NotFoundError (query : string) : exn :=
  ValueError (not_found_message query).

Definition SelectionError (e : exn) : Prop :=
  e = ValueError cancelled_message \/ e = ValueError invalid_selection_message.

(** ** Resolution *)

(** The one call [resolve_location] makes to the search client, as it
    reaches the geocoding service. *)
Definition search_request (cfg : config) (location_name : string) : call :=
  GeocodingRequest location_name
    (Z.min 10 (MAX_LOCATION_SEARCH_RESULTS cfg)).

(** The candidates offered for selection:
    [locations[:MAX_LOCATION_ELICITATION_OPTIONS]]. *)
Definition shown (cfg : config) (locations : list Loc.t) : list Loc.t :=
  py_slice_to locations (MAX_LOCATION_ELICITATION_OPTIONS cfg).

(** The candidate carries the key ["country"]. *)
Definition has_country (loc : Loc.t) : bool :=
  match Loc.country loc with
  | Some _ => true
  | None => false
  end.

(** A rendered line starts with its number and a full stop. *)
Definition numbered (position : Z) (text : string) : Prop :=
  exists rest, text = (str_int position ++ ". " ++ rest)%string.

(** ** The summary of a candidate, in the words of the design document

    A name that is the empty string counts as absent, and so does a
    population of zero. *)

Definition admin1_part (loc : Loc.t) : string :=
  match Loc.admin1 loc with
  | Some a1 => if (a1 =? EmptyString)%string then EmptyString
               else (", " ++ a1)%string
  | None => EmptyString
  end.

Definition same_as_admin1 (loc : Loc.t) (a2 : string) : bool :=
  match Loc.admin1 loc with
  | Some a1 => (a2 =? a1)%string
  | None => false
  end.

Definition admin2_part (loc : Loc.t) : string :=
  match Loc.admin2 loc with
  | Some a2 =>
      if (a2 =? EmptyString)%string then EmptyString
      else if same_as_admin1 loc a2 then EmptyString
      else (", " ++ a2)%string
  | None => EmptyString
  end.

Definition population_part (loc : Loc.t) : string :=
  match Loc.population loc with
  | Some p => if p =? 0 then EmptyString
              else (" (pop. " ++ format_thousands p ++ ")")%string
  | None => EmptyString
  end.

Definition summary_line (position : Z) (loc : Loc.t) (country : string)
  : string :=
  (str_int position ++ ". " ++ Loc.name loc ++ admin1_part loc
   ++ admin2_part loc ++ ", " ++ country ++ population_part loc)%string.

Definition is_comma (c : ascii) : bool := (c =? ",")%char.

Definition without_commas (l : list ascii) : list ascii :=
  filter (fun c => negb (is_comma c)) l.

Definition is_digit (c : ascii) : bool :=
  let n := nat_of_ascii c in ((48 <=? n) && (n <=? 57))%nat.

(** What [{n:,}] promises: the sign, then the decimal digits of [abs(n)]
    with a comma before every group of three digits counted from the right. *)
Definition thousands_separated (n : Z) (s : string) : Prop :=
  exists body : list ascii,
    s = (sign_of n ++ string_of_list_ascii body)%string
    /\ without_commas body = digits_of n
    /\ forall (j : nat) (c : ascii),
         nth_error (rev body) j = Some c ->
         (is_comma c = true <-> (j mod 4 = 3)%nat).

(** ** Alerts *)

Definition has_title (title : string) (alert : Alert.t) : bool :=
  (Alert.title alert =? title)%string.

Definition is_severe (alert : Alert.t) : bool :=
  (Alert.type alert =? severe_weather)%string.

(** The alerts recorded before the scan of the coming hours starts. *)
Definition current_alerts (cfg : config)
    (weather_code_to_description : Z -> string) (str_number : Q -> string)
    (current : Current.t) : list Alert.t :=
  current_code_alerts cfg weather_code_to_description
    (Current.weather_code current)
  ++ wind_alerts cfg str_number (Current.wind_speed_10m current).

(** The hour at index [i] is the first of [indices] with a thunderstorm
    code: every earlier index has a code and it is not a thunderstorm. *)
Definition first_match (cfg : config) (hourly : Hourly.t) (pre : list Z)
    (i : Z) : Prop :=
  (exists code, py_getitem (Hourly.weather_code hourly) i = Ok code
                /\ code_in code (SEVERE_WEATHER_CODES cfg) = true)
  /\ forall j, In j pre ->
       exists code, py_getitem (Hourly.weather_code hourly) j = Ok code
                    /\ code_in code (SEVERE_WEATHER_CODES cfg) = false.

(** ** Traces *)

(** A computation only ever adds calls to the trace. *)
Definition extends {A} (m : M A) : Prop :=
  forall tr, exists rest, snd (m tr) = tr ++ rest.

(** A computation that starts with the call [c]. *)
Definition starts_with {A} (c : call) (m : M A) : Prop :=
  forall tr, exists rest, snd (m tr) = tr ++ c :: rest.

(** A handler rejects short names when a name of fewer than two characters
    once stripped makes it raise before it has made any call. *)
Definition rejects_short_names {A} (handler : string -> M A) : Prop :=
  forall location_name tr,
    len (strip (code_points location_name)) < 2 ->
    exists e, handler location_name tr = (Raise e, tr).

(** ** Further vocabulary *)

Definition is_forecast_request (c : call) : bool :=
  match c with
  | ForecastRequest _ => true
  | _ => false
  end.

(** The name is made of whitespace only. *)
Definition all_space (s : string) : bool :=
  forallb isspace (code_points s).

(** Every column of the hourly group has at least [n] entries. *)
Definition hourly_columns_cover (hourly : Hourly.t) (n : Z) : Prop :=
  n <= len (Hourly.time hourly)
  /\ n <= len (Hourly.temperature_2m hourly)
  /\ n <= len (Hourly.relative_humidity_2m hourly)
  /\ n <= len (Hourly.weather_code hourly)
  /\ n <= len (Hourly.precipitation hourly)
  /\ n <= len (Hourly.wind_speed_10m hourly)
  /\ n <= len (Hourly.wind_direction_10m hourly)
  /\ n <= len (Hourly.cloud_cover hourly).

(** Every column of the daily group has at least [n] entries. *)
Definition daily_columns_cover (daily : Daily.t) (n : Z) : Prop :=
  n <= len (Daily.time daily)
  /\ n <= len (Daily.temperature_2m_max daily)
  /\ n <= len (Daily.temperature_2m_min daily)
  /\ n <= len (Daily.weather_code daily)
  /\ n <= len (Daily.precipitation_sum daily)
  /\ n <= len (Daily.wind_speed_10m_max daily)
  /\ n <= len (Daily.wind_direction_10m_dominant daily).

(** The exchange did not end in a response with status 200, nor in an
    exception that the client lets through. *)
Definition upstream_failure {J} (outcome : http_outcome J) : Prop :=
  match outcome with
  | Responded status_code _ _ => status_code <> 200
  | OtherException _ => False
  | _ => True
  end.

(** The parameters of the forecast request of each weather handler. *)
Definition current_weather_params (location : LocationInfo.t)
    (temperature_unit : string) : Params.t :=
  Params.mk (LocationInfo.latitude location) (LocationInfo.longitude location)
    temperature_unit "kmh" "mm" 7
    (Some "temperature_2m,relative_humidity_2m,weather_code,wind_speed_10m,wind_direction_10m,pressure_msl,cloud_cover")
    None None.

Definition weather_forecast_params (cfg : config) (location : LocationInfo.t)
    (forecast_days : Z) (temperature_unit : string) : Params.t :=
  Params.mk (LocationInfo.latitude location) (LocationInfo.longitude location)
    temperature_unit "kmh" "mm"
    (Z.max 1 (Z.min forecast_days (MAX_FORECAST_DAYS cfg)))
    None None
    (Some "temperature_2m_max,temperature_2m_min,weather_code,precipitation_sum,wind_speed_10m_max,wind_direction_10m_dominant").

Definition hourly_forecast_params (location : LocationInfo.t)
    (temperature_unit : string) : Params.t :=
  Params.mk (LocationInfo.latitude location) (LocationInfo.longitude location)
    temperature_unit "kmh" "mm" 7
    None
    (Some "temperature_2m,relative_humidity_2m,weather_code,precipitation,wind_speed_10m,wind_direction_10m,cloud_cover")
    None.

Definition weather_alerts_params (location : LocationInfo.t) : Params.t :=
  Params.mk (LocationInfo.latitude location) (LocationInfo.longitude location)
    "celsius" "kmh" "mm" 2
    (Some "temperature_2m,weather_code,wind_speed_10m,precipitation")
    (Some "temperature_2m,weather_code,wind_speed_10m,precipitation,wind_gusts_10m")
    None.

(** What each weather handler makes of the answer of the forecast service:
    the part of the handler that follows its [get_weather_data] call, where
    no further call is made. *)
Definition current_weather_of (weather_code_to_description : Z -> string)
    (location : LocationInfo.t) (answer : result WeatherData.t)
  : result CurrentWeather.t :=
  weather_data <-? answer ;;
  current <-? py_key "current" (WeatherData.current weather_data) ;;
  current_units <-?
    py_key "current_units" (WeatherData.current_units weather_data) ;;
  Ok (CurrentWeather.mk location
        (Current.temperature_2m current)
        (CurrentUnits.temperature_2m current_units)
        (Current.relative_humidity_2m current)
        (weather_code_to_description (Current.weather_code current))
        (Current.weather_code current)
        (Current.wind_speed_10m current)
        (Current.wind_direction_10m current)
        (CurrentUnits.wind_speed_10m current_units)
        (Current.pressure_msl current)
        (Current.cloud_cover current)
        (Current.time current)).

Definition weather_forecast_of (weather_code_to_description : Z -> string)
    (now : string) (location : LocationInfo.t)
    (answer : result WeatherData.t) : result WeatherForecast.t :=
  weather_data <-? answer ;;
  daily <-? py_key "daily" (WeatherData.daily weather_data) ;;
  daily_units <-?
    py_key "daily_units" (WeatherData.daily_units weather_data) ;;
  forecast_days_list <-?
    for_each (daily_forecast_at weather_code_to_description daily daily_units)
      (py_range (len (Daily.time daily))) ;;
  Ok (WeatherForecast.mk location forecast_days_list now).

Definition hourly_forecast_of (cfg : config)
    (weather_code_to_description : Z -> string) (now : string)
    (location : LocationInfo.t) (forecast_hours : Z)
    (answer : result WeatherData.t) : result HourlyForecast.t :=
  weather_data <-? answer ;;
  hourly <-? py_key "hourly" (WeatherData.hourly weather_data) ;;
  hourly_units <-?
    py_key "hourly_units" (WeatherData.hourly_units weather_data) ;;
  hourly_data <-?
    for_each (hourly_point_at weather_code_to_description hourly)
      (py_range
         (Z.min (Z.max 1 (Z.min forecast_hours (MAX_FORECAST_HOURS cfg)))
            (len (Hourly.time hourly)))) ;;
  Ok (HourlyForecast.mk location hourly_data
        (HourlyUnits.temperature_2m hourly_units)
        (HourlyUnits.precipitation hourly_units)
        (HourlyUnits.wind_speed_10m hourly_units)
        now).

Definition weather_alerts_of (cfg : config)
    (weather_code_to_description : Z -> string) (str_number : Q -> string)
    (now : string) (location : LocationInfo.t)
    (answer : result WeatherData.t) : result Alerts.t :=
  weather_data <-? answer ;;
  current <-? py_key "current" (WeatherData.current weather_data) ;;
  hourly <-? py_key "hourly" (WeatherData.hourly weather_data) ;;
  alerts <-?
    upcoming_scan cfg hourly
      (current_alerts cfg weather_code_to_description str_number current)
      (py_range (Z.min 24 (len (Hourly.time hourly)))) ;;
  Ok (Alerts.mk location alerts (len alerts) now).

(** The record [point] is row [k] of the hourly columns. *)
Definition hourly_row (weather_code_to_description : Z -> string)
    (hourly : Hourly.t) (k : nat) (point : HourlyWeatherPoint.t) : Prop :=
  nth_error (Hourly.time hourly) k = Some (HourlyWeatherPoint.time point)
  /\ nth_error (Hourly.temperature_2m hourly) k
     = Some (HourlyWeatherPoint.temperature point)
  /\ nth_error (Hourly.relative_humidity_2m hourly) k
     = Some (HourlyWeatherPoint.humidity point)
  /\ nth_error (Hourly.weather_code hourly) k
     = Some (HourlyWeatherPoint.weather_code point)
  /\ nth_error (Hourly.precipitation hourly) k
     = Some (HourlyWeatherPoint.precipitation point)
  /\ nth_error (Hourly.wind_speed_10m hourly) k
     = Some (HourlyWeatherPoint.wind_speed point)
  /\ nth_error (Hourly.wind_direction_10m hourly) k
     = Some (HourlyWeatherPoint.wind_direction point)
  /\ nth_error (Hourly.cloud_cover hourly) k
     = Some (HourlyWeatherPoint.cloud_cover point)
  /\ HourlyWeatherPoint.weather_description point
     = weather_code_to_description (HourlyWeatherPoint.weather_code point).

(** The record [day] is row [k] of the daily columns, with the units of the
    units group. *)
Definition daily_row (weather_code_to_description : Z -> string)
    (daily : Daily.t) (daily_units : DailyUnits.t) (k : nat)
    (day : DailyForecast.t) : Prop :=
  nth_error (Daily.time daily) k = Some (DailyForecast.date day)
  /\ nth_error (Daily.temperature_2m_max daily) k
     = Some (DailyForecast.temperature_max day)
  /\ nth_error (Daily.temperature_2m_min daily) k
     = Some (DailyForecast.temperature_min day)
  /\ nth_error (Daily.weather_code daily) k
     = Some (DailyForecast.weather_code day)
  /\ nth_error (Daily.precipitation_sum daily) k
     = Some (DailyForecast.precipitation_sum day)
  /\ nth_error (Daily.wind_speed_10m_max daily) k
     = Some (DailyForecast.wind_speed_max day)
  /\ nth_error (Daily.wind_direction_10m_dominant daily) k
     = Some (DailyForecast.wind_direction_dominant day)
  /\ DailyForecast.weather_description day
     = weather_code_to_description (DailyForecast.weather_code day)
  /\ DailyForecast.temperature_unit day
     = DailyUnits.temperature_2m_max daily_units
  /\ DailyForecast.precipitation_unit day
     = DailyUnits.precipitation_sum daily_units
  /\ DailyForecast.wind_speed_unit day
     = DailyUnits.wind_speed_10m_max daily_units.

(** The run made exactly one call after [tr1]: the forecast request
    [params], for the coordinates of [location]; and it raises what the
    forecast service raises. *)
Definition requests_forecast {A} (host : Host) (tr1 : trace)
    (location : LocationInfo.t) (params : Params.t)
    (run : result A * trace) : Prop :=
  snd run = tr1 ++ [ForecastRequest params]
  /\ Params.latitude params = LocationInfo.latitude location
  /\ Params.longitude params = LocationInfo.longitude location
  /\ forall e, forecast host params = Raise e -> fst run = Raise e.

(** The location of [location_name] resolves and the forecast service
    answers the request of [get_weather_alerts] with the groups [current] and
    [hourly]. *)
Definition alerts_input (cfg : config) (host : Host) (location_name : string)
    (tr : trace) (current : Current.t) (hourly : Hourly.t) : Prop :=
  exists location tr1 weather_data,
    resolve_location cfg host location_name tr = (Ok location, tr1)
    /\ forecast host (weather_alerts_params location) = Ok weather_data
    /\ WeatherData.current weather_data = Some current
    /\ WeatherData.hourly weather_data = Some hourly.

(** The number of coming hours that the alert scan looks at. *)
Definition scanned_hours (hourly : Hourly.t) : Z :=
  Z.min 24 (len (Hourly.time hourly)).

(** ** Further samples *)

(** A client whose geocoding requests time out and whose forecast requests
    are refused. *)
Definition down_transport : Transport := {|
  get_geocoding := fun _ _ => TimeoutException "timed out";
  get_forecast := fun _ => ConnectError "refused"
|}.

Definition down_host : Host :=
  api_host down_transport (fun _ => decline_answer) "2025-11-15T12:00:00".

(** A client whose geocoding service answers 200 with an object that has no
    ["results"] key. *)
Definition bare_transport : Transport := {|
  get_geocoding := fun _ _ =>
    Responded 200 "{}" (Ok (GeocodingBody.mk None None));
  get_forecast := fun _ => ConnectError "refused"
|}.

(** Three hours with every column filled. *)
Definition full_hourly : Hourly.t :=
  Hourly.mk ["h0"; "h1"; "h2"] [8; 9; 10]%Q [80; 81; 82]%Q [3; 61; 95]
    [0; 1; 2]%Q [12; 13; 14]%Q [270; 271; 272]%Q [100; 90; 80]%Q.

Definition full_host : Host :=
  sample_host (accepted 1) (sample_current 3 12) full_hourly.

(** Freezing rain now, thunderstorm codes in the coming hours. *)
Definition freezing_host : Host :=
  sample_host (accepted 1) (sample_current 66 12)
    (sample_hourly ["h0"; "h1"; "h2"] [3; 95; 95]).

(** Wind exactly at the threshold. *)
Definition breezy_host : Host :=
  sample_host (accepted 1) (sample_current 3 50)
    (sample_hourly ["h0"; "h1"; "h2"] [3; 3; 3]).

(** A thunderstorm now and a weather-code column that stops after the first
    of three hours. *)
Definition short_codes_host : Host :=
  sample_host (accepted 1) (sample_current 95 12)
    (sample_hourly ["h0"; "h1"; "h2"] [3]).


(** A place without a country ahead of Vancouver. *)
Definition null_island : Loc.t :=
  Loc.mk 0 "Null Island" 0%Q 0%Q None None None "Etc/UTC" None None.

Definition island_host : Host := {|
  geocoding := fun _ _ => Ok [null_island; vancouver];
  forecast := sample_forecast (sample_current 3 12) full_hourly;
  elicitation := fun _ => accepted 2;
  now := "2025-11-15T12:00:00"
|}.

(** A forecast service that answers with an object without any group. *)
Definition groupless_host : Host := {|
  geocoding := sample_geocoding;
  forecast := fun _ => Ok (WeatherData.mk None None None None None None);
  elicitation := fun _ => accepted 1;
  now := "2025-11-15T12:00:00"
|}.

(** ** Promotion of a candidate

    The record [info] is built from the candidate [loc]: every field is the
    field of the candidate, the country being the empty string when the
    candidate has none. *)
Definition built_from (loc : Loc.t) (info : LocationInfo.t) : Prop :=
  LocationInfo.id info = Loc.id loc
  /\ LocationInfo.name info = Loc.name loc
  /\ LocationInfo.latitude info = Loc.latitude loc
  /\ LocationInfo.longitude info = Loc.longitude loc
  /\ LocationInfo.country info
     = match Loc.country loc with
       | Some country => country
       | None => EmptyString
       end
  /\ LocationInfo.admin1 info = Loc.admin1 loc
  /\ LocationInfo.admin2 info = Loc.admin2 loc
  /\ LocationInfo.timezone info = Loc.timezone loc
  /\ LocationInfo.population info = Loc.population loc
  /\ LocationInfo.elevation info = Loc.elevation loc.

(** The one-character name U+00E9, two bytes in UTF-8. *)
Definition e_acute : string := String "195" (String "169" EmptyString).

(** Three no-break spaces (U+00A0), six bytes in UTF-8. *)
Definition no_break_spaces : string :=
  String "194" (String "160" (String "194" (String "160"
    (String "194" (String "160" EmptyString))))).

(** The text sent to the user for "Springfield". *)
Definition springfield_message : string :=
  "Multiple locations found for 'Springfield':

1. Springfield, Illinois, Sangamon, United States (pop. 116,250)
2. Springfield, Missouri, Greene, United States (pop. 1,234,567)
3. Springfield, Massachusetts, United States
4. Springfield, Oregon, United States
5. Springfield, Ohio, Clark, United States (pop. 58,662)

Please select the correct location:".

(** A search that finds only the place without a country. *)
Definition lone_island_host : Host := {|
  geocoding := fun _ _ => Ok [null_island];
  forecast := sample_forecast (sample_current 3 12) full_hourly;
  elicitation := fun _ => accepted 1;
  now := "2025-11-15T12:00:00"
|}.

(** * Properties *)

(** ** Lists, slices and subscripts *)

Lemma len_nonneg {A} (l : list A) : 0 <= len l.
Proof. unfold len. lia. Qed.

(** A slice [l[:m]] is a prefix of [l], whatever the sign of [m]. *)
Lemma py_slice_to_prefix {A} (l : list A) (m : Z) :
  exists rest, l = py_slice_to l m ++ rest.
Proof.
  unfold py_slice_to.
  destruct (m <? 0); eexists; symmetry; apply firstn_skipn.
Qed.

Lemma py_slice_to_nonneg {A} (l : list A) (m : Z) :
  0 <= m -> py_slice_to l m = firstn (Z.to_nat m) l.
Proof.
  intros Hm. unfold py_slice_to.
  destruct (Z.ltb_spec m 0) as [Hneg | _]; [lia | reflexivity].
Qed.

Lemma len_py_slice_to {A} (l : list A) (m : Z) :
  0 <= m -> len (py_slice_to l m) = Z.min (len l) m.
Proof.
  intros Hm. rewrite py_slice_to_nonneg by assumption.
  unfold len. rewrite length_firstn. lia.
Qed.

Lemma nth_error_prefix {A} (p rest : list A) (i : nat) :
  (i < List.length p)%nat -> nth_error (p ++ rest) i = nth_error p i.
Proof. intros Hi. apply nth_error_app1. assumption. Qed.

(** Inside the range of a list, the subscript is the [i]-th element. *)
Lemma py_getitem_in_range {A} (l : list A) (i : Z) :
  0 <= i < len l ->
  exists a, nth_error l (Z.to_nat i) = Some a /\ py_getitem l i = Ok a.
Proof.
  intros [Hlo Hhi]. unfold py_getitem.
  destruct (Z.ltb_spec i 0) as [Hneg | _]; [lia |].
  destruct (Z.ltb_spec i 0) as [Hneg | _]; [lia |].
  destruct (nth_error l (Z.to_nat i)) as [a |] eqn:Hnth.
  - exists a. split; reflexivity.
  - apply nth_error_None in Hnth. unfold len in Hhi. lia.
Qed.

(** ** The characters of a [str] *)

Ltac decide_tests :=
  unfold continuation;
  repeat match goal with
         | |- context [?a <? ?b] => destruct (Z.ltb_spec a b); try lia
         | |- context [?a <=? ?b] => destruct (Z.leb_spec a b); try lia
         end;
  cbn [andb orb].

Lemma decode_utf8_1 (b : Z) (rest : list Z) :
  b < 128 -> decode_utf8 (b :: rest) = b :: decode_utf8 rest.
Proof. intros Hb. cbn [decode_utf8]. decide_tests. reflexivity. Qed.

Lemma decode_utf8_2 (b c1 : Z) (rest : list Z) :
  192 <= b < 224 -> 128 <= c1 < 192 ->
  decode_utf8 (b :: c1 :: rest)
  = ((b - 192) * 64 + (c1 - 128)) :: decode_utf8 rest.
Proof. intros Hb H1. cbn [decode_utf8]. decide_tests. reflexivity. Qed.

Lemma decode_utf8_3 (b c1 c2 : Z) (rest : list Z) :
  224 <= b < 240 -> 128 <= c1 < 192 -> 128 <= c2 < 192 ->
  decode_utf8 (b :: c1 :: c2 :: rest)
  = ((b - 224) * 4096 + (c1 - 128) * 64 + (c2 - 128)) :: decode_utf8 rest.
Proof. intros Hb H1 H2. cbn [decode_utf8]. decide_tests. reflexivity. Qed.

Lemma decode_utf8_4 (b c1 c2 c3 : Z) (rest : list Z) :
  240 <= b < 248 -> 128 <= c1 < 192 -> 128 <= c2 < 192 -> 128 <= c3 < 192 ->
  decode_utf8 (b :: c1 :: c2 :: c3 :: rest)
  = ((b - 240) * 262144 + (c1 - 128) * 4096 + (c2 - 128) * 64 + (c3 - 128))
    :: decode_utf8 rest.
Proof. intros Hb H1 H2 H3. cbn [decode_utf8]. decide_tests. reflexivity. Qed.

(** Decoding undoes encoding: the code points of an encoded [str] are its
    characters. *)
Lemma decode_utf8_encode (points : list Z) :
  Forall (fun c => 0 <= c < 1114112) points ->
  decode_utf8 (flat_map utf8_encode points) = points.
Proof.
  induction 1 as [| c points Hc _ IH]; [reflexivity |].
  cbn [flat_map]. unfold utf8_encode at 1.
  destruct (Z.ltb_spec c 128);
    [| destruct (Z.ltb_spec c 2048); [| destruct (Z.ltb_spec c 65536)]];
    cbn [app].
  - rewrite decode_utf8_1, IH by lia. reflexivity.
  - rewrite decode_utf8_2, IH by (Z.to_euclidean_division_equations; lia).
    f_equal. Z.to_euclidean_division_equations. lia.
  - rewrite decode_utf8_3, IH by (Z.to_euclidean_division_equations; lia).
    f_equal. Z.to_euclidean_division_equations. lia.
  - rewrite decode_utf8_4, IH by (Z.to_euclidean_division_equations; lia).
    f_equal. Z.to_euclidean_division_equations. lia.
Qed.

(** ** Promotion of a candidate *)

Lemma built_from_location_info (loc : Loc.t) :
  built_from loc (location_info loc).
Proof. unfold built_from, location_info, py_get. cbn. repeat split. Qed.

(** ** Location resolution *)

Section Resolution.

Variable cfg : config.
Variable host : Host.

(** The branch taken when the search returns several candidates, with the
    monad unfolded. *)
Lemma resolve_location_many (location_name : string) (tr : trace)
    (locations : list Loc.t) :
  geocoding host location_name (Z.min 10 (MAX_LOCATION_SEARCH_RESULTS cfg))
    = Ok locations ->
  (1 < List.length locations)%nat ->
  resolve_location cfg host location_name tr =
  let tr1 := tr ++ [search_request cfg location_name] in
  match render_options 0 (shown cfg locations) with
  | Raise e => (Raise e, tr1)
  | Ok location_options =>
      let message := elicitation_message location_name location_options in
      let result := elicitation host message in
      let tr2 := tr1 ++ [Elicitation message] in
      match is_accept (action result), data result with
      | true, Some choice =>
          let selected_index := selected_location_id choice - 1 in
          if (selected_index <? 0) || (selected_index >=? len (shown cfg locations))
          then (Raise (ValueError invalid_selection_message), tr2)
          else match py_getitem locations selected_index with
               | Ok loc => (Ok (location_info loc), tr2)
               | Raise e => (Raise e, tr2)
               end
      | _, _ => (Raise (ValueError cancelled_message), tr2)
      end
  end.
Proof.
  intros Hgeo Hlen.
  unfold resolve_location, bind, search_locations. rewrite Hgeo.
  destruct locations as [| a [| b rest]]; cbn [List.length] in Hlen; try lia.
  unfold lift, shown, search_request.
  destruct (render_options 0 _) as [location_options | e]; [| reflexivity].
  unfold elicit, raise, ret.
  destruct (is_accept _); [| reflexivity].
  destruct (data _) as [choice |]; [| reflexivity].
  destruct (_ || _); [reflexivity |].
  destruct (py_getitem _ _); reflexivity.
Qed.

(** C3. When the search returns no candidate, resolution fails with the
    not-found error, whose message carries the query as given, and the only
    call made is the search: no elicitation is issued. *)
Theorem resolve_location_not_found (location_name : string) (tr : trace) :
  geocoding host location_name (Z.min 10 (MAX_LOCATION_SEARCH_RESULTS cfg))
    = Ok [] ->
  resolve_location cfg host location_name tr
    = (Raise (NotFoundError location_name),
       tr ++ [search_request cfg location_name])
  /\ NotFoundError location_name
     = ValueError ("No locations found for '" ++ location_name
                   ++ "'. Please try a different search term.")%string
  /\ elicitations (snd (resolve_location cfg host location_name tr))
     = elicitations tr.
Proof.
  intros Hgeo.
  assert (Hrun : resolve_location cfg host location_name tr
                 = (Raise (NotFoundError location_name),
                    tr ++ [search_request cfg location_name])).
  { unfold resolve_location, bind, search_locations. rewrite Hgeo.
    reflexivity. }
  split; [exact Hrun |]. split; [reflexivity |].
  rewrite Hrun. cbn [snd]. unfold elicitations.
  rewrite filter_app. cbn. apply app_nil_r.
Qed.

(** C4. When the search returns exactly one candidate, resolution returns a
    [LocationInfo] built from that candidate (its id, name, coordinates,
    admin names, timezone, population and elevation, and its country or the
    empty string), and the only call made is the search: no elicitation is
    issued. *)
Theorem resolve_location_single (location_name : string) (tr : trace)
    (loc : Loc.t) :
  geocoding host location_name (Z.min 10 (MAX_LOCATION_SEARCH_RESULTS cfg))
    = Ok [loc] ->
  exists info,
    resolve_location cfg host location_name tr
    = (Ok info, tr ++ [search_request cfg location_name])
    /\ built_from loc info
    /\ elicitations (snd (resolve_location cfg host location_name tr))
       = elicitations tr.
Proof.
  intros Hgeo.
  assert (Hrun : resolve_location cfg host location_name tr
                 = (Ok (location_info loc),
                    tr ++ [search_request cfg location_name])).
  { unfold resolve_location, bind, search_locations. rewrite Hgeo.
    reflexivity. }
  exists (location_info loc).
  split; [exact Hrun |]. split; [apply built_from_location_info |].
  rewrite Hrun. cbn [snd]. unfold elicitations.
  rewrite filter_app. cbn. apply app_nil_r.
Qed.

(** C1. With several candidates and an accepted selection [k] between 1 and
    the number of candidates shown, resolution returns the [LocationInfo] of
    the candidate at position [k - 1] of the shown prefix [locations[:MAX]]:
    an element of that prefix, never one past its end.  Every field of the
    record returned is the field of that candidate. *)
Theorem resolve_location_selected (location_name : string) (tr : trace)
    (locations : list Loc.t) (location_options : list string) (k : Z) :
  geocoding host location_name (Z.min 10 (MAX_LOCATION_SEARCH_RESULTS cfg))
    = Ok locations ->
  (1 < List.length locations)%nat ->
  render_options 0 (shown cfg locations) = Ok location_options ->
  elicitation host (elicitation_message location_name location_options)
    = {| action := accept; data := Some {| selected_location_id := k |} |} ->
  1 <= k <= len (shown cfg locations) ->
  exists loc info,
    nth_error (shown cfg locations) (Z.to_nat (k - 1)) = Some loc
    /\ (Z.to_nat (k - 1) < List.length (shown cfg locations))%nat
    /\ resolve_location cfg host location_name tr
       = (Ok info,
          tr ++ [search_request cfg location_name]
             ++ [Elicitation
                   (elicitation_message location_name location_options)])
    /\ built_from loc info.
Proof.
  intros Hgeo Hlen Hrender Hanswer Hk.
  rewrite (resolve_location_many _ _ _ Hgeo Hlen).
  cbv zeta. rewrite Hrender, Hanswer. cbn [action data is_accept
    selected_location_id].
  destruct (Z.ltb_spec (k - 1) 0) as [Hneg | _]; [lia |].
  destruct (Z.geb_spec (k - 1) (len (shown cfg locations))) as [Hbig | _]; [lia |].
  cbn [orb].
  destruct (py_getitem_in_range (shown cfg locations) (k - 1)) as (loc & Hnth & _);
    [lia |].
  destruct (py_slice_to_prefix locations
              (MAX_LOCATION_ELICITATION_OPTIONS cfg)) as [rest Hrest].
  fold (shown cfg locations) in Hrest.
  assert (Hin : (Z.to_nat (k - 1) < List.length (shown cfg locations))%nat).
  { apply nth_error_Some. rewrite Hnth. discriminate. }
  assert (Hfull : py_getitem locations (k - 1) = Ok loc).
  { destruct (py_getitem_in_range locations (k - 1)) as (loc' & Hnth' & Hget).
    - rewrite Hrest at 1. unfold len. rewrite length_app.
      unfold len in Hk. lia.
    - rewrite Hrest in Hnth'. rewrite nth_error_prefix in Hnth' by exact Hin.
      congruence. }
  rewrite Hfull. exists loc, (location_info loc). rewrite <- app_assoc.
  split; [exact Hnth |]. split; [exact Hin |].
  split; [reflexivity | apply built_from_location_info].
Qed.

(** C2. With several candidates, when the answer to the elicitation is a
    decline, a cancel, an accept without payload, or an accept whose
    selection is outside [1 .. number shown], resolution raises the
    selection error: it returns no location. *)
Theorem resolve_location_selection_error (location_name : string)
    (tr : trace) (locations : list Loc.t) (location_options : list string) :
  geocoding host location_name (Z.min 10 (MAX_LOCATION_SEARCH_RESULTS cfg))
    = Ok locations ->
  (1 < List.length locations)%nat ->
  render_options 0 (shown cfg locations) = Ok location_options ->
  let answer :=
    elicitation host (elicitation_message location_name location_options) in
  (action answer = decline
   \/ action answer = cancel
   \/ (action answer = accept /\ data answer = None)
   \/ (action answer = accept
       /\ exists k, data answer = Some {| selected_location_id := k |}
                    /\ (k < 1 \/ len (shown cfg locations) < k))) ->
  exists e,
    SelectionError e
    /\ resolve_location cfg host location_name tr
       = (Raise e,
          tr ++ [search_request cfg location_name]
             ++ [Elicitation
                   (elicitation_message location_name location_options)]).
Proof.
  intros Hgeo Hlen Hrender answer Hcase.
  rewrite (resolve_location_many _ _ _ Hgeo Hlen).
  cbv zeta. rewrite Hrender. fold answer. rewrite <- app_assoc.
  destruct Hcase as [Hd | [Hc | [[Ha Hnone] | [Ha (k & Hsome & Hout)]]]].
  - rewrite Hd. cbn [is_accept]. exists (ValueError cancelled_message).
    split; [left; reflexivity | reflexivity].
  - rewrite Hc. cbn [is_accept]. exists (ValueError cancelled_message).
    split; [left; reflexivity | reflexivity].
  - rewrite Ha, Hnone. cbn [is_accept].
    exists (ValueError cancelled_message).
    split; [left; reflexivity | reflexivity].
  - rewrite Ha, Hsome. cbn [is_accept selected_location_id].
    exists (ValueError invalid_selection_message).
    split; [right; reflexivity |].
    destruct (Z.ltb_spec (k - 1) 0) as [Hneg | Hpos]; [reflexivity |].
    destruct (Z.geb_spec (k - 1) (len (shown cfg locations))) as [Hbig | Hsmall];
      [reflexivity | lia].
Qed.

End Resolution.

(** ** The one-line summary of a candidate *)

Lemma sapp_assoc (a b c : string) : ((a ++ b) ++ c = a ++ (b ++ c))%string.
Proof.
  induction a as [| x a IH]; cbn; [reflexivity | rewrite IH; reflexivity].
Qed.

(** *** Thousands separators *)

(** Induction along the recursion of [group3]. *)
Lemma group3_induction (P : list ascii -> Prop) :
  P [] ->
  (forall a, P [a]) ->
  (forall a b, P [a; b]) ->
  (forall a b c, P [a; b; c]) ->
  (forall a b c d rest, P (d :: rest) -> P (a :: b :: c :: d :: rest)) ->
  forall l, P l.
Proof.
  intros H0 H1 H2 H3 Hstep l.
  assert (Hall : forall n l, (List.length l <= n)%nat -> P l).
  { induction n as [| n IH]; intros [| a [| b [| c [| d rest]]]] Hle;
      cbn [List.length] in Hle; auto; try lia.
    apply Hstep. apply IH. cbn [List.length]. lia. }
  apply (Hall (List.length l)). lia.
Qed.

Lemma group3_step (a b c d : ascii) (rest : list ascii) :
  group3 (a :: b :: c :: d :: rest)
  = a :: b :: c :: ","%char :: group3 (d :: rest).
Proof. reflexivity. Qed.

Lemma digit_not_comma (x : ascii) : is_digit x = true -> is_comma x = false.
Proof.
  intros Hx.
  destruct x as [[|] [|] [|] [|] [|] [|] [|] [|]]; try discriminate;
    reflexivity.
Qed.

Lemma without_commas_digit (x : ascii) (l : list ascii) :
  is_digit x = true -> without_commas (x :: l) = x :: without_commas l.
Proof.
  intros Hx. unfold without_commas. cbn [filter].
  rewrite (digit_not_comma x Hx). reflexivity.
Qed.

Lemma without_commas_comma (l : list ascii) :
  without_commas (","%char :: l) = without_commas l.
Proof. reflexivity. Qed.

Ltac split_digits :=
  cbn [forallb] in *;
  repeat match goal with
         | H : _ && _ = true |- _ => apply andb_prop in H as [? ?]
         end.

(** Taking the commas out gives the digits back. *)
Lemma without_commas_group3 (l : list ascii) :
  forallb is_digit l = true -> without_commas (group3 l) = l.
Proof.
  induction l as [| a | a b | a b c | a b c d rest IH] using group3_induction;
    intros Hdigits.
  - reflexivity.
  - split_digits. cbn [group3].
    rewrite without_commas_digit by assumption. reflexivity.
  - split_digits. cbn [group3].
    rewrite !without_commas_digit by assumption. reflexivity.
  - split_digits. cbn [group3].
    rewrite !without_commas_digit by assumption. reflexivity.
  - rewrite group3_step.
    assert (Hrest : forallb is_digit (d :: rest) = true).
    { cbn [forallb] in Hdigits |- *.
      apply andb_prop in Hdigits as [_ Hdigits].
      apply andb_prop in Hdigits as [_ Hdigits].
      apply andb_prop in Hdigits as [_ Hdigits]. exact Hdigits. }
    specialize (IH Hrest). clear Hrest. split_digits.
    rewrite !without_commas_digit by assumption.
    rewrite without_commas_comma, IH. reflexivity.
Qed.

(** Counted from the right, the commas are exactly at the positions
    3, 7, 11, ... *)
Lemma group3_comma_positions (l : list ascii) :
  forallb is_digit l = true ->
  forall (j : nat) (c : ascii),
    nth_error (group3 l) j = Some c ->
    (is_comma c = true <-> (j mod 4 = 3)%nat).
Proof.
  induction l as [| a | a b | a b c | a b c d rest IH] using group3_induction;
    intros Hdigits j x Hnth.
  - destruct j; discriminate.
  - split_digits. destruct j as [| [| j]]; cbn in Hnth; try discriminate;
      injection Hnth as <-; rewrite digit_not_comma by assumption;
      cbn; split; discriminate.
  - split_digits. destruct j as [| [| [| j]]]; cbn in Hnth; try discriminate;
      injection Hnth as <-; rewrite digit_not_comma by assumption;
      cbn; split; discriminate.
  - split_digits. destruct j as [| [| [| [| j]]]]; cbn in Hnth;
      try discriminate;
      injection Hnth as <-; rewrite digit_not_comma by assumption;
      cbn; split; discriminate.
  - rewrite group3_step in Hnth.
    assert (Hrest : forallb is_digit (d :: rest) = true).
    { cbn [forallb] in Hdigits |- *.
      apply andb_prop in Hdigits as [_ Hdigits].
      apply andb_prop in Hdigits as [_ Hdigits].
      apply andb_prop in Hdigits as [_ Hdigits]. exact Hdigits. }
    specialize (IH Hrest). clear Hrest. split_digits.
    destruct j as [| [| [| [| j]]]]; cbn [nth_error] in Hnth.
    + injection Hnth as <-. rewrite digit_not_comma by assumption.
      cbn. split; discriminate.
    + injection Hnth as <-. rewrite digit_not_comma by assumption.
      cbn. split; discriminate.
    + injection Hnth as <-. rewrite digit_not_comma by assumption.
      cbn. split; discriminate.
    + injection Hnth as <-. cbn. split; reflexivity.
    + rewrite (IH j x Hnth).
      replace (S (S (S (S j)))) with (j + 1 * 4)%nat by lia.
      rewrite Nat.Div0.mod_add. reflexivity.
Qed.

Lemma digits_string_of_uint (u : Decimal.uint) :
  forallb is_digit (list_ascii_of_string (NilEmpty.string_of_uint u)) = true.
Proof.
  induction u; cbn [NilEmpty.string_of_uint list_ascii_of_string forallb];
    try rewrite IHu; reflexivity.
Qed.

Lemma digits_of_digits (n : Z) : forallb is_digit (digits_of n) = true.
Proof.
  unfold digits_of, NilZero.string_of_uint.
  destruct (N.to_uint (Z.abs_N n)) eqn:Hu;
    try (rewrite <- Hu; apply digits_string_of_uint).
  reflexivity.
Qed.

Lemma forallb_rev {A} (f : A -> bool) (l : list A) :
  forallb f l = true -> forallb f (rev l) = true.
Proof.
  rewrite !forallb_forall. intros Hall x Hin.
  apply Hall. apply in_rev. exact Hin.
Qed.

(** [digits_of] spells [str(abs(n))]. *)
Lemma digits_of_str_int (n : Z) :
  str_int n = (sign_of n ++ string_of_list_ascii (digits_of n))%string.
Proof.
  unfold str_int, digits_of.
  rewrite string_of_list_ascii_of_string.
  destruct n; reflexivity.
Qed.

Lemma format_thousands_separated (n : Z) :
  thousands_separated n (format_thousands n).
Proof.
  exists (rev (group3 (rev (digits_of n)))).
  assert (Hdigits : forallb is_digit (rev (digits_of n)) = true)
    by (apply forallb_rev, digits_of_digits).
  split; [reflexivity |]. split.
  - unfold without_commas. rewrite filter_rev.
    fold (without_commas (group3 (rev (digits_of n)))).
    rewrite without_commas_group3 by exact Hdigits.
    apply rev_involutive.
  - rewrite rev_involutive. apply group3_comma_positions. exact Hdigits.
Qed.

(** The rendering of the source and the summary of the design document
    agree whenever the candidate carries a country. *)
Lemma option_text_eq (i : nat) (loc : Loc.t) (country : string) :
  Loc.country loc = Some country ->
  option_text i loc = Ok (summary_line (Z.of_nat i + 1) loc country).
Proof.
  intros Hcountry.
  unfold option_text, summary_line, admin1_part, admin2_part,
    same_as_admin1, population_part, truthy_str, truthy_int, opt_str_eqb.
  rewrite Hcountry. cbn [py_key rbind].
  destruct (Loc.admin1 loc) as [a1 |], (Loc.admin2 loc) as [a2 |],
    (Loc.population loc) as [p |]; cbn [py_get negb andb app];
    repeat match goal with
           | |- context [(?x =? ?y)%string] =>
               destruct (x =? y)%string; cbn [negb andb app]
           | |- context [?p =? 0] => destruct (p =? 0); cbn [negb]
           end;
    unfold join; cbn [String.concat append];
    rewrite ?sapp_assoc; reflexivity.
Qed.

(** Without a country the subscript [loc['country']] raises. *)
Lemma option_text_no_country (i : nat) (loc : Loc.t) :
  Loc.country loc = None -> option_text i loc = Raise (KeyError "country").
Proof.
  intros Hcountry. unfold option_text. rewrite Hcountry. reflexivity.
Qed.

(** C9. The line rendered for the candidate at index [i] of the enumeration
    is its position [i + 1], its name, the first-level admin name when there
    is one, the second-level admin name when there is one and it differs from
    the first-level one, the country, and the population when there is one
    and it is not zero, written with thousands separators. *)
Theorem option_text_summary (i : nat) (loc : Loc.t) (country : string) :
  Loc.country loc = Some country ->
  option_text i loc = Ok (summary_line (Z.of_nat i + 1) loc country)
  /\ forall p, Loc.population loc = Some p -> p <> 0 ->
       population_part loc = (" (pop. " ++ format_thousands p ++ ")")%string
       /\ thousands_separated p (format_thousands p).
Proof.
  intros Hcountry. split; [apply option_text_eq; exact Hcountry |].
  intros p Hp Hnz. split; [| apply format_thousands_separated].
  unfold population_part. rewrite Hp.
  destruct (Z.eqb_spec p 0) as [Hz | _]; [contradiction | reflexivity].
Qed.

(** ** The elicitation message *)

Lemma option_text_total (i : nat) (loc : Loc.t) :
  has_country loc = true -> exists text, option_text i loc = Ok text.
Proof.
  unfold has_country. intros Hc.
  destruct (Loc.country loc) as [c |] eqn:Hcountry; [| discriminate].
  eexists. apply (option_text_eq i loc c Hcountry).
Qed.

Lemma render_options_total (locs : list Loc.t) :
  forallb has_country locs = true ->
  forall i, exists texts, render_options i locs = Ok texts.
Proof.
  induction locs as [| loc rest IH]; intros Hall i.
  - exists []. reflexivity.
  - cbn [forallb] in Hall. apply andb_prop in Hall as [Hloc Hrest].
    destruct (option_text_total i loc Hloc) as [text Htext].
    destruct (IH Hrest (S i)) as [texts Htexts].
    exists (text :: texts). cbn [render_options].
    rewrite Htext. cbn [rbind]. rewrite Htexts. reflexivity.
Qed.

(** The rendered lines are, in order, the lines of the candidates. *)
Lemma render_options_nth (locs : list Loc.t) :
  forall (i : nat) (texts : list string),
    render_options i locs = Ok texts ->
    List.length texts = List.length locs
    /\ forall (j : nat) (text : string),
         nth_error texts j = Some text ->
         exists loc,
           nth_error locs j = Some loc
           /\ option_text (i + j) loc = Ok text.
Proof.
  induction locs as [| loc rest IH]; intros i texts Hrender.
  - injection Hrender as <-. split; [reflexivity |].
    intros [| j] text Hnth; discriminate.
  - cbn [render_options] in Hrender.
    destruct (option_text i loc) as [text0 |] eqn:Htext0; [| discriminate].
    cbn [rbind] in Hrender.
    destruct (render_options (S i) rest) as [texts0 |] eqn:Hrest;
      [| discriminate].
    injection Hrender as <-.
    destruct (IH (S i) texts0 Hrest) as [Hlen Hnth].
    split; [cbn [List.length]; rewrite Hlen; reflexivity |].
    intros [| j] text Hj; cbn [nth_error] in Hj |- *.
    + injection Hj as <-. exists loc. rewrite Nat.add_0_r. auto.
    + destruct (Hnth j text Hj) as (loc' & Hloc' & Htext').
      exists loc'. rewrite Nat.add_succ_r. auto.
Qed.

(** A candidate without a country among those shown makes the rendering
    raise [KeyError]: the message is never built. *)
Lemma render_options_no_country (locs : list Loc.t) :
  forallb has_country locs = false ->
  forall i, render_options i locs = Raise (KeyError "country").
Proof.
  induction locs as [| loc rest IH]; intros Hsome i; [discriminate |].
  cbn [forallb] in Hsome. cbn [render_options]. unfold has_country in Hsome.
  destruct (Loc.country loc) as [c |] eqn:Hcountry.
  - rewrite (option_text_eq i loc c Hcountry). cbn [rbind].
    rewrite IH by exact Hsome. reflexivity.
  - rewrite (option_text_no_country i loc Hcountry). reflexivity.
Qed.

Lemma option_text_numbered (i : nat) (loc : Loc.t) (text : string) :
  option_text i loc = Ok text -> numbered (Z.of_nat i + 1) text.
Proof.
  intros Htext.
  destruct (Loc.country loc) as [c |] eqn:Hcountry.
  - rewrite (option_text_eq i loc c Hcountry) in Htext.
    injection Htext as <-. eexists. reflexivity.
  - rewrite (option_text_no_country i loc Hcountry) in Htext. discriminate.
Qed.

Section Message.

Variable cfg : config.
Variable host : Host.

(** Whatever the user answers, the calls made with several candidates are
    the search and one elicitation. *)
Lemma resolve_location_many_trace (location_name : string) (tr : trace)
    (locations : list Loc.t) (location_options : list string) :
  geocoding host location_name (Z.min 10 (MAX_LOCATION_SEARCH_RESULTS cfg))
    = Ok locations ->
  (1 < List.length locations)%nat ->
  render_options 0 (shown cfg locations) = Ok location_options ->
  snd (resolve_location cfg host location_name tr)
  = tr ++ [search_request cfg location_name;
           Elicitation (elicitation_message location_name location_options)].
Proof.
  intros Hgeo Hlen Hrender.
  rewrite (resolve_location_many cfg host _ _ _ Hgeo Hlen).
  cbv zeta. rewrite Hrender, <- app_assoc.
  destruct (is_accept _); [| reflexivity].
  destruct (data _) as [choice |]; [| reflexivity].
  destruct (_ || _); [reflexivity |].
  destruct (py_getitem _ _); reflexivity.
Qed.

(** X22. When one of the candidates shown has no ["country"], line 66 of
    the resolver raises [KeyError] while the options are rendered: the search
    is the only call made and no elicitation is sent, whichever candidate the
    user would have chosen. *)
Lemma resolve_location_missing_country (location_name : string) (tr : trace)
    (locations : list Loc.t) :
  geocoding host location_name (Z.min 10 (MAX_LOCATION_SEARCH_RESULTS cfg))
    = Ok locations ->
  (1 < List.length locations)%nat ->
  forallb has_country (shown cfg locations) = false ->
  resolve_location cfg host location_name tr
  = (Raise (KeyError "country"), tr ++ [search_request cfg location_name]).
Proof.
  intros Hgeo Hlen Hmissing.
  rewrite (resolve_location_many cfg host _ _ _ Hgeo Hlen).
  cbv zeta. rewrite (render_options_no_country _ Hmissing). reflexivity.
Qed.

(** X23. When the search returns [N > 1] candidates, each of those shown
    has a country and the display maximum is not negative, the text sent to
    the user is the heading with the query, an empty line, [min(N, MAX)]
    lines, an empty line and the closing request; line [i] is the summary of
    the [i]-th search result under the number [i + 1], so the candidates
    listed are a prefix of the search results. *)
Theorem elicitation_enumerates_prefix (location_name : string) (tr : trace)
    (locations : list Loc.t) :
  geocoding host location_name (Z.min 10 (MAX_LOCATION_SEARCH_RESULTS cfg))
    = Ok locations ->
  (1 < List.length locations)%nat ->
  0 <= MAX_LOCATION_ELICITATION_OPTIONS cfg ->
  forallb has_country (shown cfg locations) = true ->
  exists location_options : list string,
    snd (resolve_location cfg host location_name tr)
    = tr ++ [search_request cfg location_name;
             Elicitation
               ("Multiple locations found for '" ++ location_name ++ "':"
                ++ nl ++ nl ++ String.concat nl location_options
                ++ nl ++ nl ++ "Please select the correct location:")%string]
    /\ len location_options
       = Z.min (len locations) (MAX_LOCATION_ELICITATION_OPTIONS cfg)
    /\ (forall (i : nat) (text : string),
          nth_error location_options i = Some text ->
          numbered (Z.of_nat i + 1) text
          /\ exists loc country,
               nth_error locations i = Some loc
               /\ Loc.country loc = Some country
               /\ text = summary_line (Z.of_nat i + 1) loc country)
    /\ render_options 0 (shown cfg locations) = Ok location_options
    /\ exists rest, locations = shown cfg locations ++ rest.
Proof.
  intros Hgeo Hlen Hmax Hcountries.
  destruct (render_options_total _ Hcountries 0%nat)
    as [location_options Hrender].
  destruct (render_options_nth _ _ _ Hrender) as [Hcount Hnth].
  destruct (py_slice_to_prefix locations
              (MAX_LOCATION_ELICITATION_OPTIONS cfg)) as [rest Hrest].
  fold (shown cfg locations) in Hrest.
  exists location_options.
  split; [| split; [| split; [| split]]].
  - apply (resolve_location_many_trace location_name tr locations);
      assumption.
  - unfold len at 1. rewrite Hcount. fold (len (shown cfg locations)).
    unfold shown. apply len_py_slice_to. exact Hmax.
  - intros i text Hi.
    destruct (Hnth i text Hi) as (loc & Hloc & Htext).
    cbn [Nat.add] in Htext. split.
    + apply (option_text_numbered i loc text Htext).
    + destruct (Loc.country loc) as [country |] eqn:Hcountry.
      * exists loc, country. split; [| split; [exact Hcountry |]].
        -- rewrite Hrest. rewrite nth_error_prefix; [exact Hloc |].
           apply nth_error_Some. rewrite Hloc. discriminate.
        -- rewrite (option_text_eq i loc country Hcountry) in Htext.
           injection Htext as <-. reflexivity.
      * rewrite (option_text_no_country i loc Hcountry) in Htext.
        discriminate.
  - exact Hrender.
  - exists rest. exact Hrest.
Qed.

(** The two paths side by side, on a place that has no country: found alone
    it resolves, its country being the empty string; found first of two it
    makes the rendering of the options raise. *)
Lemma country_read_two_ways :
  (exists info,
     resolve_location sample_cfg lone_island_host "Null" []
     = (Ok info, [GeocodingRequest "Null" 10])
     /\ LocationInfo.name info = "Null Island"
     /\ LocationInfo.country info = EmptyString)
  /\ resolve_location sample_cfg island_host "Null" []
     = (Raise (KeyError "country"), [GeocodingRequest "Null" 10]).
Proof.
  split; [eexists; repeat split |]; reflexivity.
Qed.

(** C5. Not met by the code on the search results [null_island; vancouver]:
    two candidates are found and both would be shown, but the first has no
    ["country"], the subscript at line 66 raises [KeyError] and no message is
    sent to the user at all, although every other read of the country (lines
    35, 42, 68, 94, 101) allows for its absence. *)
Theorem elicitation_lost_without_country :
  geocoding island_host "Null" 10 = Ok [null_island; vancouver]
  /\ shown sample_cfg [null_island; vancouver] = [null_island; vancouver]
  /\ Loc.country null_island = None
  /\ resolve_location sample_cfg island_host "Null" []
     = (Raise (KeyError "country"), [GeocodingRequest "Null" 10])
  /\ elicitations
       (snd (resolve_location sample_cfg island_host "Null" [])) = [].
Proof.
  repeat split.
Qed.

End Message.

(** ** Running a handler: inversion of the monad *)

Lemma bind_Ok {A B} (m : M A) (k : A -> M B) (tr tr' : trace) (b : B) :
  bind m k tr = (Ok b, tr') ->
  exists a tr1, m tr = (Ok a, tr1) /\ k a tr1 = (Ok b, tr').
Proof.
  unfold bind. destruct (m tr) as [[a | e] tr1]; intros Hrun.
  - exists a, tr1. split; [reflexivity | exact Hrun].
  - discriminate.
Qed.

Lemma lift_Ok {A} (r : result A) (tr tr' : trace) (a : A) :
  lift r tr = (Ok a, tr') -> r = Ok a /\ tr' = tr.
Proof. unfold lift. intros [= -> ->]. split; reflexivity. Qed.

Lemma ret_Ok {A} (a a' : A) (tr tr' : trace) :
  ret a tr = (Ok a', tr') -> a' = a /\ tr' = tr.
Proof. unfold ret. intros [= -> ->]. split; reflexivity. Qed.

Lemma py_key_Ok {A} (k : string) (o : option A) (a : A) :
  py_key k o = Ok a -> o = Some a.
Proof. destruct o; cbn; intros [= ->]; reflexivity. Qed.

(** Takes a successful run apart, one call at a time. *)
Ltac invert_run :=
  repeat match goal with
         | H : bind _ _ _ = (Ok _, _) |- _ =>
             let a := fresh "a" in
             let tr := fresh "tr" in
             let Hm := fresh "Hm" in
             let Hk := fresh "Hk" in
             apply bind_Ok in H as (a & tr & Hm & Hk); cbv beta zeta in Hk
         | H : lift _ _ = (Ok _, _) |- _ =>
             apply lift_Ok in H as [H ?]; subst
         | H : ret _ _ = (Ok _, _) |- _ =>
             apply ret_Ok in H as [? ?]; subst
         | H : py_key _ _ = Ok _ |- _ => apply py_key_Ok in H
         end.

Lemma for_each_length {A B} (f : A -> result B) (l : list A) :
  forall bs, for_each f l = Ok bs -> List.length bs = List.length l.
Proof.
  induction l as [| a rest IH]; intros bs Hrun; cbn [for_each] in Hrun.
  - injection Hrun as <-. reflexivity.
  - destruct (f a) as [b |]; [| discriminate]. cbn [rbind] in Hrun.
    destruct (for_each f rest) as [bs0 |]; [| discriminate].
    injection Hrun as <-. cbn [List.length]. rewrite (IH bs0); reflexivity.
Qed.

Lemma len_py_range (n : Z) : len (py_range n) = Z.max 0 n.
Proof.
  unfold len, py_range. rewrite length_map, length_seq. lia.
Qed.

(** ** Clamping of the day and hour counts *)

Section Clamping.

Variable cfg : config.
Variable host : Host.
Variable weather_code_to_description : Z -> string.




End Clamping.

(** ** Weather alerts *)

Lemma any_severe_app (l1 l2 : list Alert.t) :
  any_severe (l1 ++ l2) = any_severe l1 || any_severe l2.
Proof. apply existsb_app. Qed.

Lemma no_severe_filter (l : list Alert.t) :
  any_severe l = false -> filter is_severe l = [].
Proof.
  induction l as [| a rest IH]; intros Hnone; [reflexivity |].
  cbn [any_severe existsb] in Hnone. apply orb_false_elim in Hnone as [Ha Hr].
  cbn [filter]. unfold is_severe at 1. rewrite Ha. apply IH. exact Hr.
Qed.

(** [range(n)] holds the integers from 0 up to [n], in order. *)
Lemma py_range_split (n : Z) (pre post : list Z) (i : Z) :
  py_range n = pre ++ i :: post ->
  0 <= i < n /\ forall j, 0 <= j < i -> In j pre.
Proof.
  unfold py_range.
  assert (Hseq : forall (pre : list Z) (s m : nat),
             map Z.of_nat (seq s m) = pre ++ i :: post ->
             i = Z.of_nat (s + List.length pre)
             /\ (List.length pre < m)%nat
             /\ forall k, (s <= k < s + List.length pre)%nat ->
                          In (Z.of_nat k) pre).
  { clear pre. induction pre as [| p pre IH]; intros s m Hsplit.
    - destruct m as [| m]; [discriminate |].
      cbn in Hsplit. injection Hsplit as Hi _.
      cbn [List.length]. repeat split; [lia | lia |].
      intros k Hk. lia.
    - destruct m as [| m]; [discriminate |].
      cbn [seq map app] in Hsplit. injection Hsplit as Hp Hrest.
      destruct (IH (S s) m Hrest) as (Hi & Hlen & Hin).
      cbn [List.length]. repeat split; [lia | lia |].
      intros k Hk. destruct (Nat.eq_dec k s) as [-> | Hne].
      + left. symmetry. exact Hp.
      + right. apply Hin. lia. }
  intros Hsplit. destruct (Hseq pre 0%nat (Z.to_nat n) Hsplit)
    as (Hi & Hlen & Hin).
  split; [lia |].
  intros j Hj. replace j with (Z.of_nat (Z.to_nat j)) by lia.
  apply Hin. lia.
Qed.

Section Alerts.

Variable cfg : config.
Variable host : Host.
Variable weather_code_to_description : Z -> string.
Variable str_number : Q -> string.

(** What a scan that ends without an exception has done: nothing, or it has
    appended the alert of the first match. *)
Lemma upcoming_scan_Ok (hourly : Hourly.t) (indices : list Z) :
  forall alerts alerts',
    upcoming_scan cfg hourly alerts indices = Ok alerts' ->
    alerts' = alerts
    \/ (any_severe alerts = false
        /\ exists pre i post time,
             indices = pre ++ i :: post
             /\ first_match cfg hourly pre i
             /\ py_getitem (Hourly.time hourly) i = Ok time
             /\ alerts' = alerts ++ [incoming_thunderstorm time]).
Proof.
  induction indices as [| i rest IH]; intros alerts alerts' Hscan;
    cbn [upcoming_scan] in Hscan.
  - injection Hscan as <-. left. reflexivity.
  - destruct (py_getitem (Hourly.weather_code hourly) i) as [code |] eqn:Hcode;
      [| discriminate].
    cbn [rbind] in Hscan.
    destruct (code_in code (SEVERE_WEATHER_CODES cfg)) eqn:Hsevere;
      cbn [andb] in Hscan.
    + destruct (any_severe alerts) eqn:Hany; cbn [negb] in Hscan.
      * destruct (IH _ _ Hscan) as [-> | [Hnone _]];
          [left; reflexivity | congruence].
      * destruct (py_getitem (Hourly.time hourly) i) as [time |] eqn:Htime;
          [| discriminate].
        cbn [rbind] in Hscan. injection Hscan as <-.
        right. split; [reflexivity |].
        exists [], i, rest, time. repeat split; try assumption.
        -- exists code. auto.
        -- intros j [].
    + destruct (IH _ _ Hscan)
        as [-> | (Hnone & pre & i' & post & time & -> & [Hi' Hpre] & Ht & ->)];
        [left; reflexivity |].
      right. split; [exact Hnone |].
      exists (i :: pre), i', post, time. repeat split; try assumption.
      intros j [<- | Hj]; [exists code; auto | apply Hpre; exact Hj].
Qed.

(** Once an alert of type ["severe_weather"] is recorded the scan appends
    nothing. *)
Lemma upcoming_scan_suppressed (hourly : Hourly.t) (indices : list Z)
    (alerts alerts' : list Alert.t) :
  any_severe alerts = true ->
  upcoming_scan cfg hourly alerts indices = Ok alerts' ->
  alerts' = alerts.
Proof.
  intros Hany Hscan.
  destruct (upcoming_scan_Ok _ _ _ _ Hscan) as [-> | [Hnone _]];
    [reflexivity | congruence].
Qed.


(** What a successful run of [get_weather_alerts] has read and built. *)
Lemma get_weather_alerts_Ok (location_name : string) (tr tr' : trace)
    (r : Alerts.t) :
  get_weather_alerts cfg host weather_code_to_description str_number
    location_name tr = (Ok r, tr') ->
  exists tr1 params weather_data current hourly,
    tr' = tr1 ++ [ForecastRequest params]
    /\ forecast host params = Ok weather_data
    /\ WeatherData.current weather_data = Some current
    /\ WeatherData.hourly weather_data = Some hourly
    /\ upcoming_scan cfg hourly
         (current_code_alerts cfg weather_code_to_description
            (Current.weather_code current)
          ++ wind_alerts cfg str_number (Current.wind_speed_10m current))
         (py_range (Z.min 24 (len (Hourly.time hourly))))
       = Ok (Alerts.alerts r)
    /\ Alerts.alert_count r = len (Alerts.alerts r).
Proof.
  unfold get_weather_alerts. intros Hrun. invert_run.
  match goal with
  | H : get_weather_data _ _ _ _ _ _ _ _ _ _ _ = _ |- _ =>
      unfold get_weather_data in H; injection H as Hforecast <-
  end.
  eexists _, _, _, _, _. split; [reflexivity |].
  split; [exact Hforecast |].
  split; [eassumption |]. split; [eassumption |].
  cbn [Alerts.alerts Alerts.alert_count app] in *.
  split; [eassumption | reflexivity].
Qed.

Lemma current_code_alerts_severe (code : Z) :
  code_in code (SEVERE_WEATHER_CODES cfg) = true ->
  current_code_alerts cfg weather_code_to_description code
  = [thunderstorm_warning weather_code_to_description code].
Proof. intros Hsevere. unfold current_code_alerts. rewrite Hsevere. reflexivity. Qed.

Lemma current_code_alerts_titles (code : Z) :
  filter (has_title "Incoming Thunderstorm")
    (current_code_alerts cfg weather_code_to_description code) = []
  /\ (List.length
        (filter is_severe
           (current_code_alerts cfg weather_code_to_description code))
      <= 1)%nat.
Proof.
  unfold current_code_alerts.
  destruct (code_in code (SEVERE_WEATHER_CODES cfg));
    [split; [reflexivity | cbn; lia] |].
  destruct (code_in code (FREEZING_RAIN_CODES cfg));
    [split; [reflexivity | cbn; lia] |].
  destruct (code_in code (SNOW_CODES cfg)); split; try reflexivity; cbn; lia.
Qed.

Lemma wind_alerts_titles (wind : Q) :
  filter (has_title "Incoming Thunderstorm") (wind_alerts cfg str_number wind)
    = []
  /\ filter (has_title "Thunderstorm Warning")
       (wind_alerts cfg str_number wind) = []
  /\ filter is_severe (wind_alerts cfg str_number wind) = []
  /\ any_severe (wind_alerts cfg str_number wind) = false.
Proof.
  unfold wind_alerts. destruct (high_wind cfg wind); repeat split.
Qed.

Lemma high_wind_exceeds (wind : Q) :
  (HIGH_WIND_THRESHOLD_KMH cfg < wind)%Q -> high_wind cfg wind = true.
Proof.
  intros Hgt. unfold high_wind.
  destruct (Qle_bool wind (HIGH_WIND_THRESHOLD_KMH cfg)) eqn:Hle;
    [| reflexivity].
  apply Qle_bool_iff in Hle. exfalso.
  apply (Qlt_not_le _ _ Hgt). exact Hle.
Qed.

(** C8. In a successful run of [get_weather_alerts]: a current code in the
    thunderstorm set gives exactly one entry titled "Thunderstorm Warning",
    of high severity, and no "Incoming Thunderstorm" entry; a current wind
    speed above the threshold gives the wind warning, whatever the code; and
    the scan of the coming hours (at most 24) records at most one entry, for
    the first hour with a thunderstorm code. *)
Theorem weather_alert_rules (location_name : string) (tr tr' : trace)
    (r : Alerts.t) :
  get_weather_alerts cfg host weather_code_to_description str_number
    location_name tr = (Ok r, tr') ->
  exists tr1 params weather_data current hourly,
    tr' = tr1 ++ [ForecastRequest params]
    /\ forecast host params = Ok weather_data
    /\ WeatherData.current weather_data = Some current
    /\ WeatherData.hourly weather_data = Some hourly
    /\ (code_in (Current.weather_code current) (SEVERE_WEATHER_CODES cfg)
        = true ->
        filter (has_title "Thunderstorm Warning") (Alerts.alerts r)
        = [thunderstorm_warning weather_code_to_description
             (Current.weather_code current)]
        /\ Alert.severity
             (thunderstorm_warning weather_code_to_description
                (Current.weather_code current)) = "high"
        /\ filter (has_title "Incoming Thunderstorm") (Alerts.alerts r) = [])
    /\ ((HIGH_WIND_THRESHOLD_KMH cfg < Current.wind_speed_10m current)%Q ->
        In (high_wind_warning str_number (Current.wind_speed_10m current))
          (Alerts.alerts r)
        /\ Alert.type
             (high_wind_warning str_number (Current.wind_speed_10m current))
           = "wind_warning")
    /\ (filter (has_title "Incoming Thunderstorm") (Alerts.alerts r) = []
        \/ exists i time,
             0 <= i < Z.min 24 (len (Hourly.time hourly))
             /\ py_getitem (Hourly.time hourly) i = Ok time
             /\ (exists code,
                   py_getitem (Hourly.weather_code hourly) i = Ok code
                   /\ code_in code (SEVERE_WEATHER_CODES cfg) = true)
             /\ (forall j, 0 <= j < i ->
                   exists code,
                     py_getitem (Hourly.weather_code hourly) j = Ok code
                     /\ code_in code (SEVERE_WEATHER_CODES cfg) = false)
             /\ filter (has_title "Incoming Thunderstorm") (Alerts.alerts r)
                = [incoming_thunderstorm time]).
Proof.
  intros Hrun.
  destruct (get_weather_alerts_Ok _ _ _ _ Hrun)
    as (tr1 & params & weather_data & current & hourly
        & Htr & Hans & Hcur & Hhour & Hscan & _).
  exists tr1, params, weather_data, current, hourly.
  do 4 (split; [assumption |]).
  fold (current_alerts cfg weather_code_to_description str_number current) in Hscan.
  destruct (current_code_alerts_titles (Current.weather_code current))
    as [Hcode_inc _].
  destruct (wind_alerts_titles (Current.wind_speed_10m current))
    as (Hwind_inc & Hwind_thunder & _ & Hwind_severe).
  assert (Hbase_inc :
            filter (has_title "Incoming Thunderstorm") (current_alerts cfg weather_code_to_description str_number current) = []).
  { unfold current_alerts. rewrite filter_app, Hcode_inc, Hwind_inc. reflexivity. }
  split; [| split].
  - intros Hsevere.
    assert (Hany : any_severe (current_alerts cfg weather_code_to_description str_number current) = true).
    { unfold current_alerts. rewrite any_severe_app.
      rewrite (current_code_alerts_severe _ Hsevere). reflexivity. }
    rewrite (upcoming_scan_suppressed _ _ _ _ Hany Hscan).
    split; [| split; [reflexivity | exact Hbase_inc]].
    unfold current_alerts. rewrite filter_app, Hwind_thunder.
    rewrite (current_code_alerts_severe _ Hsevere). reflexivity.
  - intros Hwind. split; [| reflexivity].
    assert (Hin : In (high_wind_warning str_number
                        (Current.wind_speed_10m current)) (current_alerts cfg weather_code_to_description str_number current)).
    { unfold current_alerts, wind_alerts. rewrite (high_wind_exceeds _ Hwind).
      apply in_or_app. right. left. reflexivity. }
    destruct (upcoming_scan_Ok _ _ _ _ Hscan)
      as [-> | (_ & pre & i & post & time & _ & _ & _ & ->)];
      [exact Hin | apply in_or_app; left; exact Hin].
  - destruct (upcoming_scan_Ok _ _ _ _ Hscan)
      as [-> | (_ & pre & i & post & time & Hsplit & [Hi Hpre] & Htime & ->)];
      [left; exact Hbase_inc | right].
    destruct (py_range_split _ _ _ _ Hsplit) as [Hrange Hbefore].
    exists i, time. repeat split; try assumption; try lia.
    + intros j Hj. apply Hpre, Hbefore. exact Hj.
    + rewrite filter_app, Hbase_inc. reflexivity.
Qed.

(** C10. In a successful run of [get_weather_alerts] at most one entry of
    the returned list has type ["severe_weather"], and [alert_count] is the
    length of the list. *)
Theorem weather_alerts_invariant (location_name : string) (tr tr' : trace)
    (r : Alerts.t) :
  get_weather_alerts cfg host weather_code_to_description str_number
    location_name tr = (Ok r, tr') ->
  (List.length (filter is_severe (Alerts.alerts r)) <= 1)%nat
  /\ Alerts.alert_count r = Z.of_nat (List.length (Alerts.alerts r)).
Proof.
  intros Hrun.
  destruct (get_weather_alerts_Ok _ _ _ _ Hrun)
    as (tr1 & params & weather_data & current & hourly
        & _ & _ & _ & _ & Hscan & Hcount).
  split; [| exact Hcount].
  fold (current_alerts cfg weather_code_to_description str_number current) in Hscan.
  destruct (upcoming_scan_Ok _ _ _ _ Hscan)
    as [-> | (Hnone & pre & i & post & time & _ & _ & _ & ->)].
  - unfold current_alerts. rewrite filter_app, length_app.
    destruct (current_code_alerts_titles (Current.weather_code current))
      as [_ Hle].
    destruct (wind_alerts_titles (Current.wind_speed_10m current))
      as (_ & _ & Hwind & _).
    rewrite Hwind. cbn [List.length]. lia.
  - rewrite filter_app, (no_severe_filter _ Hnone). cbn. lia.
Qed.

End Alerts.

(** ** Validation of the query length *)

Lemma extends_ret {A} (a : A) : extends (ret a).
Proof. intros tr. exists []. cbn. symmetry. apply app_nil_r. Qed.

Lemma extends_raise {A} (e : exn) : extends (@raise A e).
Proof. intros tr. exists []. cbn. symmetry. apply app_nil_r. Qed.

Lemma extends_lift {A} (r : result A) : extends (lift r).
Proof. intros tr. exists []. cbn. symmetry. apply app_nil_r. Qed.

Lemma extends_bind {A B} (m : M A) (k : A -> M B) :
  extends m -> (forall a, extends (k a)) -> extends (bind m k).
Proof.
  intros Hm Hk tr. unfold bind.
  destruct (Hm tr) as [rest1 H1].
  destruct (m tr) as [[a | e] tr1]; cbn [snd] in H1; subst tr1.
  - destruct (Hk a (tr ++ rest1)) as [rest2 H2].
    exists (rest1 ++ rest2). rewrite H2. symmetry. apply app_assoc.
  - exists rest1. reflexivity.
Qed.

Lemma starts_with_bind {A B} (c : call) (m : M A) (k : A -> M B) :
  starts_with c m -> (forall a, extends (k a)) -> starts_with c (bind m k).
Proof.
  intros Hm Hk tr. unfold bind.
  destruct (Hm tr) as [rest1 H1].
  destruct (m tr) as [[a | e] tr1]; cbn [snd] in H1; subst tr1.
  - destruct (Hk a (tr ++ c :: rest1)) as [rest2 H2].
    exists (rest1 ++ rest2). rewrite H2, <- app_assoc. reflexivity.
  - exists rest1. reflexivity.
Qed.

Lemma extends_elicit (host : Host) (message : string) :
  extends (elicit host message).
Proof. intros tr. eexists. reflexivity. Qed.

Lemma extends_get_weather_data (host : Host) (latitude longitude : Q)
    (current hourly daily : option (list string)) (forecast_days : Z)
    (temperature_unit wind_speed_unit precipitation_unit : string) :
  extends (get_weather_data host latitude longitude current hourly daily
             forecast_days temperature_unit wind_speed_unit
             precipitation_unit).
Proof. intros tr. eexists. reflexivity. Qed.

Ltac solve_extends :=
  repeat first
    [ apply extends_ret
    | apply extends_raise
    | apply extends_lift
    | apply extends_elicit
    | apply extends_get_weather_data
    | apply extends_bind
    | intro
    | progress cbv zeta ].

Section Validation.

Variable cfg : config.
Variable host : Host.
Variable weather_code_to_description : Z -> string.
Variable str_number : Q -> string.

(** Resolution starts with the search, whatever the name. *)
Lemma resolve_location_starts_with_search (location_name : string) :
  starts_with (search_request cfg location_name)
    (resolve_location cfg host location_name).
Proof.
  intros tr.
  destruct (geocoding host location_name
              (Z.min 10 (MAX_LOCATION_SEARCH_RESULTS cfg)))
    as [locations | e] eqn:Hgeo.
  - destruct locations as [| a [| b rest]].
    + exists []. unfold resolve_location, bind, search_locations.
      rewrite Hgeo. reflexivity.
    + exists []. unfold resolve_location, bind, search_locations.
      rewrite Hgeo. reflexivity.
    + rewrite (resolve_location_many cfg host _ _ _ Hgeo)
        by (cbn [List.length]; lia).
      cbv zeta.
      destruct (render_options 0 _); [| exists []; reflexivity].
      destruct (is_accept _);
        [| eexists; cbn [snd]; rewrite <- app_assoc; reflexivity].
      destruct (data _);
        [| eexists; cbn [snd]; rewrite <- app_assoc; reflexivity].
      destruct (_ || _);
        [eexists; cbn [snd]; rewrite <- app_assoc; reflexivity |].
      destruct (py_getitem _ _);
        eexists; cbn [snd]; rewrite <- app_assoc; reflexivity.
  - exists []. unfold resolve_location, bind, search_locations.
    rewrite Hgeo. reflexivity.
Qed.

(** The amended C6. A name that has fewer than two characters once
    stripped (characters, not bytes, and with the whitespace that
    [str.strip()] removes) is rejected by [search_locations_tool] with a
    [ValueError] before any call is made; the four weather handlers make no
    such check: each starts by handing the name to the search. *)
Theorem query_length_validation (location_name : string) (tr : trace) :
  len (strip (code_points location_name)) < 2 ->
  (forall limit,
     search_locations_tool cfg host location_name limit tr
     = (Raise (ValueError too_short_message), tr))
  /\ (forall temperature_unit,
        exists rest,
          snd (get_current_weather cfg host weather_code_to_description
                 location_name temperature_unit tr)
          = tr ++ search_request cfg location_name :: rest)
  /\ (forall forecast_days temperature_unit,
        exists rest,
          snd (get_weather_forecast cfg host weather_code_to_description
                 location_name forecast_days temperature_unit tr)
          = tr ++ search_request cfg location_name :: rest)
  /\ (forall forecast_hours temperature_unit,
        exists rest,
          snd (get_hourly_forecast cfg host weather_code_to_description
                 location_name forecast_hours temperature_unit tr)
          = tr ++ search_request cfg location_name :: rest)
  /\ (exists rest,
        snd (get_weather_alerts cfg host weather_code_to_description
               str_number location_name tr)
        = tr ++ search_request cfg location_name :: rest).
Proof.
  intros Hshort.
  split; [| split; [| split; [| split]]].
  - intros limit. unfold search_locations_tool.
    destruct (Z.ltb_spec (len (strip (code_points location_name))) 2)
      as [_ | Hlong]; [reflexivity | lia].
  - intros temperature_unit.
    apply (starts_with_bind _ _ _
             (resolve_location_starts_with_search location_name)).
    solve_extends.
  - intros forecast_days temperature_unit.
    apply (starts_with_bind _ _ _
             (resolve_location_starts_with_search location_name)).
    solve_extends.
  - intros forecast_hours temperature_unit.
    apply (starts_with_bind _ _ _
             (resolve_location_starts_with_search location_name)).
    solve_extends.
  - apply (starts_with_bind _ _ _
             (resolve_location_starts_with_search location_name)).
    solve_extends.
Qed.

(** A name of two characters or more, once stripped, goes to the search with
    the limit clamped to 1..10. *)
Lemma search_locations_tool_long_enough (location_name : string) (limit : Z)
    (tr : trace) :
  2 <= len (strip (code_points location_name)) ->
  snd (search_locations_tool cfg host location_name limit tr)
  = tr ++ [GeocodingRequest location_name
             (Z.min (Z.max 1 (Z.min limit 10))
                (MAX_LOCATION_SEARCH_RESULTS cfg))].
Proof.
  intros Hlong. unfold search_locations_tool.
  destruct (Z.ltb_spec (len (strip (code_points location_name))) 2)
    as [Hshort | _]; [lia |].
  unfold bind, search_locations.
  destruct (geocoding host location_name _); reflexivity.
Qed.

End Validation.

(** * Worked examples *)

(** Settles a closed arithmetic side condition by evaluation. *)
Ltac evaluate :=
  vm_compute;
  repeat match goal with |- _ /\ _ => split end;
  first [reflexivity | lia | discriminate | intro; discriminate].

(** Settles a field-by-field description of a record. *)
Ltac read_fields Hbuilt :=
  unfold built_from in Hbuilt; cbn in Hbuilt;
  repeat match type of Hbuilt with
         | _ /\ _ =>
             let H := fresh "Hfield" in
             destruct Hbuilt as [H Hbuilt]
         end.

(** Choosing 2 among the Springfields gives the second one listed, with its
    own coordinates. *)
Lemma resolve_location_selected_witness :
  resolve_location sample_cfg (calm_host (accepted 2)) "Springfield" []
  = (Ok (LocationInfo.mk 2 "Springfield" (3722 # 100) (-9330 # 100)
           "United States" (Some "Missouri") (Some "Greene")
           "America/Chicago" (Some 1234567) None),
     springfield_calls).
Proof.
  destruct (resolve_location_selected sample_cfg (calm_host (accepted 2))
              "Springfield" [] springfields springfield_options 2)
    as (loc & info & Hnth & _ & Hrun & Hbuilt);
    [reflexivity | evaluate | reflexivity | reflexivity | evaluate |].
  vm_compute in Hnth. injection Hnth as <-. rewrite Hrun.
  destruct info. read_fields Hbuilt. subst. reflexivity.
Defined.

(** Choosing 6 is refused although the search returned seven results: only
    five were offered. *)
Lemma resolve_location_selection_error_witness :
  exists e,
    SelectionError e
    /\ resolve_location sample_cfg (calm_host (accepted 6)) "Springfield" []
       = (Raise e, springfield_calls).
Proof.
  apply (resolve_location_selection_error sample_cfg (calm_host (accepted 6))
           "Springfield" [] springfields springfield_options);
    [reflexivity | evaluate | reflexivity |].
  right. right. right. split; [reflexivity |].
  exists 6. split; [reflexivity | right; evaluate].
Defined.

Lemma resolve_location_not_found_witness :
  resolve_location sample_cfg (calm_host (accepted 1)) "Atlantis" []
  = (Raise (NotFoundError "Atlantis"), [GeocodingRequest "Atlantis" 10])
  /\ elicitations
       (snd (resolve_location sample_cfg (calm_host (accepted 1))
               "Atlantis" [])) = [].
Proof.
  destruct (resolve_location_not_found sample_cfg (calm_host (accepted 1))
              "Atlantis" []) as (Hrun & _ & Hnone);
    [reflexivity |].
  split; [exact Hrun | exact Hnone].
Defined.

Lemma resolve_location_single_witness :
  resolve_location sample_cfg (calm_host (accepted 1)) "Vancouver" []
  = (Ok (LocationInfo.mk 6173331 "Vancouver" (4925 # 100) (-12312 # 100)
           "Canada" (Some "British Columbia") (Some "Metro Vancouver")
           "America/Vancouver" (Some 600000) (Some 70%Q)),
     [GeocodingRequest "Vancouver" 10])
  /\ elicitations
       (snd (resolve_location sample_cfg (calm_host (accepted 1))
               "Vancouver" [])) = [].
Proof.
  destruct (resolve_location_single sample_cfg (calm_host (accepted 1))
              "Vancouver" [] vancouver)
    as (info & Hrun & Hbuilt & Hnone); [reflexivity |].
  split; [| exact Hnone].
  rewrite Hrun. destruct info. read_fields Hbuilt. subst. reflexivity.
Defined.

Lemma elicitation_enumerates_prefix_witness :
  snd (resolve_location sample_cfg (calm_host decline_answer)
         "Springfield" [])
  = [GeocodingRequest "Springfield" 10; Elicitation springfield_message]
  /\ len springfield_options = Z.min (len springfields) 5.
Proof.
  destruct (elicitation_enumerates_prefix sample_cfg
              (calm_host decline_answer) "Springfield" [] springfields)
    as (location_options & Htrace & Hcount & _ & Hrender & _);
    [reflexivity | evaluate | evaluate | reflexivity |].
  vm_compute in Hrender. injection Hrender as <-.
  split; [rewrite Htrace; reflexivity | exact Hcount].
Defined.

Lemma option_text_summary_witness :
  option_text 1 (springfield 2 "Missouri" (Some "Greene") (Some 1234567))
  = Ok "2. Springfield, Missouri, Greene, United States (pop. 1,234,567)".
Proof.
  apply (option_text_summary 1
           (springfield 2 "Missouri" (Some "Greene") (Some 1234567))
           "United States").
  reflexivity.
Defined.

(** A one-letter name, be it "a" or the two-byte U+00E9, is refused by the
    search tool and forwarded by the weather handlers. *)
Lemma query_length_validation_witness :
  search_locations_tool sample_cfg (calm_host (accepted 1)) "a" 5 []
  = (Raise (ValueError too_short_message), [])
  /\ search_locations_tool sample_cfg (calm_host (accepted 1)) e_acute 5 []
     = (Raise (ValueError too_short_message), [])
  /\ exists rest,
       snd (get_weather_alerts sample_cfg (calm_host (accepted 1))
              sample_description sample_str_number e_acute [])
       = GeocodingRequest e_acute 10 :: rest.
Proof.
  destruct (query_length_validation sample_cfg (calm_host (accepted 1))
              sample_description sample_str_number "a" [])
    as (Htool & _); [evaluate |].
  destruct (query_length_validation sample_cfg (calm_host (accepted 1))
              sample_description sample_str_number e_acute [])
    as (Htool' & _ & _ & _ & Halerts); [evaluate |].
  split; [apply Htool |]. split; [apply Htool' | exact Halerts].
Defined.

(** C6 as stated fails: [get_current_weather] called with the one-letter
    name "a" does not reject it but sends it to the search. *)
Lemma get_current_weather_accepts_short_name :
  len (strip (code_points "a")) < 2
  /\ get_current_weather sample_cfg (calm_host (accepted 1))
       sample_description "a" "celsius" []
     = (Raise (NotFoundError "a"), [GeocodingRequest "a" 10])
  /\ ~ rejects_short_names
         (fun location_name =>
            get_current_weather sample_cfg (calm_host (accepted 1))
              sample_description location_name "celsius").
Proof.
  split; [evaluate |]. split; [reflexivity |].
  intros Hrejects.
  destruct (Hrejects "a" []) as [e He]; [evaluate |].
  vm_compute in He. discriminate He.
Qed.


(** With [storm_host]: one thunderstorm warning, the wind warning, nothing
    from the scan. *)
Lemma weather_alert_rules_witness :
  exists r tr',
    get_weather_alerts sample_cfg storm_host sample_description
      sample_str_number "Vancouver" [] = (Ok r, tr')
    /\ filter (has_title "Thunderstorm Warning") (Alerts.alerts r)
       = [thunderstorm_warning sample_description 95]
    /\ filter (has_title "Incoming Thunderstorm") (Alerts.alerts r) = []
    /\ In (high_wind_warning sample_str_number 60) (Alerts.alerts r).
Proof.
  destruct (get_weather_alerts sample_cfg storm_host sample_description
              sample_str_number "Vancouver" [])
    as [[r | e] tr'] eqn:Hrun; [| vm_compute in Hrun; discriminate Hrun].
  exists r, tr'. split; [reflexivity |].
  destruct (weather_alert_rules sample_cfg storm_host sample_description
              sample_str_number "Vancouver" [] tr' r Hrun)
    as (tr1 & params & weather_data & current & hourly
        & _ & Hanswer & Hcurrent & _ & Hthunder & Hwind & _).
  cbn [storm_host sample_host forecast] in Hanswer.
  unfold sample_forecast in Hanswer. injection Hanswer as <-.
  cbn [WeatherData.current] in Hcurrent. injection Hcurrent as <-.
  destruct Hthunder as (Hone & _ & Hnone); [reflexivity |].
  destruct Hwind as [Hin _]; [reflexivity |].
  split; [exact Hone |]. split; [exact Hnone | exact Hin].
Defined.

(** With [clearing_host]: the scan records the second hour, once. *)
Lemma weather_alerts_invariant_witness :
  exists r tr',
    get_weather_alerts sample_cfg clearing_host sample_description
      sample_str_number "Vancouver" [] = (Ok r, tr')
    /\ Alerts.alerts r = [incoming_thunderstorm "h1"]
    /\ (List.length (filter is_severe (Alerts.alerts r)) <= 1)%nat
    /\ Alerts.alert_count r = Z.of_nat (List.length (Alerts.alerts r)).
Proof.
  destruct (get_weather_alerts sample_cfg clearing_host sample_description
              sample_str_number "Vancouver" [])
    as [[r | e] tr'] eqn:Hrun; [| vm_compute in Hrun; discriminate Hrun].
  exists r, tr'. split; [reflexivity |].
  destruct (weather_alerts_invariant sample_cfg clearing_host
              sample_description sample_str_number "Vancouver" [] tr' r Hrun)
    as [Hone Hcount].
  split; [| split; [exact Hone | exact Hcount]].
  vm_compute in Hrun. injection Hrun as <- _. reflexivity.
Defined.

(** * Further properties *)

(** ** The calls of the resolver *)

Section ResolverCalls.

Variable cfg : config.
Variable host : Host.

(** X1. Whatever the search returns and whatever the user answers,
    [resolve_location] makes one search call, then at most one elicitation,
    and nothing else. *)
Theorem resolve_location_calls (location_name : string) (tr : trace) :
  exists rest,
    snd (resolve_location cfg host location_name tr)
    = tr ++ search_request cfg location_name :: rest
    /\ (rest = [] \/ exists message, rest = [Elicitation message]).
Proof.
  destruct (geocoding host location_name
              (Z.min 10 (MAX_LOCATION_SEARCH_RESULTS cfg)))
    as [locations | e] eqn:Hgeo.
  - destruct locations as [| a [| b more]].
    + exists []. split; [| left; reflexivity].
      unfold resolve_location, bind, search_locations.
      rewrite Hgeo. reflexivity.
    + exists []. split; [| left; reflexivity].
      unfold resolve_location, bind, search_locations.
      rewrite Hgeo. reflexivity.
    + rewrite (resolve_location_many cfg host _ _ _ Hgeo)
        by (cbn [List.length]; lia).
      cbv zeta.
      destruct (render_options 0 _) as [location_options |];
        [| exists []; split; [reflexivity | left; reflexivity]].
      exists [Elicitation
                (elicitation_message location_name location_options)].
      split; [| right; eexists; reflexivity].
      destruct (is_accept _);
        [| cbn [snd]; rewrite <- app_assoc; reflexivity].
      destruct (data _);
        [| cbn [snd]; rewrite <- app_assoc; reflexivity].
      destruct (_ || _);
        [cbn [snd]; rewrite <- app_assoc; reflexivity |].
      destruct (py_getitem _ _);
        cbn [snd]; rewrite <- app_assoc; reflexivity.
  - exists []. split; [| left; reflexivity].
    unfold resolve_location, bind, search_locations.
    rewrite Hgeo. reflexivity.
Qed.

(** X2. When the search raises, [resolve_location] raises the same exception
    and the search is the only call made. *)
Theorem resolve_location_search_error (location_name : string) (tr : trace)
    (e : exn) :
  geocoding host location_name (Z.min 10 (MAX_LOCATION_SEARCH_RESULTS cfg))
    = Raise e ->
  resolve_location cfg host location_name tr
  = (Raise e, tr ++ [search_request cfg location_name]).
Proof.
  intros Hgeo. unfold resolve_location, bind, search_locations.
  rewrite Hgeo. reflexivity.
Qed.

End ResolverCalls.

(** ** The search tool *)

Lemma lstrip_all_space (l : list Z) :
  forallb isspace l = true -> lstrip l = [].
Proof.
  induction l as [| c rest IH]; intros Hall; [reflexivity |].
  cbn [forallb] in Hall. apply andb_prop in Hall as [Hc Hrest].
  cbn [lstrip]. rewrite Hc. apply IH. exact Hrest.
Qed.

Section SearchTool.

Variable cfg : config.
Variable host : Host.

(** X3. A name made only of characters that [str.strip()] removes (ASCII
    or Unicode whitespace) is rejected by [search_locations_tool] however
    long it is, before any call. *)
Theorem search_locations_tool_rejects_blank (location_name : string)
    (limit : Z) (tr : trace) :
  all_space location_name = true ->
  search_locations_tool cfg host location_name limit tr
  = (Raise (ValueError too_short_message), tr).
Proof.
  unfold all_space. intros Hblank. unfold search_locations_tool, strip.
  rewrite (lstrip_all_space _ Hblank). reflexivity.
Qed.

(** X4. For a name of at least two characters once stripped,
    [search_locations_tool] sends the name as given (not stripped) with a
    count of [min(max(1, min(limit, 10)), MAX_LOCATION_SEARCH_RESULTS)],
    which never exceeds 10, makes no other call, and returns one
    [LocationInfo] per result of the search, in order, each built from its
    result, also when there are several. *)
Theorem search_locations_tool_returns_all (location_name : string)
    (limit : Z) (tr : trace) (locations : list Loc.t) :
  2 <= len (strip (code_points location_name)) ->
  geocoding host location_name
    (Z.min (Z.max 1 (Z.min limit 10)) (MAX_LOCATION_SEARCH_RESULTS cfg))
    = Ok locations ->
  exists count infos,
    search_locations_tool cfg host location_name limit tr
    = (Ok infos, tr ++ [GeocodingRequest location_name count])
    /\ Forall2 built_from locations infos
    /\ count <= 10
    /\ (1 <= MAX_LOCATION_SEARCH_RESULTS cfg -> 1 <= count)
    /\ (1 <= limit <= 10 -> 10 <= MAX_LOCATION_SEARCH_RESULTS cfg ->
        count = limit).
Proof.
  intros Hlong Hgeo.
  exists (Z.min (Z.max 1 (Z.min limit 10)) (MAX_LOCATION_SEARCH_RESULTS cfg)).
  exists (map location_info locations).
  split; [| split; [| lia]].
  - unfold search_locations_tool.
    destruct (Z.ltb_spec (len (strip (code_points location_name))) 2)
      as [Hshort | _]; [lia |].
    unfold bind, search_locations. rewrite Hgeo. reflexivity.
  - clear Hgeo. induction locations as [| loc rest IH]; cbn [map];
      constructor; [apply built_from_location_info | exact IH].
Qed.

End SearchTool.

(** ** How the weather handlers compose resolution and forecast *)

Section Handlers.

Variable cfg : config.
Variable host : Host.
Variable weather_code_to_description : Z -> string.
Variable str_number : Q -> string.

(** After a successful resolution a handler makes one forecast request and
    shapes the answer. *)
Lemma get_current_weather_run (location_name temperature_unit : string)
    (tr tr1 : trace) (location : LocationInfo.t) :
  resolve_location cfg host location_name tr = (Ok location, tr1) ->
  get_current_weather cfg host weather_code_to_description location_name
    temperature_unit tr
  = (current_weather_of weather_code_to_description location
       (forecast host (current_weather_params location temperature_unit)),
     tr1 ++ [ForecastRequest
               (current_weather_params location temperature_unit)]).
Proof.
  intros Hres. unfold get_current_weather, bind at 1. rewrite Hres.
  unfold bind, get_weather_data, current_weather_of, lift, ret.
  fold (current_weather_params location temperature_unit).
  destruct (forecast host _) as [weather_data |]; [| reflexivity].
  cbn [rbind].
  destruct (WeatherData.current weather_data); [| reflexivity].
  destruct (WeatherData.current_units weather_data); reflexivity.
Qed.

Lemma get_weather_forecast_run (location_name : string) (forecast_days : Z)
    (temperature_unit : string) (tr tr1 : trace) (location : LocationInfo.t) :
  resolve_location cfg host location_name tr = (Ok location, tr1) ->
  get_weather_forecast cfg host weather_code_to_description location_name
    forecast_days temperature_unit tr
  = (weather_forecast_of weather_code_to_description (now host) location
       (forecast host
          (weather_forecast_params cfg location forecast_days
             temperature_unit)),
     tr1 ++ [ForecastRequest
               (weather_forecast_params cfg location forecast_days
                  temperature_unit)]).
Proof.
  intros Hres. unfold get_weather_forecast, bind at 1. rewrite Hres.
  unfold bind, get_weather_data, weather_forecast_of, lift, ret.
  fold (weather_forecast_params cfg location forecast_days temperature_unit).
  destruct (forecast host _) as [weather_data |]; [| reflexivity].
  cbn [rbind].
  destruct (WeatherData.daily weather_data); [| reflexivity].
  destruct (WeatherData.daily_units weather_data); [| reflexivity].
  cbn [py_key rbind]. destruct (for_each _ _); reflexivity.
Qed.

Lemma get_hourly_forecast_run (location_name : string) (forecast_hours : Z)
    (temperature_unit : string) (tr tr1 : trace) (location : LocationInfo.t) :
  resolve_location cfg host location_name tr = (Ok location, tr1) ->
  get_hourly_forecast cfg host weather_code_to_description location_name
    forecast_hours temperature_unit tr
  = (hourly_forecast_of cfg weather_code_to_description (now host) location
       forecast_hours
       (forecast host (hourly_forecast_params location temperature_unit)),
     tr1 ++ [ForecastRequest
               (hourly_forecast_params location temperature_unit)]).
Proof.
  intros Hres. unfold get_hourly_forecast, bind at 1. rewrite Hres.
  unfold bind, get_weather_data, hourly_forecast_of, lift, ret.
  fold (hourly_forecast_params location temperature_unit).
  destruct (forecast host _) as [weather_data |]; [| reflexivity].
  cbn [rbind].
  destruct (WeatherData.hourly weather_data); [| reflexivity].
  destruct (WeatherData.hourly_units weather_data); [| reflexivity].
  cbn [py_key rbind]. destruct (for_each _ _); reflexivity.
Qed.

Lemma get_weather_alerts_run (location_name : string) (tr tr1 : trace)
    (location : LocationInfo.t) :
  resolve_location cfg host location_name tr = (Ok location, tr1) ->
  get_weather_alerts cfg host weather_code_to_description str_number
    location_name tr
  = (weather_alerts_of cfg weather_code_to_description str_number (now host)
       location (forecast host (weather_alerts_params location)),
     tr1 ++ [ForecastRequest (weather_alerts_params location)]).
Proof.
  intros Hres. unfold get_weather_alerts, bind at 1. rewrite Hres.
  unfold bind, get_weather_data, weather_alerts_of, lift, ret.
  fold (weather_alerts_params location).
  destruct (forecast host _) as [weather_data |]; [| reflexivity].
  cbn [rbind].
  destruct (WeatherData.current weather_data); [| reflexivity].
  destruct (WeatherData.hourly weather_data); [| reflexivity].
  cbn [py_key rbind app]. unfold current_alerts.
  destruct (upcoming_scan _ _ _ _); reflexivity.
Qed.

(** X5. When resolution fails, each weather handler raises the exception of
    the resolver unchanged and makes no call of its own: no forecast is
    requested. *)
Theorem weather_handlers_stop_on_resolution_error (location_name : string)
    (tr tr1 : trace) (e : exn) :
  resolve_location cfg host location_name tr = (Raise e, tr1) ->
  (forall temperature_unit,
     get_current_weather cfg host weather_code_to_description location_name
       temperature_unit tr = (Raise e, tr1))
  /\ (forall forecast_days temperature_unit,
        get_weather_forecast cfg host weather_code_to_description
          location_name forecast_days temperature_unit tr = (Raise e, tr1))
  /\ (forall forecast_hours temperature_unit,
        get_hourly_forecast cfg host weather_code_to_description
          location_name forecast_hours temperature_unit tr = (Raise e, tr1))
  /\ get_weather_alerts cfg host weather_code_to_description str_number
       location_name tr = (Raise e, tr1).
Proof.
  intros Hres. repeat split; intros;
    unfold get_current_weather, get_weather_forecast, get_hourly_forecast,
      get_weather_alerts, bind at 1;
    rewrite Hres; reflexivity.
Qed.

(** X6. After a successful resolution each weather handler makes exactly one
    more call, the forecast request for the coordinates of the resolved
    location, and an exception of the forecast service is raised
    unchanged. *)
Theorem weather_handlers_request_forecast (location_name : string)
    (tr tr1 : trace) (location : LocationInfo.t) :
  resolve_location cfg host location_name tr = (Ok location, tr1) ->
  forall temperature_unit forecast_days forecast_hours,
  requests_forecast host tr1 location
    (current_weather_params location temperature_unit)
    (get_current_weather cfg host weather_code_to_description location_name
       temperature_unit tr)
  /\ requests_forecast host tr1 location
       (weather_forecast_params cfg location forecast_days temperature_unit)
       (get_weather_forecast cfg host weather_code_to_description
          location_name forecast_days temperature_unit tr)
  /\ requests_forecast host tr1 location
       (hourly_forecast_params location temperature_unit)
       (get_hourly_forecast cfg host weather_code_to_description
          location_name forecast_hours temperature_unit tr)
  /\ requests_forecast host tr1 location (weather_alerts_params location)
       (get_weather_alerts cfg host weather_code_to_description str_number
          location_name tr).
Proof.
  intros Hres temperature_unit forecast_days forecast_hours.
  unfold requests_forecast.
  rewrite (get_current_weather_run _ temperature_unit _ _ _ Hres).
  rewrite (get_weather_forecast_run _ forecast_days temperature_unit
             _ _ _ Hres).
  rewrite (get_hourly_forecast_run _ forecast_hours temperature_unit
             _ _ _ Hres).
  rewrite (get_weather_alerts_run _ _ _ _ Hres).
  cbn [fst snd].
  repeat split; intros e He; rewrite He; reflexivity.
Qed.

End Handlers.

(** ** Shaping the columns of a forecast into records *)

Lemma rbind_Ok {A B} (r : result A) (k : A -> result B) (b : B) :
  rbind r k = Ok b -> exists a, r = Ok a /\ k a = Ok b.
Proof.
  destruct r as [a | e]; cbn [rbind]; intros Hk; [| discriminate].
  exists a. split; [reflexivity | exact Hk].
Qed.

(** Takes a successful chain of fallible steps apart. *)
Ltac invert_chain :=
  repeat match goal with
         | H : rbind _ _ = Ok _ |- _ =>
             let a := fresh "a" in
             let Ha := fresh "Ha" in
             apply rbind_Ok in H as (a & Ha & H); cbv beta in H
         | H : py_key _ _ = Ok _ |- _ => apply py_key_Ok in H
         | H : Ok _ = Ok _ |- _ => injection H as H
         end.

Lemma py_getitem_nat {A} (l : list A) (k : nat) (a : A) :
  py_getitem l (Z.of_nat k) = Ok a <-> nth_error l k = Some a.
Proof.
  unfold py_getitem.
  destruct (Z.ltb_spec (Z.of_nat k) 0) as [Hneg | _]; [lia |].
  destruct (Z.ltb_spec (Z.of_nat k) 0) as [Hneg | _]; [lia |].
  rewrite Nat2Z.id.
  destruct (nth_error l k); split; intros H; congruence.
Qed.

(** A subscript raises nothing but [IndexError]. *)
Lemma py_getitem_raises {A} (l : list A) (i : Z) (e : exn) :
  py_getitem l i = Raise e -> e = IndexError.
Proof.
  unfold py_getitem. destruct (_ <? 0); [intros [= <-]; reflexivity |].
  destruct (nth_error l _); [discriminate | intros [= <-]; reflexivity].
Qed.

(** From index 0 on, a subscript succeeds exactly below the length. *)
Lemma py_getitem_Ok_iff {A} (l : list A) (i : Z) :
  0 <= i -> ((exists a, py_getitem l i = Ok a) <-> i < len l).
Proof.
  intros Hi. split.
  - intros [a Ha]. replace i with (Z.of_nat (Z.to_nat i)) in Ha by lia.
    apply py_getitem_nat in Ha.
    assert (Hlt : (Z.to_nat i < List.length l)%nat)
      by (apply nth_error_Some; congruence).
    unfold len. lia.
  - intros Hlt. destruct (py_getitem_in_range l i) as (a & _ & Ha);
      [lia | exists a; exact Ha].
Qed.

Lemma nth_error_seq_Some (m : nat) :
  forall s k j, nth_error (seq s m) k = Some j -> j = (s + k)%nat /\ (k < m)%nat.
Proof.
  induction m as [| m IH]; intros s k j Hnth; [destruct k; discriminate |].
  destruct k as [| k]; cbn [seq nth_error] in Hnth.
  - injection Hnth as <-. lia.
  - destruct (IH _ _ _ Hnth). lia.
Qed.

Lemma nth_error_py_range (n : Z) (k : nat) (i : Z) :
  nth_error (py_range n) k = Some i -> i = Z.of_nat k /\ Z.of_nat k < n.
Proof.
  unfold py_range. intros Hnth.
  rewrite nth_error_map in Hnth.
  destruct (nth_error (seq 0 (Z.to_nat n)) k) as [j |] eqn:Hseq;
    [| discriminate].
  injection Hnth as <-.
  destruct (nth_error_seq_Some _ _ _ _ Hseq). lia.
Qed.

Lemma In_py_range (n i : Z) : In i (py_range n) <-> 0 <= i < n.
Proof.
  unfold py_range. rewrite in_map_iff. split.
  - intros (k & <- & Hk). apply in_seq in Hk. lia.
  - intros Hi. exists (Z.to_nat i). split; [lia |]. apply in_seq. lia.
Qed.

Lemma for_each_nth {A B} (f : A -> result B) (l : list A) :
  forall bs k b,
    for_each f l = Ok bs ->
    nth_error bs k = Some b ->
    exists a, nth_error l k = Some a /\ f a = Ok b.
Proof.
  induction l as [| a rest IH]; intros bs k b Hrun Hnth;
    cbn [for_each] in Hrun.
  - injection Hrun as <-. destruct k; discriminate.
  - invert_chain. subst bs. destruct k as [| k]; cbn [nth_error] in Hnth |- *.
    + injection Hnth as <-. exists a. auto.
    + eapply IH; eassumption.
Qed.

Lemma for_each_total {A B} (f : A -> result B) (l : list A) :
  (forall a, In a l -> exists b, f a = Ok b) ->
  exists bs, for_each f l = Ok bs.
Proof.
  induction l as [| a rest IH]; intros Hall.
  - exists []. reflexivity.
  - destruct (Hall a (or_introl eq_refl)) as [b Hb].
    destruct IH as [bs Hbs]; [intros x Hx; apply Hall; right; exact Hx |].
    exists (b :: bs). cbn [for_each]. rewrite Hb. cbn [rbind].
    rewrite Hbs. reflexivity.
Qed.

(** A loop one of whose steps raises, all steps raising the same exception
    when they raise, raises it. *)
Lemma for_each_raises {A B} (f : A -> result B) (l : list A) (e : exn) :
  (forall a e', In a l -> f a = Raise e' -> e' = e) ->
  (exists a, In a l /\ f a = Raise e) ->
  for_each f l = Raise e.
Proof.
  induction l as [| a rest IH]; intros Honly (x & Hx & Hfx);
    [destruct Hx |].
  cbn [for_each].
  destruct (f a) as [b | e'] eqn:Hfa.
  - cbn [rbind]. rewrite IH; [reflexivity | |].
    + intros y e' Hy. apply Honly. right. exact Hy.
    + destruct Hx as [-> | Hx]; [congruence |]. exists x. auto.
  - cbn [rbind]. rewrite (Honly a e' (or_introl eq_refl) Hfa). reflexivity.
Qed.

Section Shaping.

Variable weather_code_to_description : Z -> string.

(** The record of hour [k] holds entry [k] of every column. *)
Lemma hourly_point_at_Ok (hourly : Hourly.t) (k : nat)
    (point : HourlyWeatherPoint.t) :
  hourly_point_at weather_code_to_description hourly (Z.of_nat k) = Ok point ->
  hourly_row weather_code_to_description hourly k point.
Proof.
  unfold hourly_point_at, hourly_row. intros Hpoint. invert_chain.
  subst point. cbn. repeat split; apply py_getitem_nat; assumption.
Qed.

(** The record of day [k] holds entry [k] of every column. *)
Lemma daily_forecast_at_Ok (daily : Daily.t) (daily_units : DailyUnits.t)
    (k : nat) (day : DailyForecast.t) :
  daily_forecast_at weather_code_to_description daily daily_units
    (Z.of_nat k) = Ok day ->
  daily_row weather_code_to_description daily daily_units k day.
Proof.
  unfold daily_forecast_at, daily_row. intros Hday. invert_chain.
  subst day. cbn. repeat split; apply py_getitem_nat; assumption.
Qed.

End Shaping.

Section Forecasts.

Variable cfg : config.
Variable host : Host.
Variable weather_code_to_description : Z -> string.

(** A handler that returns has resolved the location. *)
Lemma get_hourly_forecast_resolved (location_name : string)
    (forecast_hours : Z) (temperature_unit : string) (tr tr' : trace)
    (r : HourlyForecast.t) :
  get_hourly_forecast cfg host weather_code_to_description location_name
    forecast_hours temperature_unit tr = (Ok r, tr') ->
  exists location tr1,
    resolve_location cfg host location_name tr = (Ok location, tr1).
Proof.
  unfold get_hourly_forecast. intros Hrun.
  apply bind_Ok in Hrun as (location & tr1 & Hres & _). eauto.
Qed.

Lemma get_weather_forecast_resolved (location_name : string)
    (forecast_days : Z) (temperature_unit : string) (tr tr' : trace)
    (r : WeatherForecast.t) :
  get_weather_forecast cfg host weather_code_to_description location_name
    forecast_days temperature_unit tr = (Ok r, tr') ->
  exists location tr1,
    resolve_location cfg host location_name tr = (Ok location, tr1).
Proof.
  unfold get_weather_forecast. intros Hrun.
  apply bind_Ok in Hrun as (location & tr1 & Hres & _). eauto.
Qed.

(** X7. In the result of [get_hourly_forecast] the record at position [k]
    is row [k] of the hourly columns of the answer: entry [k] of ["time"],
    of ["temperature_2m"] and of each other column, the description being
    that of its weather code; the units are those of the units group and the
    location is the resolved one. *)
Theorem hourly_forecast_rows (location_name : string) (forecast_hours : Z)
    (temperature_unit : string) (tr tr' : trace) (r : HourlyForecast.t) :
  get_hourly_forecast cfg host weather_code_to_description location_name
    forecast_hours temperature_unit tr = (Ok r, tr') ->
  exists location tr1 weather_data hourly hourly_units,
    resolve_location cfg host location_name tr = (Ok location, tr1)
    /\ forecast host (hourly_forecast_params location temperature_unit)
       = Ok weather_data
    /\ WeatherData.hourly weather_data = Some hourly
    /\ WeatherData.hourly_units weather_data = Some hourly_units
    /\ HourlyForecast.location r = location
    /\ HourlyForecast.temperature_unit r
       = HourlyUnits.temperature_2m hourly_units
    /\ HourlyForecast.precipitation_unit r
       = HourlyUnits.precipitation hourly_units
    /\ HourlyForecast.wind_speed_unit r
       = HourlyUnits.wind_speed_10m hourly_units
    /\ forall k point,
         nth_error (HourlyForecast.hourly_data r) k = Some point ->
         hourly_row weather_code_to_description hourly k point.
Proof.
  intros Hrun.
  destruct (get_hourly_forecast_resolved _ _ _ _ _ _ Hrun)
    as (location & tr1 & Hres).
  rewrite (get_hourly_forecast_run cfg host _ _ forecast_hours
             temperature_unit _ _ _ Hres) in Hrun.
  injection Hrun as Hshape _. unfold hourly_forecast_of in Hshape.
  invert_chain. subst r.
  eexists location, tr1, _, _, _.
  do 4 (split; [eassumption || reflexivity |]).
  cbn. do 4 (split; [reflexivity |]).
  intros k point Hk.
  match goal with
  | H : for_each _ _ = Ok _ |- _ =>
      destruct (for_each_nth _ _ _ _ _ H Hk) as (i & Hi & Hpoint)
  end.
  apply nth_error_py_range in Hi as [-> _].
  apply hourly_point_at_Ok. exact Hpoint.
Qed.

(** X8. In the result of [get_weather_forecast] the record at position [k]
    is row [k] of the daily columns of the answer, with the units of the
    units group; there is one record per entry of ["time"]. *)
Theorem weather_forecast_rows (location_name : string) (forecast_days : Z)
    (temperature_unit : string) (tr tr' : trace) (r : WeatherForecast.t) :
  get_weather_forecast cfg host weather_code_to_description location_name
    forecast_days temperature_unit tr = (Ok r, tr') ->
  exists location tr1 weather_data daily daily_units,
    resolve_location cfg host location_name tr = (Ok location, tr1)
    /\ forecast host
         (weather_forecast_params cfg location forecast_days temperature_unit)
       = Ok weather_data
    /\ WeatherData.daily weather_data = Some daily
    /\ WeatherData.daily_units weather_data = Some daily_units
    /\ WeatherForecast.location r = location
    /\ WeatherForecast.generated_at r = now host
    /\ List.length (WeatherForecast.forecast_days r)
       = List.length (Daily.time daily)
    /\ forall k day,
         nth_error (WeatherForecast.forecast_days r) k = Some day ->
         daily_row weather_code_to_description daily daily_units k day.
Proof.
  intros Hrun.
  destruct (get_weather_forecast_resolved _ _ _ _ _ _ Hrun)
    as (location & tr1 & Hres).
  rewrite (get_weather_forecast_run cfg host _ _ forecast_days
             temperature_unit _ _ _ Hres) in Hrun.
  injection Hrun as Hshape _. unfold weather_forecast_of in Hshape.
  invert_chain. subst r.
  eexists location, tr1, _, _, _.
  do 4 (split; [eassumption || reflexivity |]).
  cbn. do 2 (split; [reflexivity |]).
  match goal with
  | H : for_each _ (py_range (len ?l)) = Ok _ |- _ =>
      pose proof (for_each_length _ _ _ H) as Hlen;
      pose proof (len_py_range (len l)) as Hrange;
      pose proof (len_nonneg l) as Hnonneg;
      rename H into Hloop
  end.
  split; [unfold len in *; lia |].
  intros k day Hk.
  destruct (for_each_nth _ _ _ _ _ Hloop Hk) as (i & Hi & Hday).
  apply nth_error_py_range in Hi as [-> _].
  apply daily_forecast_at_Ok. exact Hday.
Qed.

(** A step of either loop raises nothing but [IndexError], and succeeds at
    index [i] exactly when every column has more than [i] entries. *)
Lemma hourly_point_at_raises (hourly : Hourly.t) (i : Z) (e : exn) :
  hourly_point_at weather_code_to_description hourly i = Raise e ->
  e = IndexError.
Proof.
  unfold hourly_point_at.
  repeat match goal with
         | |- rbind (py_getitem ?l ?i) _ = _ -> _ =>
             destruct (py_getitem l i) eqn:?; cbn [rbind];
             [| intros [= <-]; eapply py_getitem_raises; eassumption]
         end.
  discriminate.
Qed.

Lemma daily_forecast_at_raises (daily : Daily.t) (daily_units : DailyUnits.t)
    (i : Z) (e : exn) :
  daily_forecast_at weather_code_to_description daily daily_units i = Raise e ->
  e = IndexError.
Proof.
  unfold daily_forecast_at.
  repeat match goal with
         | |- rbind (py_getitem ?l ?i) _ = _ -> _ =>
             destruct (py_getitem l i) eqn:?; cbn [rbind];
             [| intros [= <-]; eapply py_getitem_raises; eassumption]
         end.
  discriminate.
Qed.

Lemma hourly_point_at_covered (hourly : Hourly.t) (i : Z) :
  0 <= i ->
  ((exists point,
      hourly_point_at weather_code_to_description hourly i = Ok point)
   <-> hourly_columns_cover hourly (i + 1)).
Proof.
  intros Hi. unfold hourly_columns_cover. split.
  - intros [point Hpoint].
    replace i with (Z.of_nat (Z.to_nat i)) in Hpoint by lia.
    apply hourly_point_at_Ok in Hpoint. unfold hourly_row in Hpoint.
    repeat match goal with
           | H : _ /\ _ |- _ => destruct H
           | H : nth_error ?l _ = Some _ |- _ =>
               assert (Z.to_nat i < List.length l)%nat
                 by (apply nth_error_Some; congruence);
               clear H
           end.
    unfold len. lia.
  - intros Hcover. unfold hourly_point_at.
    repeat match goal with
           | |- exists _, rbind (py_getitem ?l i) _ = _ =>
               let a := fresh "a" in
               let Ha := fresh "Ha" in
               destruct (proj2 (py_getitem_Ok_iff l i Hi)) as [a Ha];
               [lia | rewrite Ha; cbn [rbind]]
           end.
    eexists. reflexivity.
Qed.

Lemma daily_forecast_at_covered (daily : Daily.t) (daily_units : DailyUnits.t)
    (i : Z) :
  0 <= i ->
  ((exists day,
      daily_forecast_at weather_code_to_description daily daily_units i
      = Ok day)
   <-> daily_columns_cover daily (i + 1)).
Proof.
  intros Hi. unfold daily_columns_cover. split.
  - intros [day Hday].
    replace i with (Z.of_nat (Z.to_nat i)) in Hday by lia.
    apply daily_forecast_at_Ok in Hday. unfold daily_row in Hday.
    repeat match goal with
           | H : _ /\ _ |- _ => destruct H
           | H : nth_error ?l _ = Some _ |- _ =>
               assert (Z.to_nat i < List.length l)%nat
                 by (apply nth_error_Some; congruence);
               clear H
           end.
    unfold len. lia.
  - intros Hcover. unfold daily_forecast_at.
    repeat match goal with
           | |- exists _, rbind (py_getitem ?l i) _ = _ =>
               let a := fresh "a" in
               let Ha := fresh "Ha" in
               destruct (proj2 (py_getitem_Ok_iff l i Hi)) as [a Ha];
               [lia | rewrite Ha; cbn [rbind]]
           end.
    eexists. reflexivity.
Qed.

(** A loop over [range(n)] whose steps succeed exactly on covered indices
    returns when the columns cover [n] and raises [IndexError] otherwise. *)
Lemma rows_loop {B} (f : Z -> result B) (cover : Z -> Prop) (n : Z) :
  (forall i, 0 <= i -> ((exists b, f i = Ok b) <-> cover (i + 1))) ->
  (forall i e, f i = Raise e -> e = IndexError) ->
  (forall i, 0 <= i < n -> cover n -> cover (i + 1)) ->
  (~ cover n -> exists i, 0 <= i < n /\ ~ cover (i + 1)) ->
  (cover n -> exists bs, for_each f (py_range n) = Ok bs)
  /\ (~ cover n -> for_each f (py_range n) = Raise IndexError).
Proof.
  intros Hstep Honly Hmono Hshort. split.
  - intros Hcover. apply for_each_total. intros i Hi.
    apply In_py_range in Hi. apply Hstep; [lia |]. apply Hmono; assumption.
  - intros Hnot. destruct (Hshort Hnot) as (i & Hi & Hbad).
    apply for_each_raises.
    + intros a e _ Ha. eapply Honly. exact Ha.
    + exists i. split; [apply In_py_range; exact Hi |].
      destruct (f i) as [b | e] eqn:Hfi.
      * exfalso. apply Hbad. apply Hstep; [lia | eauto].
      * rewrite (Honly _ _ Hfi). reflexivity.
Qed.

Lemma daily_columns_short (daily : Daily.t) (n : Z) :
  ~ daily_columns_cover daily n ->
  exists i, 0 <= i < n /\ ~ daily_columns_cover daily (i + 1).
Proof.
  unfold daily_columns_cover. intros Hnot.
  pose proof (len_nonneg (Daily.time daily)).
  pose proof (len_nonneg (Daily.temperature_2m_max daily)).
  pose proof (len_nonneg (Daily.temperature_2m_min daily)).
  pose proof (len_nonneg (Daily.weather_code daily)).
  pose proof (len_nonneg (Daily.precipitation_sum daily)).
  pose proof (len_nonneg (Daily.wind_speed_10m_max daily)).
  pose proof (len_nonneg (Daily.wind_direction_10m_dominant daily)).
  repeat match goal with
         | Hlen : 0 <= len ?l |- _ =>
             destruct (Z.lt_ge_cases (len l) n);
             [exists (len l); lia | clear Hlen]
         end.
  exfalso. lia.
Qed.

Lemma hourly_columns_short (hourly : Hourly.t) (n : Z) :
  ~ hourly_columns_cover hourly n ->
  exists i, 0 <= i < n /\ ~ hourly_columns_cover hourly (i + 1).
Proof.
  unfold hourly_columns_cover. intros Hnot.
  pose proof (len_nonneg (Hourly.time hourly)).
  pose proof (len_nonneg (Hourly.temperature_2m hourly)).
  pose proof (len_nonneg (Hourly.relative_humidity_2m hourly)).
  pose proof (len_nonneg (Hourly.weather_code hourly)).
  pose proof (len_nonneg (Hourly.precipitation hourly)).
  pose proof (len_nonneg (Hourly.wind_speed_10m hourly)).
  pose proof (len_nonneg (Hourly.wind_direction_10m hourly)).
  pose proof (len_nonneg (Hourly.cloud_cover hourly)).
  repeat match goal with
         | Hlen : 0 <= len ?l |- _ =>
             destruct (Z.lt_ge_cases (len l) n);
             [exists (len l); lia | clear Hlen]
         end.
  exfalso. lia.
Qed.

(** X9. Once the location is resolved and the service has answered with a
    daily group and its units, [get_weather_forecast] returns one record per
    entry of ["time"] when every daily column is at least as long as
    ["time"], and raises [IndexError], returning nothing, when one of them
    is shorter. *)
Theorem weather_forecast_needs_full_columns (location_name : string)
    (forecast_days : Z) (temperature_unit : string) (tr tr1 : trace)
    (location : LocationInfo.t) (weather_data : WeatherData.t)
    (daily : Daily.t) (daily_units : DailyUnits.t) :
  resolve_location cfg host location_name tr = (Ok location, tr1) ->
  forecast host
    (weather_forecast_params cfg location forecast_days temperature_unit)
    = Ok weather_data ->
  WeatherData.daily weather_data = Some daily ->
  WeatherData.daily_units weather_data = Some daily_units ->
  (daily_columns_cover daily (len (Daily.time daily)) ->
   exists r,
     fst (get_weather_forecast cfg host weather_code_to_description
            location_name forecast_days temperature_unit tr) = Ok r
     /\ len (WeatherForecast.forecast_days r) = len (Daily.time daily))
  /\ (~ daily_columns_cover daily (len (Daily.time daily)) ->
      fst (get_weather_forecast cfg host weather_code_to_description
             location_name forecast_days temperature_unit tr)
      = Raise IndexError).
Proof.
  intros Hres Hanswer Hdaily Hunits.
  rewrite (get_weather_forecast_run cfg host _ _ forecast_days
             temperature_unit _ _ _ Hres).
  cbn [fst]. unfold weather_forecast_of.
  rewrite Hanswer. cbn [rbind]. rewrite Hdaily, Hunits. cbn [py_key rbind].
  destruct (rows_loop
              (daily_forecast_at weather_code_to_description daily
                 daily_units)
              (daily_columns_cover daily) (len (Daily.time daily)))
    as [Hfull Hragged].
  - intros i Hi. apply daily_forecast_at_covered. exact Hi.
  - intros i e. apply daily_forecast_at_raises.
  - unfold daily_columns_cover. intros i Hi Hcover. lia.
  - apply daily_columns_short.
  - split.
    + intros Hcover. destruct (Hfull Hcover) as [days Hdays].
      rewrite Hdays. cbn [rbind]. eexists. split; [reflexivity |].
      cbn [WeatherForecast.forecast_days]. unfold len at 1.
      rewrite (for_each_length _ _ _ Hdays).
      fold (len (py_range (len (Daily.time daily)))).
      rewrite len_py_range. pose proof (len_nonneg (Daily.time daily)). lia.
    + intros Hnot. rewrite (Hragged Hnot). reflexivity.
Qed.

(** X10. Once the location is resolved and the service has answered with an
    hourly group and its units, [get_hourly_forecast] returns
    [n = min(max(1, min(forecast_hours, MAX_FORECAST_HOURS)), len(time))]
    records when every hourly column has at least [n] entries, and raises
    [IndexError] when one of them has fewer: entries past the first [n] are
    never read. *)
Theorem hourly_forecast_needs_full_columns (location_name : string)
    (forecast_hours : Z) (temperature_unit : string) (tr tr1 : trace)
    (location : LocationInfo.t) (weather_data : WeatherData.t)
    (hourly : Hourly.t) (hourly_units : HourlyUnits.t) :
  resolve_location cfg host location_name tr = (Ok location, tr1) ->
  forecast host (hourly_forecast_params location temperature_unit)
    = Ok weather_data ->
  WeatherData.hourly weather_data = Some hourly ->
  WeatherData.hourly_units weather_data = Some hourly_units ->
  forall n,
    n = Z.min (Z.max 1 (Z.min forecast_hours (MAX_FORECAST_HOURS cfg)))
          (len (Hourly.time hourly)) ->
    (hourly_columns_cover hourly n ->
     exists r,
       fst (get_hourly_forecast cfg host weather_code_to_description
              location_name forecast_hours temperature_unit tr) = Ok r
       /\ len (HourlyForecast.hourly_data r) = n)
    /\ (~ hourly_columns_cover hourly n ->
        fst (get_hourly_forecast cfg host weather_code_to_description
               location_name forecast_hours temperature_unit tr)
        = Raise IndexError).
Proof.
  intros Hres Hanswer Hhourly Hunits n Hn.
  rewrite (get_hourly_forecast_run cfg host _ _ forecast_hours
             temperature_unit _ _ _ Hres).
  cbn [fst]. unfold hourly_forecast_of.
  rewrite Hanswer. cbn [rbind]. rewrite Hhourly, Hunits. cbn [py_key rbind].
  rewrite <- Hn.
  destruct (rows_loop
              (hourly_point_at weather_code_to_description hourly)
              (hourly_columns_cover hourly) n)
    as [Hfull Hragged].
  - intros i Hi. apply hourly_point_at_covered. exact Hi.
  - intros i e. apply hourly_point_at_raises.
  - unfold hourly_columns_cover. intros i Hi Hcover. lia.
  - apply hourly_columns_short.
  - split.
    + intros Hcover. destruct (Hfull Hcover) as [points Hpoints].
      rewrite Hpoints. cbn [rbind]. eexists. split; [reflexivity |].
      cbn [HourlyForecast.hourly_data]. unfold len at 1.
      rewrite (for_each_length _ _ _ Hpoints).
      fold (len (py_range n)).
      rewrite len_py_range. pose proof (len_nonneg (Hourly.time hourly)). lia.
    + intros Hnot. rewrite (Hragged Hnot). reflexivity.
Qed.

End Forecasts.

(** ** The rules of the alert handler *)


Section AlertRules.

Variable cfg : config.
Variable host : Host.
Variable weather_code_to_description : Z -> string.
Variable str_number : Q -> string.

(** The result of the handler on a given input: the scan, then the
    dictionary. *)
Lemma get_weather_alerts_on_input (location_name : string) (tr : trace)
    (current : Current.t) (hourly : Hourly.t) :
  alerts_input cfg host location_name tr current hourly ->
  exists location,
    fst (get_weather_alerts cfg host weather_code_to_description str_number
           location_name tr)
    = (alerts <-?
         upcoming_scan cfg hourly
           (current_alerts cfg weather_code_to_description str_number current)
           (py_range (scanned_hours hourly)) ;;
       Ok (Alerts.mk location alerts (len alerts) (now host))).
Proof.
  intros (location & tr1 & weather_data & Hres & Hanswer & Hcur & Hhour).
  exists location.
  rewrite (get_weather_alerts_run cfg host _ _ _ _ _ _ Hres).
  cbn [fst]. unfold weather_alerts_of.
  rewrite Hanswer. cbn [rbind]. rewrite Hcur, Hhour. reflexivity.
Qed.

Lemma current_code_alerts_severity (code : Z) :
  any_severe (current_code_alerts cfg weather_code_to_description code)
  = code_in code (SEVERE_WEATHER_CODES cfg)
    || code_in code (FREEZING_RAIN_CODES cfg).
Proof.
  unfold current_code_alerts.
  destruct (code_in code (SEVERE_WEATHER_CODES cfg)); [reflexivity |].
  destruct (code_in code (FREEZING_RAIN_CODES cfg)); [reflexivity |].
  destruct (code_in code (SNOW_CODES cfg)); reflexivity.
Qed.

Lemma current_alerts_severity (current : Current.t) :
  any_severe
    (current_alerts cfg weather_code_to_description str_number current)
  = code_in (Current.weather_code current) (SEVERE_WEATHER_CODES cfg)
    || code_in (Current.weather_code current) (FREEZING_RAIN_CODES cfg).
Proof.
  unfold current_alerts. rewrite any_severe_app, current_code_alerts_severity.
  destruct (wind_alerts_titles cfg str_number
              (Current.wind_speed_10m current)) as (_ & _ & _ & ->).
  apply orb_false_r.
Qed.

Lemma current_code_alerts_length (code : Z) :
  (List.length (current_code_alerts cfg weather_code_to_description code)
   <= 1)%nat.
Proof.
  unfold current_code_alerts.
  destruct (code_in code (SEVERE_WEATHER_CODES cfg)); [cbn; lia |].
  destruct (code_in code (FREEZING_RAIN_CODES cfg)); [cbn; lia |].
  destruct (code_in code (SNOW_CODES cfg)); cbn; lia.
Qed.

Lemma high_wind_iff (wind : Q) :
  high_wind cfg wind = true <-> (HIGH_WIND_THRESHOLD_KMH cfg < wind)%Q.
Proof.
  unfold high_wind. split.
  - intros Hhigh. apply Qnot_le_lt. intros Hle.
    apply Qle_bool_iff in Hle. rewrite Hle in Hhigh. discriminate.
  - apply high_wind_exceeds.
Qed.

(** The scan returns when every index it is given has a weather code and a
    time. *)
Lemma upcoming_scan_total (hourly : Hourly.t) (indices : list Z) :
  (forall i, In i indices ->
     0 <= i < len (Hourly.weather_code hourly)
     /\ i < len (Hourly.time hourly)) ->
  forall alerts, exists alerts',
    upcoming_scan cfg hourly alerts indices = Ok alerts'.
Proof.
  induction indices as [| i rest IH]; intros Hin alerts.
  - exists alerts. reflexivity.
  - destruct (Hin i (or_introl eq_refl)) as [Hcode Htime].
    destruct (proj2 (py_getitem_Ok_iff (Hourly.weather_code hourly) i
                       (proj1 Hcode))) as [code Hc]; [lia |].
    destruct (proj2 (py_getitem_Ok_iff (Hourly.time hourly) i
                       (proj1 Hcode))) as [time Ht]; [lia |].
    cbn [upcoming_scan]. rewrite Hc. cbn [rbind].
    destruct (_ && _).
    + rewrite Ht. cbn [rbind]. eexists. reflexivity.
    + apply IH. intros j Hj. apply Hin. right. exact Hj.
Qed.

(** While an alert of type ["severe_weather"] is recorded the scan reads the
    code of every hour it is given. *)
Lemma upcoming_scan_suppressed_reads (hourly : Hourly.t) (indices : list Z)
    (alerts : list Alert.t) :
  any_severe alerts = true ->
  (exists i, In i indices /\ 0 <= i
             /\ len (Hourly.weather_code hourly) <= i) ->
  upcoming_scan cfg hourly alerts indices = Raise IndexError.
Proof.
  intros Hany. induction indices as [| j rest IH]; intros (i & Hi & Hlo & Hhi);
    [destruct Hi |].
  cbn [upcoming_scan].
  destruct (py_getitem (Hourly.weather_code hourly) j) as [code |] eqn:Hj.
  - cbn [rbind]. rewrite Hany, andb_false_r. apply IH.
    destruct Hi as [-> | Hi]; [| exists i; auto].
    exfalso.
    assert (i < len (Hourly.weather_code hourly))
      by (apply py_getitem_Ok_iff; eauto).
    lia.
  - cbn [rbind]. rewrite (py_getitem_raises _ _ _ Hj). reflexivity.
Qed.

(** X11. When the location resolves and the service answers with the
    current and hourly groups, [get_weather_alerts] returns as soon as the
    weather-code column covers the hours scanned, [min(24, len(time))]. *)
Theorem weather_alerts_succeed (location_name : string) (tr : trace)
    (current : Current.t) (hourly : Hourly.t) :
  alerts_input cfg host location_name tr current hourly ->
  scanned_hours hourly <= len (Hourly.weather_code hourly) ->
  exists r,
    fst (get_weather_alerts cfg host weather_code_to_description str_number
           location_name tr) = Ok r.
Proof.
  intros Hinput Hcodes.
  destruct (get_weather_alerts_on_input _ _ _ _ Hinput) as [location ->].
  destruct (upcoming_scan_total hourly (py_range (scanned_hours hourly)))
    with (alerts := current_alerts cfg weather_code_to_description
                      str_number current) as [alerts Hscan].
  - intros i Hi. apply In_py_range in Hi. unfold scanned_hours in *. lia.
  - rewrite Hscan. cbn [rbind]. eexists. reflexivity.
Qed.

(** X12. The list returned by [get_weather_alerts] is, in this order, at
    most one alert for the current code, at most one wind warning and at most
    one incoming-thunderstorm alert: never more than three entries. *)
Theorem weather_alerts_order (location_name : string) (tr : trace)
    (current : Current.t) (hourly : Hourly.t) (r : Alerts.t) :
  alerts_input cfg host location_name tr current hourly ->
  fst (get_weather_alerts cfg host weather_code_to_description str_number
         location_name tr) = Ok r ->
  exists upcoming,
    Alerts.alerts r
    = current_code_alerts cfg weather_code_to_description
        (Current.weather_code current)
      ++ wind_alerts cfg str_number (Current.wind_speed_10m current)
      ++ upcoming
    /\ (List.length
          (current_code_alerts cfg weather_code_to_description
             (Current.weather_code current)) <= 1)%nat
    /\ (List.length
          (wind_alerts cfg str_number (Current.wind_speed_10m current))
        <= 1)%nat
    /\ (upcoming = []
        \/ exists time, upcoming = [incoming_thunderstorm time])
    /\ Alerts.alert_count r <= 3.
Proof.
  intros Hinput Hrun.
  destruct (get_weather_alerts_on_input _ _ _ _ Hinput) as [location Heq].
  rewrite Heq in Hrun. invert_chain. subst r.
  cbn [Alerts.alerts Alerts.alert_count].
  pose proof (current_code_alerts_length (Current.weather_code current))
    as Hcode.
  assert (Hwind : (List.length
                     (wind_alerts cfg str_number
                        (Current.wind_speed_10m current)) <= 1)%nat).
  { unfold wind_alerts. destruct (high_wind cfg _); cbn; lia. }
  match goal with
  | H : upcoming_scan _ _ _ _ = Ok _ |- _ =>
      destruct (upcoming_scan_Ok _ _ _ _ _ H)
        as [-> | (_ & pre & i & post & time & _ & _ & _ & ->)]
  end.
  - exists []. rewrite app_nil_r. unfold current_alerts.
    repeat split; try assumption; [left; reflexivity |].
    unfold len. rewrite length_app. lia.
  - exists [incoming_thunderstorm time]. unfold current_alerts.
    rewrite <- app_assoc.
    repeat split; try assumption; [right; eexists; reflexivity |].
    unfold len. rewrite !length_app. cbn [List.length]. lia.
Qed.

(** X13. With a current code that is a freezing-rain code and not a
    thunderstorm code, the list is the freezing-rain warning followed by the
    wind warning if any: the warning has type ["severe_weather"], so no
    incoming-thunderstorm alert is added even when the coming hours hold
    thunderstorm codes. *)
Theorem freezing_rain_hides_incoming_thunderstorm (location_name : string)
    (tr : trace) (current : Current.t) (hourly : Hourly.t) (r : Alerts.t) :
  alerts_input cfg host location_name tr current hourly ->
  fst (get_weather_alerts cfg host weather_code_to_description str_number
         location_name tr) = Ok r ->
  code_in (Current.weather_code current) (SEVERE_WEATHER_CODES cfg) = false ->
  code_in (Current.weather_code current) (FREEZING_RAIN_CODES cfg) = true ->
  Alerts.alerts r
  = freezing_rain_warning weather_code_to_description
      (Current.weather_code current)
    :: wind_alerts cfg str_number (Current.wind_speed_10m current).
Proof.
  intros Hinput Hrun Hnot Hfreezing.
  destruct (get_weather_alerts_on_input _ _ _ _ Hinput) as [location Heq].
  rewrite Heq in Hrun. invert_chain. subst r. cbn [Alerts.alerts].
  match goal with
  | H : upcoming_scan _ _ _ _ = Ok _ |- _ =>
      apply upcoming_scan_suppressed in H
  end.
  - subst. unfold current_alerts, current_code_alerts.
    rewrite Hnot, Hfreezing. reflexivity.
  - rewrite current_alerts_severity, Hnot, Hfreezing. reflexivity.
Qed.

(** X14. The wind warning is present exactly when the current wind speed is
    strictly above the threshold: a speed equal to the threshold gives no
    warning. *)
Theorem wind_warning_iff_above_threshold (location_name : string)
    (tr : trace) (current : Current.t) (hourly : Hourly.t) (r : Alerts.t) :
  alerts_input cfg host location_name tr current hourly ->
  fst (get_weather_alerts cfg host weather_code_to_description str_number
         location_name tr) = Ok r ->
  ((HIGH_WIND_THRESHOLD_KMH cfg < Current.wind_speed_10m current)%Q ->
   filter (has_title "High Wind Warning") (Alerts.alerts r)
   = [high_wind_warning str_number (Current.wind_speed_10m current)])
  /\ ((Current.wind_speed_10m current <= HIGH_WIND_THRESHOLD_KMH cfg)%Q ->
      filter (has_title "High Wind Warning") (Alerts.alerts r) = []).
Proof.
  intros Hinput Hrun.
  destruct (get_weather_alerts_on_input _ _ _ _ Hinput) as [location Heq].
  rewrite Heq in Hrun. invert_chain. subst r. cbn [Alerts.alerts].
  assert (Hcode : filter (has_title "High Wind Warning")
                    (current_code_alerts cfg weather_code_to_description
                       (Current.weather_code current)) = []).
  { unfold current_code_alerts.
    destruct (code_in _ (SEVERE_WEATHER_CODES cfg)); [reflexivity |].
    destruct (code_in _ (FREEZING_RAIN_CODES cfg)); [reflexivity |].
    destruct (code_in _ (SNOW_CODES cfg)); reflexivity. }
  assert (Hall : filter (has_title "High Wind Warning") a
                 = filter (has_title "High Wind Warning")
                     (wind_alerts cfg str_number
                        (Current.wind_speed_10m current))).
  { match goal with
    | H : upcoming_scan _ _ _ _ = Ok _ |- _ =>
        destruct (upcoming_scan_Ok _ _ _ _ _ H)
          as [-> | (_ & pre & i & post & time & _ & _ & _ & ->)]
    end; unfold current_alerts; rewrite !filter_app, Hcode;
      cbn [app filter has_title]; [reflexivity | apply app_nil_r]. }
  rewrite Hall. unfold wind_alerts. split.
  - intros Habove. rewrite (proj2 (high_wind_iff _) Habove). reflexivity.
  - intros Hbelow.
    destruct (high_wind cfg (Current.wind_speed_10m current)) eqn:Hhigh;
      [| reflexivity].
    apply high_wind_iff in Hhigh. exfalso.
    apply (Qlt_not_le _ _ Hhigh). exact Hbelow.
Qed.

(** X15. Nothing to report: when the current code is in none of the three
    sets, the wind is not above the threshold and none of the hours scanned
    has a thunderstorm code, the handler returns an empty list and a count of
    zero. *)
Theorem weather_alerts_none (location_name : string) (tr : trace)
    (current : Current.t) (hourly : Hourly.t) :
  alerts_input cfg host location_name tr current hourly ->
  code_in (Current.weather_code current) (SEVERE_WEATHER_CODES cfg) = false ->
  code_in (Current.weather_code current) (FREEZING_RAIN_CODES cfg) = false ->
  code_in (Current.weather_code current) (SNOW_CODES cfg) = false ->
  (Current.wind_speed_10m current <= HIGH_WIND_THRESHOLD_KMH cfg)%Q ->
  scanned_hours hourly <= len (Hourly.weather_code hourly) ->
  (forall i code,
     0 <= i < scanned_hours hourly ->
     py_getitem (Hourly.weather_code hourly) i = Ok code ->
     code_in code (SEVERE_WEATHER_CODES cfg) = false) ->
  exists r,
    fst (get_weather_alerts cfg host weather_code_to_description str_number
           location_name tr) = Ok r
    /\ Alerts.alerts r = []
    /\ Alerts.alert_count r = 0.
Proof.
  intros Hinput Hsevere Hfreezing Hsnow Hwind Hcodes Hquiet.
  destruct (get_weather_alerts_on_input _ _ _ _ Hinput) as [location ->].
  assert (Hbase : current_alerts cfg weather_code_to_description str_number
                    current = []).
  { unfold current_alerts, current_code_alerts, wind_alerts.
    rewrite Hsevere, Hfreezing, Hsnow.
    destruct (high_wind cfg (Current.wind_speed_10m current)) eqn:Hhigh;
      [| reflexivity].
    apply high_wind_iff in Hhigh. exfalso.
    apply (Qlt_not_le _ _ Hhigh). exact Hwind. }
  rewrite Hbase.
  destruct (upcoming_scan_total hourly (py_range (scanned_hours hourly)))
    with (alerts := @nil Alert.t) as [alerts Hscan].
  { intros i Hi. apply In_py_range in Hi. unfold scanned_hours in *. lia. }
  rewrite Hscan. cbn [rbind].
  destruct (upcoming_scan_Ok _ _ _ _ _ Hscan)
    as [-> | (_ & pre & i & post & time & Hsplit
              & [(code & Hcode & Hmatch) _] & _ & _)].
  - eexists. repeat split.
  - exfalso. apply py_range_split in Hsplit as [Hi _].
    rewrite (Hquiet i code Hi Hcode) in Hmatch. discriminate.
Qed.


(** X17. With a thunderstorm or freezing rain now, nothing can be added by
    the scan, yet it still reads the code of every hour scanned: when the
    weather-code column is shorter than [min(24, len(time))] the handler
    raises [IndexError]. *)
Theorem suppressed_scan_still_reads_codes (location_name : string)
    (tr : trace) (current : Current.t) (hourly : Hourly.t) :
  alerts_input cfg host location_name tr current hourly ->
  code_in (Current.weather_code current) (SEVERE_WEATHER_CODES cfg)
  || code_in (Current.weather_code current) (FREEZING_RAIN_CODES cfg)
  = true ->
  len (Hourly.weather_code hourly) < scanned_hours hourly ->
  fst (get_weather_alerts cfg host weather_code_to_description str_number
         location_name tr) = Raise IndexError.
Proof.
  intros Hinput Hnow Hshort.
  destruct (get_weather_alerts_on_input _ _ _ _ Hinput) as [location ->].
  rewrite upcoming_scan_suppressed_reads; [reflexivity | |].
  - rewrite current_alerts_severity. exact Hnow.
  - exists (len (Hourly.weather_code hourly)).
    pose proof (len_nonneg (Hourly.weather_code hourly)).
    split; [apply In_py_range; lia | lia].
Qed.

End AlertRules.

(** ** The HTTP client *)

(** X18. Every failure of the exchange with the geocoding service or with
    the forecast service, be it a timeout, a refused connection, another
    request error or a response whose status is not 200, reaches the caller
    as a [ValueError]. *)
Theorem upstream_failures_are_value_errors
    (geocoding_outcome : http_outcome GeocodingBody.t)
    (forecast_outcome : http_outcome ForecastBody.t) :
  (upstream_failure geocoding_outcome ->
   exists msg, search_locations_answer geocoding_outcome
               = Raise (ValueError msg))
  /\ (upstream_failure forecast_outcome ->
      exists msg, get_weather_data_answer forecast_outcome
                  = Raise (ValueError msg)).
Proof.
  split.
  - destruct geocoding_outcome as [status text json | | | |];
      cbn [upstream_failure search_locations_answer]; intros Hfail;
      try (eexists; reflexivity); [| contradiction].
    destruct (Z.eqb_spec status 200); [contradiction |].
    eexists. reflexivity.
  - destruct forecast_outcome as [status text json | | | |];
      cbn [upstream_failure get_weather_data_answer]; intros Hfail;
      try (eexists; reflexivity); [| contradiction].
    destruct (Z.eqb_spec status 200); [contradiction |].
    eexists. reflexivity.
Qed.

(** X19. The message for a response whose status is not 200 carries the
    ["reason"] of the JSON body when the body parses and has one, "Unknown
    error" when it parses without one, and the status code and text of the
    response when it does not parse. *)
Theorem geocoding_error_message (status_code : Z) (text : string)
    (json : result GeocodingBody.t) :
  status_code <> 200 ->
  search_locations_answer (Responded status_code text json)
  = Raise (ValueError
             ("Geocoding API error: "
              ++ match json with
                 | Ok body =>
                     match GeocodingBody.reason body with
                     | Some reason => reason
                     | None => "Unknown error"
                     end
                 | Raise _ =>
                     "HTTP " ++ str_int status_code ++ ": " ++ text
                 end)%string).
Proof.
  intros Hstatus. cbn [search_locations_answer].
  destruct (Z.eqb_spec status_code 200); [contradiction |].
  destruct json as [body |]; cbn [rbind http_error_msg];
    [destruct (GeocodingBody.reason body) |]; reflexivity.
Qed.

Section ThroughTheClient.

Variable cfg : config.
Variable transport : Transport.
Variable answers : string -> ElicitationResult.
Variable clock : string.

(** X20. A geocoding response with status 200 whose JSON body has no
    ["results"] key counts as an empty result list: resolution through the
    client fails with the not-found error for the query and asks the user
    nothing. *)
Theorem missing_results_key_is_not_found (location_name text : string)
    (reason : option string) (tr : trace) :
  get_geocoding transport location_name
    (Z.min 10 (MAX_LOCATION_SEARCH_RESULTS cfg))
    = Responded 200 text (Ok (GeocodingBody.mk None reason)) ->
  resolve_location cfg (api_host transport answers clock) location_name tr
  = (Raise (NotFoundError location_name),
     tr ++ [search_request cfg location_name]).
Proof.
  intros Hget. unfold resolve_location, bind, search_locations.
  cbn [api_host geocoding]. rewrite Hget. reflexivity.
Qed.

End ThroughTheClient.

(** ** Missing groups *)

Section MissingGroups.

Variable cfg : config.
Variable host : Host.
Variable weather_code_to_description : Z -> string.
Variable str_number : Q -> string.

(** X21. When the answer of the forecast service lacks the group a handler
    reads first, the handler raises [KeyError] with the name of that group:
    ["current"] for the current weather and the alerts, ["daily"] for the
    daily forecast, ["hourly"] for the hourly forecast. *)
Theorem missing_group_is_key_error (location_name : string)
    (tr tr1 : trace) (location : LocationInfo.t) :
  resolve_location cfg host location_name tr = (Ok location, tr1) ->
  (forall temperature_unit weather_data,
     forecast host (current_weather_params location temperature_unit)
       = Ok weather_data ->
     WeatherData.current weather_data = None ->
     fst (get_current_weather cfg host weather_code_to_description
            location_name temperature_unit tr) = Raise (KeyError "current"))
  /\ (forall forecast_days temperature_unit weather_data,
        forecast host
          (weather_forecast_params cfg location forecast_days
             temperature_unit) = Ok weather_data ->
        WeatherData.daily weather_data = None ->
        fst (get_weather_forecast cfg host weather_code_to_description
               location_name forecast_days temperature_unit tr)
        = Raise (KeyError "daily"))
  /\ (forall forecast_hours temperature_unit weather_data,
        forecast host (hourly_forecast_params location temperature_unit)
          = Ok weather_data ->
        WeatherData.hourly weather_data = None ->
        fst (get_hourly_forecast cfg host weather_code_to_description
               location_name forecast_hours temperature_unit tr)
        = Raise (KeyError "hourly"))
  /\ (forall weather_data,
        forecast host (weather_alerts_params location) = Ok weather_data ->
        WeatherData.current weather_data = None ->
        fst (get_weather_alerts cfg host weather_code_to_description
               str_number location_name tr) = Raise (KeyError "current")).
Proof.
  intros Hres. repeat split.
  - intros temperature_unit weather_data Hanswer Hnone.
    rewrite (get_current_weather_run cfg host _ _ temperature_unit
               _ _ _ Hres).
    cbn [fst]. unfold current_weather_of. rewrite Hanswer. cbn [rbind].
    rewrite Hnone. reflexivity.
  - intros forecast_days temperature_unit weather_data Hanswer Hnone.
    rewrite (get_weather_forecast_run cfg host _ _ forecast_days
               temperature_unit _ _ _ Hres).
    cbn [fst]. unfold weather_forecast_of. rewrite Hanswer. cbn [rbind].
    rewrite Hnone. reflexivity.
  - intros forecast_hours temperature_unit weather_data Hanswer Hnone.
    rewrite (get_hourly_forecast_run cfg host _ _ forecast_hours
               temperature_unit _ _ _ Hres).
    cbn [fst]. unfold hourly_forecast_of. rewrite Hanswer. cbn [rbind].
    rewrite Hnone. reflexivity.
  - intros weather_data Hanswer Hnone.
    rewrite (get_weather_alerts_run cfg host _ _ _ _ _ _ Hres).
    cbn [fst]. unfold weather_alerts_of. rewrite Hanswer. cbn [rbind].
    rewrite Hnone. reflexivity.
Qed.

End MissingGroups.

(** ** Worked examples of the further properties *)

Ltac sample_input :=
  unfold alerts_input; do 3 eexists;
  split; [reflexivity | split; [reflexivity | split; reflexivity]].

Ltac refute_cover :=
  let H := fresh "H" in
  intros H; vm_compute in H;
  repeat match goal with
         | H : _ /\ _ |- _ => destruct H
         end;
  match goal with
  | H : Gt = Gt -> False |- _ => apply H; reflexivity
  end.

Lemma resolve_location_search_error_witness :
  resolve_location sample_cfg down_host "Vancouver" []
  = (Raise
       (ValueError
          "Request timeout - the geocoding service may be temporarily unavailable: timed out"),
     [GeocodingRequest "Vancouver" 10]).
Proof.
  exact (resolve_location_search_error sample_cfg down_host "Vancouver" []
           _ eq_refl).
Defined.

Lemma search_locations_tool_rejects_blank_witness :
  search_locations_tool sample_cfg (calm_host decline_answer) "    " 5 []
  = (Raise (ValueError too_short_message), [])
  /\ search_locations_tool sample_cfg (calm_host decline_answer)
       no_break_spaces 5 []
     = (Raise (ValueError too_short_message), []).
Proof.
  split.
  - exact (search_locations_tool_rejects_blank sample_cfg
             (calm_host decline_answer) "    " 5 [] eq_refl).
  - exact (search_locations_tool_rejects_blank sample_cfg
             (calm_host decline_answer) no_break_spaces 5 [] eq_refl).
Defined.

(** Seven Springfields are found; the tool returns them all, the second
    with its own coordinates, and asks nothing. *)
Lemma search_locations_tool_returns_all_witness :
  exists infos,
    search_locations_tool sample_cfg (calm_host decline_answer)
      "Springfield" 5 []
    = (Ok infos, [GeocodingRequest "Springfield" 5])
    /\ List.length infos = 7%nat
    /\ option_map LocationInfo.latitude (nth_error infos 1)
       = Some (3722 # 100).
Proof.
  destruct (search_locations_tool_returns_all sample_cfg
              (calm_host decline_answer) "Springfield" 5 [] springfields)
    as (count & infos & Hrun & Hbuilt & _ & _ & Hcount);
    [evaluate | reflexivity |].
  rewrite Hcount in Hrun by evaluate.
  exists infos. split; [exact Hrun |].
  unfold springfields in Hbuilt.
  repeat match goal with
         | H : Forall2 _ (_ :: _) _ |- _ => inversion H; subst; clear H
         | H : Forall2 _ [] _ |- _ => inversion H; subst; clear H
         end.
  split; [reflexivity |]. cbn [nth_error option_map].
  match goal with
  | H : built_from (springfield_at _ _ 2 _ _ _) ?info |- _ =>
      destruct H as (_ & _ & Hlat & _); rewrite Hlat
  end.
  reflexivity.
Defined.

Lemma weather_handlers_stop_on_resolution_error_witness :
  get_weather_alerts sample_cfg (calm_host decline_answer)
    sample_description sample_str_number "Atlantis" []
  = (Raise (NotFoundError "Atlantis"), [GeocodingRequest "Atlantis" 10]).
Proof.
  apply (weather_handlers_stop_on_resolution_error sample_cfg
           (calm_host decline_answer) sample_description sample_str_number
           "Atlantis" [] [GeocodingRequest "Atlantis" 10]
           (NotFoundError "Atlantis")).
  reflexivity.
Defined.

Lemma weather_handlers_request_forecast_witness :
  requests_forecast (calm_host decline_answer)
    [GeocodingRequest "Vancouver" 10] (location_info vancouver)
    (weather_forecast_params sample_cfg (location_info vancouver) 30
       "celsius")
    (get_weather_forecast sample_cfg (calm_host decline_answer)
       sample_description "Vancouver" 30 "celsius" []).
Proof.
  apply (weather_handlers_request_forecast sample_cfg
           (calm_host decline_answer) sample_description sample_str_number
           "Vancouver" [] [GeocodingRequest "Vancouver" 10]
           (location_info vancouver) eq_refl "celsius" 30 24).
Defined.

Lemma hourly_forecast_rows_witness :
  exists r tr',
    get_hourly_forecast sample_cfg full_host sample_description
      "Vancouver" 2 "celsius" [] = (Ok r, tr')
    /\ forall k point,
         nth_error (HourlyForecast.hourly_data r) k = Some point ->
         hourly_row sample_description full_hourly k point.
Proof.
  destruct (get_hourly_forecast sample_cfg full_host sample_description
              "Vancouver" 2 "celsius" [])
    as [[r | e] tr'] eqn:Hrun; [| vm_compute in Hrun; discriminate Hrun].
  exists r, tr'. split; [reflexivity |].
  destruct (hourly_forecast_rows sample_cfg full_host sample_description
              "Vancouver" 2 "celsius" [] tr' r Hrun)
    as (location & tr1 & weather_data & hourly & hourly_units
        & _ & Hanswer & Hgroup & _ & _ & _ & _ & _ & Hrows).
  cbn [full_host sample_host forecast] in Hanswer.
  unfold sample_forecast in Hanswer. injection Hanswer as <-.
  cbn [WeatherData.hourly] in Hgroup. injection Hgroup as <-.
  exact Hrows.
Defined.

Lemma weather_forecast_rows_witness :
  exists r tr',
    get_weather_forecast sample_cfg (calm_host decline_answer)
      sample_description "Vancouver" 3 "celsius" [] = (Ok r, tr')
    /\ WeatherForecast.location r = location_info vancouver
    /\ WeatherForecast.generated_at r = "2025-11-15T12:00:00".
Proof.
  destruct (get_weather_forecast sample_cfg (calm_host decline_answer)
              sample_description "Vancouver" 3 "celsius" [])
    as [[r | e] tr'] eqn:Hrun; [| vm_compute in Hrun; discriminate Hrun].
  exists r, tr'. split; [reflexivity |].
  destruct (weather_forecast_rows sample_cfg (calm_host decline_answer)
              sample_description "Vancouver" 3 "celsius" [] tr' r Hrun)
    as (location & tr1 & weather_data & daily & daily_units
        & Hres & _ & _ & _ & Hlocation & Hnow & _).
  vm_compute in Hres. injection Hres as <- _.
  split; [exact Hlocation | exact Hnow].
Defined.

(** Three days of full columns give three records. *)
Lemma weather_forecast_needs_full_columns_witness :
  exists r,
    fst (get_weather_forecast sample_cfg (calm_host decline_answer)
           sample_description "Vancouver" 3 "celsius" []) = Ok r
    /\ len (WeatherForecast.forecast_days r) = 3.
Proof.
  edestruct (weather_forecast_needs_full_columns sample_cfg
               (calm_host decline_answer) sample_description "Vancouver" 3
               "celsius" []) as [Hfull _];
    [reflexivity | reflexivity | reflexivity | reflexivity |].
  destruct Hfull as (r & Hrun & Hlen); [evaluate |].
  exists r. split; [exact Hrun | exact Hlen].
Defined.

(** Two hours are asked of an answer whose temperature column is empty. *)
Lemma hourly_forecast_needs_full_columns_witness :
  fst (get_hourly_forecast sample_cfg (calm_host decline_answer)
         sample_description "Vancouver" 2 "celsius" []) = Raise IndexError.
Proof.
  edestruct (hourly_forecast_needs_full_columns sample_cfg
               (calm_host decline_answer) sample_description "Vancouver" 2
               "celsius" []) as [_ Hragged];
    [reflexivity | reflexivity | reflexivity | reflexivity | reflexivity |].
  apply Hragged. refute_cover.
Defined.

Lemma weather_alerts_succeed_witness :
  exists r,
    fst (get_weather_alerts sample_cfg storm_host sample_description
           sample_str_number "Vancouver" []) = Ok r.
Proof.
  apply (weather_alerts_succeed sample_cfg storm_host sample_description
           sample_str_number "Vancouver" [] (sample_current 95 60)
           (sample_hourly ["h0"; "h1"; "h2"] [3; 95; 95]));
    [sample_input | evaluate].
Defined.

Lemma weather_alerts_order_witness :
  exists r,
    fst (get_weather_alerts sample_cfg storm_host sample_description
           sample_str_number "Vancouver" []) = Ok r
    /\ Alerts.alerts r
       = [thunderstorm_warning sample_description 95;
          high_wind_warning sample_str_number 60]
    /\ Alerts.alert_count r <= 3.
Proof.
  destruct (fst (get_weather_alerts sample_cfg storm_host sample_description
                   sample_str_number "Vancouver" []))
    as [r | e] eqn:Hrun; [| vm_compute in Hrun; discriminate Hrun].
  exists r. split; [reflexivity |].
  destruct (weather_alerts_order sample_cfg storm_host sample_description
              sample_str_number "Vancouver" [] (sample_current 95 60)
              (sample_hourly ["h0"; "h1"; "h2"] [3; 95; 95]) r)
    as (upcoming & _ & _ & _ & _ & Hcount); [sample_input | exact Hrun |].
  split; [| exact Hcount].
  vm_compute in Hrun. injection Hrun as <-. reflexivity.
Defined.

Lemma freezing_rain_hides_incoming_thunderstorm_witness :
  exists r,
    fst (get_weather_alerts sample_cfg freezing_host sample_description
           sample_str_number "Vancouver" []) = Ok r
    /\ Alerts.alerts r = [freezing_rain_warning sample_description 66].
Proof.
  destruct (fst (get_weather_alerts sample_cfg freezing_host
                   sample_description sample_str_number "Vancouver" []))
    as [r | e] eqn:Hrun; [| vm_compute in Hrun; discriminate Hrun].
  exists r. split; [reflexivity |].
  apply (freezing_rain_hides_incoming_thunderstorm sample_cfg freezing_host
           sample_description sample_str_number "Vancouver" []
           (sample_current 66 12)
           (sample_hourly ["h0"; "h1"; "h2"] [3; 95; 95]) r);
    [sample_input | exact Hrun | reflexivity | reflexivity].
Defined.

(** Wind at 50 km/h with a threshold of 50: no warning. *)
Lemma wind_warning_iff_above_threshold_witness :
  exists r,
    fst (get_weather_alerts sample_cfg breezy_host sample_description
           sample_str_number "Vancouver" []) = Ok r
    /\ filter (has_title "High Wind Warning") (Alerts.alerts r) = [].
Proof.
  destruct (fst (get_weather_alerts sample_cfg breezy_host
                   sample_description sample_str_number "Vancouver" []))
    as [r | e] eqn:Hrun; [| vm_compute in Hrun; discriminate Hrun].
  exists r. split; [reflexivity |].
  destruct (wind_warning_iff_above_threshold sample_cfg breezy_host
              sample_description sample_str_number "Vancouver" []
              (sample_current 3 50)
              (sample_hourly ["h0"; "h1"; "h2"] [3; 3; 3]) r)
    as [_ Hbelow]; [sample_input | exact Hrun |].
  apply Hbelow. evaluate.
Defined.

Lemma weather_alerts_none_witness :
  exists r,
    fst (get_weather_alerts sample_cfg (calm_host decline_answer)
           sample_description sample_str_number "Vancouver" []) = Ok r
    /\ Alerts.alerts r = []
    /\ Alerts.alert_count r = 0.
Proof.
  apply (weather_alerts_none sample_cfg (calm_host decline_answer)
           sample_description sample_str_number "Vancouver" []
           (sample_current 3 12)
           (sample_hourly ["h0"; "h1"; "h2"] [3; 3; 3]));
    [sample_input | reflexivity | reflexivity | reflexivity | evaluate
    | evaluate |].
  intros i code Hi Hcode.
  change (scanned_hours (sample_hourly ["h0"; "h1"; "h2"] [3; 3; 3]))
    with 3 in Hi.
  assert (Hcases : i = 0 \/ i = 1 \/ i = 2) by lia.
  destruct Hcases as [-> | [-> | ->]];
    vm_compute in Hcode; injection Hcode as <-; reflexivity.
Defined.


(** A thunderstorm now and one weather code for three hours. *)
Lemma suppressed_scan_still_reads_codes_witness :
  fst (get_weather_alerts sample_cfg short_codes_host sample_description
         sample_str_number "Vancouver" []) = Raise IndexError.
Proof.
  apply (suppressed_scan_still_reads_codes sample_cfg short_codes_host
           sample_description sample_str_number "Vancouver" []
           (sample_current 95 12) (sample_hourly ["h0"; "h1"; "h2"] [3]));
    [sample_input | reflexivity | evaluate].
Defined.

Lemma upstream_failures_are_value_errors_witness :
  exists msg,
    get_weather_data_answer (ConnectError "refused") = Raise (ValueError msg).
Proof.
  apply (upstream_failures_are_value_errors (TimeoutException "timed out")
           (ConnectError "refused")).
  exact I.
Defined.

Lemma geocoding_error_message_witness :
  search_locations_answer
    (Responded 404 "Not Found" (Raise (ValueError "not JSON")))
  = Raise (ValueError "Geocoding API error: HTTP 404: Not Found").
Proof.
  apply (geocoding_error_message 404 "Not Found"
           (Raise (ValueError "not JSON"))).
  evaluate.
Defined.

Lemma missing_results_key_is_not_found_witness :
  resolve_location sample_cfg
    (api_host bare_transport (fun _ => decline_answer) "2025-11-15T12:00:00")
    "Vancouver" []
  = (Raise (NotFoundError "Vancouver"), [GeocodingRequest "Vancouver" 10]).
Proof.
  apply (missing_results_key_is_not_found sample_cfg bare_transport
           (fun _ => decline_answer) "2025-11-15T12:00:00" "Vancouver"
           "{}" None []).
  reflexivity.
Defined.

Lemma missing_group_is_key_error_witness :
  fst (get_weather_forecast sample_cfg groupless_host sample_description
         "Vancouver" 3 "celsius" []) = Raise (KeyError "daily").
Proof.
  edestruct (missing_group_is_key_error sample_cfg groupless_host
               sample_description sample_str_number "Vancouver" [])
    as (_ & Hdaily & _); [reflexivity |].
  apply (Hdaily 3 "celsius" _ eq_refl). reflexivity.
Defined.

(** The user would choose Vancouver, second of two results, but the first
    one has no country: the options cannot be rendered. *)
Lemma resolve_location_missing_country_witness :
  resolve_location sample_cfg island_host "Null" []
  = (Raise (KeyError "country"), [GeocodingRequest "Null" 10]).
Proof.
  apply (resolve_location_missing_country sample_cfg island_host "Null" []
           [null_island; vancouver]);
    [reflexivity | evaluate | reflexivity].
Defined.
